(** * data-validation-engine: a shallow embedding of the quality-gated pipeline

    The development follows the repository's layout:

    - [Polars]: the part of the data-frame library the code calls
      (cells, rows, frames, [strip_chars], [unique], [filter], [drop]).
    - [Agents]: [src/agents/agentic_agents.py]
      ([DataProfilerAgent], [QualityAgent], [RemediationAgent]).
    - [Medallion]: [src/database/duckdb_manager.py] ([MedallionDuckDB]).
    - [Flows]: [src/orchestration/prefect_flows.py]
      ([create_gold_aggregations]).
    - [Rules]: [src/validation/business_rules.py] ([BusinessRuleValidator]).
    - [Wallet]: [validation/schema_validation.py] and the schema block of
      [main.py].

    Exceptions are values of [result]; Python dictionaries that are used as
    tables of a database are [gmap]s; everything else is lists and records. *)

From Stdlib Require Import ZArith List String Ascii Bool Lia Permutation.
From Stdlib Require Import QArith Qcanon.
From stdpp Require Import gmap strings list numbers.

Open Scope Z_scope.

(** ** Exceptions *)

Inductive exn :=
| ZeroDivisionError   (* Python: int / 0 *)
| TypeError           (* Python: 1 + None *)
| ComputeError        (* polars: comparison or .str on a column of the wrong dtype *)
| DuplicateError      (* polars: two columns of one name *)
| CatalogError        (* duckdb: no such table *)
| IOError.            (* no such file *)

Inductive result (A : Type) :=
| Ok (a : A)
| Raise (e : exn).
Arguments Ok {A} a.
Arguments Raise {A} e.

#[global] Instance result_ret : MRet result := fun A a => Ok a.
#[global] Instance result_bind : MBind result := fun A B f m =>
  match m with Ok a => f a | Raise e => Raise e end.

(** A [for] loop whose body may raise. *)
Fixpoint foldM {A S : Type} (body : S -> A -> result S) (l : list A) (s : S)
  : result S :=
  match l with
  | [] => Ok s
  | x :: l' => s' ← body s x; foldM body l' s'
  end.

Lemma foldM_app {A S : Type} (body : S -> A -> result S) (l1 l2 : list A) (s : S) :
  foldM body (l1 ++ l2) s = foldM body l1 s ≫= foldM body l2.
Proof.
  revert s; induction l1 as [|x l1 IH]; intros s; simpl; [done|].
  destruct (body s x) as [s'|e]; simpl; [apply IH | done].
Qed.

Module Polars.

(** ** Text *)

(** White space as [str.strip_chars()] sees it, over the ASCII range:
    U+0009..U+000D and U+0020. *)
Definition is_space (a : ascii) : bool :=
  let n := nat_of_ascii a in
  ((9 <=? n)%nat && (n <=? 13)%nat) || (n =? 32)%nat.

Fixpoint lstrip (s : string) : string :=
  match s with
  | EmptyString => EmptyString
  | String a s' => if is_space a then lstrip s' else s
  end.

Fixpoint rstrip (s : string) : string :=
  match s with
  | EmptyString => EmptyString
  | String a s' =>
      match rstrip s' with
      | EmptyString => if is_space a then EmptyString else String a EmptyString
      | t => String a t
      end
  end.

Definition strip_chars (s : string) : string := rstrip (lstrip s).

(** [str.lower()] over the ASCII range. *)
Definition lower_ascii (a : ascii) : ascii :=
  let n := nat_of_ascii a in
  if ((65 <=? n)%nat && (n <=? 90)%nat) then ascii_of_nat (n + 32) else a.

Fixpoint lower (s : string) : string :=
  match s with
  | EmptyString => EmptyString
  | String a s' => String (lower_ascii a) (lower s')
  end.

Fixpoint starts_with (p s : string) : bool :=
  match p, s with
  | EmptyString, _ => true
  | String a p', String b s' => bool_decide (a = b) && starts_with p' s'
  | String _ _, EmptyString => false
  end.

(** Python's [sub in s]. *)
Fixpoint contains (sub s : string) : bool :=
  starts_with sub s ||
  match s with
  | EmptyString => false
  | String _ s' => contains sub s'
  end.

(** ** Cells, rows, frames *)

(** The dtypes the pipeline's tables use.  A finite float is the rational
    it denotes (NaN and the infinities are left out), a date is its day
    number. *)
Inductive dtype := Int64 | Float64 | Utf8 | Date.

Inductive value :=
| VNull
| VInt (z : Z)
| VFloat (q : Qc)
| VStr (s : string)
| VDate (d : Z).

#[global] Instance dtype_eq_dec : EqDecision dtype.
Proof. solve_decision. Defined.
#[global] Instance value_eq_dec : EqDecision value.
Proof. solve_decision. Defined.

Definition Row := list value.

(** A frame: its columns in order, each with its dtype, and its rows, a cell
    per column. *)
Record DataFrame := mkDF {
  schema : list (string * dtype);
  rows : list Row
}.

Definition columns (df : DataFrame) : list string := map fst (schema df).

(** [len(df)] *)
Definition height (df : DataFrame) : nat := length (rows df).

(** The position and dtype of the column named [c]: [None] is
    [c not in df.columns]. *)
Fixpoint find_column (c : string) (sch : list (string * dtype)) : option (nat * dtype) :=
  match sch with
  | [] => None
  | (c', t) :: sch' =>
      if decide (c' = c) then Some (O, t)
      else '(i, t') ← find_column c sch'; Some (S i, t')
  end.

Definition cell (i : nat) (r : Row) : value := nth i r VNull.

(** [df[col]] as the list of its cells. *)
Definition series (i : nat) (df : DataFrame) : list value :=
  map (cell i) (rows df).

Definition is_null (v : value) : bool :=
  match v with VNull => true | _ => false end.

(** A nullable boolean that is true. *)
Definition is_true (o : option bool) : bool :=
  match o with Some true => true | _ => false end.

(** [Series.null_count()] *)
Definition null_count (s : list value) : nat := length (List.filter is_null s).

(** [Series.n_unique()]: null counts as one more value. *)
Definition n_unique {A} `{EqDecision A} (s : list A) : nat := length (remove_dups s).

Definition is_numeric (t : dtype) : bool :=
  match t with Int64 | Float64 => true | _ => false end.

(** *** Comparisons of a numeric column with an integer literal

    The result of [pl.col(c) >= k] on one cell: [None] is polars' null. *)
Definition num_cmp (cmpZ : Z -> bool) (cmpQ : Qc -> bool) (v : value) : option bool :=
  match v with
  | VInt z => Some (cmpZ z)
  | VFloat q => Some (cmpQ q)
  | _ => None
  end.

Definition ge_lit (k : Z) : value -> option bool :=
  num_cmp (fun z => bool_decide (k <= z)) (fun q => bool_decide (Qc_of_Z k <= q)%Qc).
Definition gt_lit (k : Z) : value -> option bool :=
  num_cmp (fun z => bool_decide (k < z)) (fun q => bool_decide (Qc_of_Z k < q)%Qc).
Definition le_lit (k : Z) : value -> option bool :=
  num_cmp (fun z => bool_decide (z <= k)) (fun q => bool_decide (q <= Qc_of_Z k)%Qc).
Definition lt_lit (k : Z) : value -> option bool :=
  num_cmp (fun z => bool_decide (z < k)) (fun q => bool_decide (q < Qc_of_Z k)%Qc).

(** Kleene conjunction and negation of nullable booleans ([&] and [~]). *)
Definition and3 (a b : option bool) : option bool :=
  match a, b with
  | Some false, _ | _, Some false => Some false
  | Some true, Some true => Some true
  | _, _ => None
  end.
Definition not3 (a : option bool) : option bool := negb <$> a.

(** [DataFrame.filter] keeps the rows whose predicate is true; a row whose
    predicate is null goes with those where it is false. *)
Definition keeps (p : Row -> option bool) (r : Row) : bool :=
  match p r with Some true => true | _ => false end.

Definition filter_rows (p : Row -> option bool) (df : DataFrame) : DataFrame :=
  mkDF (schema df) (List.filter (keeps p) (rows df)).

(** [df.filter(pl.col(c) <cmp> k)]: raises on a column that is not numeric. *)
Definition filter_num (c : string) (p : value -> option bool) (df : DataFrame)
  : result DataFrame :=
  match find_column c (schema df) with
  | Some (i, t) =>
      if is_numeric t then Ok (filter_rows (fun r => p (cell i r)) df)
      else Raise ComputeError
  | None => Raise ComputeError
  end.

(** *** Column-wise updates *)

Fixpoint update_nth {A} (i : nat) (f : A -> A) (l : list A) : list A :=
  match l, i with
  | [], _ => []
  | x :: l', O => f x :: l'
  | x :: l', S i' => x :: update_nth i' f l'
  end.

Fixpoint remove_nth {A} (i : nat) (l : list A) : list A :=
  match l, i with
  | [], _ => []
  | _ :: l', O => l'
  | x :: l', S i' => x :: remove_nth i' l'
  end.

Definition strip_value (v : value) : value :=
  match v with VStr s => VStr (strip_chars s) | _ => v end.

(** [df.with_columns(pl.col(c).str.strip_chars().alias(c))], column [i]. *)
Definition strip_column (i : nat) (df : DataFrame) : DataFrame :=
  mkDF (schema df) (map (update_nth i strip_value) (rows df)).

(** [df.drop(c)], column [i]. *)
Definition drop_column (i : nat) (df : DataFrame) : DataFrame :=
  mkDF (remove_nth i (schema df)) (map (remove_nth i) (rows df)).

(** *** [DataFrame.unique()]

    Called with its defaults ([keep='any'], [maintain_order=False]): one row
    of each group of equal rows is kept, and the order of the rows that come
    back is the engine's choice.  That choice is the parameter [order] of
    every function below that calls [unique]; [valid_order] says that it
    only rearranges. *)
Definition row_order := list Row -> list Row.

Definition valid_order (order : row_order) : Prop :=
  forall l, Permutation (order l) l.

Definition unique (order : row_order) (df : DataFrame) : DataFrame :=
  mkDF (schema df) (order (remove_dups (rows df))).

(** The order [maintain_order=True] would give. *)
Definition keep_order : row_order := fun l => l.

(** Another order the engine may give. *)
Definition reverse_order : row_order := fun l => rev l.

Lemma keep_order_valid : valid_order keep_order.
Proof. intros l. reflexivity. Qed.

Lemma reverse_order_valid : valid_order reverse_order.
Proof. intros l. apply Permutation_sym, Permutation_rev. Qed.

(** ** Facts about the library functions *)

Definition no_leading_space (s : string) : Prop :=
  match s with
  | EmptyString => True
  | String a _ => is_space a = false
  end.

Lemma lstrip_no_leading_space (s : string) : no_leading_space (lstrip s).
Proof.
  induction s as [|a s IH]; simpl; [done|].
  destruct (is_space a) eqn:Ha; [exact IH | exact Ha].
Qed.

Lemma lstrip_fixed (s : string) : no_leading_space s -> lstrip s = s.
Proof. destruct s as [|a s]; simpl; [done|]. by intros ->. Qed.

Lemma rstrip_no_leading_space (s : string) :
  no_leading_space s -> no_leading_space (rstrip s).
Proof.
  destruct s as [|a s]; simpl; [done|]. intros Ha.
  destruct (rstrip s); [by rewrite Ha | done].
Qed.

Lemma rstrip_idempotent (s : string) : rstrip (rstrip s) = rstrip s.
Proof.
  induction s as [|a s IH]; simpl; [done|].
  destruct (rstrip s) as [|b t] eqn:Hr.
  - destruct (is_space a) eqn:Ha; simpl; [done | by rewrite Ha].
  - change (rstrip (String a (String b t))) with
      (match rstrip (String b t) with
       | EmptyString => if is_space a then EmptyString else String a EmptyString
       | u => String a u
       end).
    by rewrite IH.
Qed.

Lemma strip_chars_idempotent (s : string) :
  strip_chars (strip_chars s) = strip_chars s.
Proof.
  unfold strip_chars.
  rewrite (lstrip_fixed (rstrip (lstrip s))).
  - apply rstrip_idempotent.
  - apply rstrip_no_leading_space, lstrip_no_leading_space.
Qed.

Lemma strip_value_idempotent (v : value) :
  strip_value (strip_value v) = strip_value v.
Proof. destruct v; simpl; [done..| |done]. by rewrite strip_chars_idempotent. Qed.

Lemma update_nth_idempotent {A} (f : A -> A) (i : nat) (l : list A) :
  (forall x, f (f x) = f x) ->
  update_nth i f (update_nth i f l) = update_nth i f l.
Proof.
  intros Hf. revert i; induction l as [|x l IH]; intros [|i]; simpl; [done..| |].
  - by rewrite Hf.
  - by rewrite IH.
Qed.

Lemma update_nth_comm {A} (f g : A -> A) (i j : nat) (l : list A) :
  (forall x, f (g x) = g (f x)) ->
  update_nth i f (update_nth j g l) = update_nth j g (update_nth i f l).
Proof.
  intros Hfg. revert i j; induction l as [|x l IH]; intros [|i] [|j]; simpl;
    [done..| | | |]; [by rewrite Hfg | done | done | by rewrite IH].
Qed.

Lemma cell_update_nth (f : value -> value) (i j : nat) (r : Row) :
  f VNull = VNull ->
  cell i (update_nth j f r) = if decide (i = j) then f (cell i r) else cell i r.
Proof.
  intros Hf. unfold cell. revert i j; induction r as [|x r IH]; intros i j.
  - destruct i, j; simpl; try case_decide; by rewrite ?Hf.
  - destruct i as [|i], j as [|j]; simpl; try done.
    rewrite IH. repeat case_decide; done || lia.
Qed.

Lemma num_cmp_strip_value cmpZ cmpQ (v : value) :
  num_cmp cmpZ cmpQ (strip_value v) = num_cmp cmpZ cmpQ v.
Proof. by destruct v. Qed.

End Polars.

(** * [src/agents/agentic_agents.py] *)

Module Agents.
Import Polars.

(** ** Issues and profiles *)

(** An issue dictionary.  Its [message] and [recommendation] are text built
    from the fields below and read by no function of the pipeline. *)
Record Issue := mkIssue {
  severity : string;
  type : string;
  column : string
}.

#[global] Instance Issue_eq_dec : EqDecision Issue.
Proof. solve_decision. Defined.

(** The entries of a column's profile that the agents read.
    [negative_count] and [whitespace_issues] are the keys that
    [profile.update] adds when its [try] block runs to the end. *)
Record ColumnProfile := mkColumnProfile {
  cp_dtype : dtype;
  cp_null_count : nat;
  null_percentage : Qc;
  unique_count : nat;
  unique_percentage : Qc;
  negative_count : option nat;
  whitespace_issues : option nat
}.

(** The profile dictionary.  Its [memory_usage_mb], [data_types] (the
    dtypes again) and [recommendations] (text derived from the issues) are
    read by no function here and are left out. *)
Record Profile := mkProfile {
  dataset_name : string;
  row_count : nat;
  column_count : nat;
  profile_columns : list (string * ColumnProfile);
  issues_detected : list Issue
}.

(** [n / len(df) * 100] on Python integers. *)
Definition percentage (n len : nat) : result Qc :=
  match len with
  | O => Raise ZeroDivisionError
  | _ => Ok (Qc_of_Z (Z.of_nat n) / Qc_of_Z (Z.of_nat len) * Qc_of_Z 100)%Qc
  end.

Definition count_where {A} (p : A -> bool) (l : list A) : nat :=
  length (List.filter p l).

(** [col_data.str.strip_chars().ne(col_data)] on one cell. *)
Definition strip_differs (v : value) : bool :=
  match v with
  | VStr s => negb (bool_decide (strip_chars s = s))
  | _ => false
  end.

Section Profiler.

(** Whether the summary statistics of the two [try] blocks of
    [_profile_column] can all be computed for a column ([float(None)] and
    the like raise inside the block, and the bare [except] then leaves the
    profile without the block's keys). *)
Variable numeric_stats_ok : list value -> bool.
Variable text_stats_ok : list value -> bool.

Definition _profile_column (df : DataFrame) (i : nat) (t : dtype)
  : result ColumnProfile :=
  let col_data := series i df in
  null_pct ← percentage (null_count col_data) (height df);
  unique_pct ← percentage (n_unique col_data) (height df);
  Ok {| cp_dtype := t;
        cp_null_count := null_count col_data;
        null_percentage := null_pct;
        unique_count := n_unique col_data;
        unique_percentage := unique_pct;
        negative_count :=
          if is_numeric t && numeric_stats_ok col_data
          then Some (count_where (fun v => is_true (lt_lit 0 v)) col_data)
          else None;
        whitespace_issues :=
          if bool_decide (t = Utf8) && text_stats_ok col_data
          then Some (count_where strip_differs col_data)
          else None |}.

Definition keywords : list string :=
  ["price"; "amount"; "quantity"; "age"; "count"].

Definition _detect_column_issues (col : string) (profile : ColumnProfile)
  : list Issue :=
  (if bool_decide (Qc_of_Z 50 < null_percentage profile)%Qc
   then [mkIssue "HIGH" "HIGH_NULL_RATE" col]
   else if bool_decide (Qc_of_Z 10 < null_percentage profile)%Qc
   then [mkIssue "MEDIUM" "MODERATE_NULL_RATE" col]
   else [])
  ++ (if bool_decide (unique_percentage profile < Qc_of_Z 5)%Qc
         && bool_decide (1 < unique_count profile)%nat
      then [mkIssue "INFO" "LOW_CARDINALITY" col]
      else [])
  ++ (match negative_count profile with
      | Some n =>
          if bool_decide (0 < n)%nat
             && existsb (fun keyword => contains keyword (lower col)) keywords
          then [mkIssue "HIGH" "NEGATIVE_VALUES" col]
          else []
      | None => []
      end)
  ++ (match whitespace_issues profile with
      | Some n =>
          if bool_decide (0 < n)%nat then [mkIssue "LOW" "WHITESPACE" col] else []
      | None => []
      end).

Definition _detect_dataset_issues (df : DataFrame) : list Issue :=
  let duplicate_count := (height df - n_unique (rows df))%nat in
  (if bool_decide (0 < duplicate_count)%nat
   then [mkIssue "MEDIUM" "DUPLICATES" "ALL"]
   else [])
  ++ flat_map
       (fun col =>
          match find_column col (schema df) with
          | Some (i, _) =>
              if bool_decide (null_count (series i df) = height df)
              then [mkIssue "HIGH" "EMPTY_COLUMN" col]
              else []
          | None => []
          end)
       (columns df).

(** The body of the loop [for col in df.columns] of [profile_dataset]; the
    state is [(profile['columns'], profile['issues_detected'])]. *)
Definition profile_step (df : DataFrame)
    (st : list (string * ColumnProfile) * list Issue) (col : string)
  : result (list (string * ColumnProfile) * list Issue) :=
  match find_column col (schema df) with
  | Some (i, t) =>
      col_profile ← _profile_column df i t;
      Ok (st.1 ++ [(col, col_profile)],
          st.2 ++ _detect_column_issues col col_profile)
  | None => Ok st
  end.

Definition profile_dataset (df : DataFrame) (name : string) : result Profile :=
  '(cols, issues) ← foldM (profile_step df) (columns df) ([], []);
  Ok {| dataset_name := name;
        row_count := height df;
        column_count := length (columns df);
        profile_columns := cols;
        issues_detected := issues ++ _detect_dataset_issues df |}.

End Profiler.

(** ** [QualityAgent.calculate_quality_score]

    The score starts at [100.0] and loses whole numbers only, so the float
    is the integer it denotes. *)
Definition issue_step (score : Z) (issue : Issue) : Z :=
  if decide (severity issue = "HIGH") then score - 10
  else if decide (severity issue = "MEDIUM") then score - 5
  else if decide (severity issue = "LOW") then score - 2
  else score.

Definition column_step (score : Z) (entry : string * ColumnProfile) : Z :=
  let null_pct := null_percentage entry.2 in
  if bool_decide (Qc_of_Z 50 < null_pct)%Qc then score - 5
  else if bool_decide (Qc_of_Z 20 < null_pct)%Qc then score - 2
  else score.

Definition calculate_quality_score (profile : Profile) : Z :=
  let score := 100 in
  let score := fold_left issue_step (issues_detected profile) score in
  let score := fold_left column_step (profile_columns profile) score in
  Z.max 0 score.

(** The score as section 4.4 of the specification words it. *)
Definition count_severity (sev : string) (profile : Profile) : Z :=
  Z.of_nat (count_where (fun i => bool_decide (severity i = sev))
                        (issues_detected profile)).

Definition count_columns (p : Qc -> bool) (profile : Profile) : Z :=
  Z.of_nat (count_where (fun e => p (null_percentage e.2))
                        (profile_columns profile)).

Definition clamp (lo hi x : Z) : Z := Z.min hi (Z.max lo x).

Definition score_spec (profile : Profile) : Z :=
  clamp 0 100
    (100 - 10 * count_severity "HIGH" profile
         - 5 * count_severity "MEDIUM" profile
         - 2 * count_severity "LOW" profile
         - 5 * count_columns (fun pct => bool_decide (Qc_of_Z 50 < pct)%Qc) profile
         - 2 * count_columns
                 (fun pct => bool_decide (Qc_of_Z 20 < pct)%Qc
                             && bool_decide (pct <= Qc_of_Z 50)%Qc) profile).

(** ** [RemediationAgent.auto_remediate] *)

(** An entry of [remediation_actions].  The [reason] of a dropped column is
    text (the null rate, formatted) and is left out. *)
Record RemediationAction := mkAction {
  action_issue : Issue;
  action : string;
  action_column : option string;
  rows_removed : option Z;
  status : string
}.

Section Remediation.

(** The order in which [unique] hands back the rows it keeps. *)
Variable order : row_order.

(** One turn of the loop [for issue in issues]: the frame after it, and the
    [action] it built ([None] when [action] stays [None]). *)
Definition remediate_issue (df_fixed : DataFrame) (issue : Issue)
  : result (DataFrame * option RemediationAction) :=
  if decide (type issue = "WHITESPACE") then
    let col := column issue in
    match find_column col (schema df_fixed) with
    | Some (i, Utf8) =>
        Ok (strip_column i df_fixed,
            Some (mkAction issue "TRIMMED_WHITESPACE" (Some col) None "SUCCESS"))
    | _ => Ok (df_fixed, None)
    end
  else if decide (type issue = "DUPLICATES") then
    let original_count := height df_fixed in
    let df_fixed' := unique order df_fixed in
    let removed := Z.of_nat original_count - Z.of_nat (height df_fixed') in
    Ok (df_fixed',
        Some (mkAction issue "REMOVED_DUPLICATES" None (Some removed) "SUCCESS"))
  else if decide (type issue = "NEGATIVE_VALUES") then
    let col := column issue in
    match find_column col (schema df_fixed) with
    | Some _ =>
        let original_count := height df_fixed in
        df_fixed' ← filter_num col (ge_lit 0) df_fixed;
        let removed := Z.of_nat original_count - Z.of_nat (height df_fixed') in
        Ok (df_fixed',
            Some (mkAction issue "FILTERED_NEGATIVE_VALUES" (Some col)
                           (Some removed) "SUCCESS"))
    | None => Ok (df_fixed, None)
    end
  else if decide (type issue = "HIGH_NULL_RATE") then
    let col := column issue in
    match find_column col (schema df_fixed) with
    | Some (i, _) =>
        null_pct ← percentage (null_count (series i df_fixed)) (height df_fixed);
        if bool_decide (Qc_of_Z 80 < null_pct)%Qc then
          Ok (drop_column i df_fixed,
              Some (mkAction issue "DROPPED_COLUMN" (Some col) None "SUCCESS"))
        else Ok (df_fixed, None)
    | None => Ok (df_fixed, None)
    end
  else Ok (df_fixed, None).

(** [if action: remediation_actions.append(action)] *)
Definition record_action (actions : list RemediationAction)
    (a : option RemediationAction) : list RemediationAction :=
  match a with
  | Some x => actions ++ [x]
  | None => actions
  end.

Definition remediate_step (st : DataFrame * list RemediationAction)
    (issue : Issue) : result (DataFrame * list RemediationAction) :=
  '(df_fixed, a) ← remediate_issue st.1 issue;
  Ok (df_fixed, record_action st.2 a).

(** The agent's own [remediation_log] receives the same actions and is not
    read here. *)
Definition auto_remediate (df : DataFrame) (issues : list Issue)
  : result (DataFrame * list RemediationAction) :=
  foldM remediate_step issues (df, []).

End Remediation.

(** ** Facts about percentages *)

(** The null rate is compared as the exact ratio.  In the code it is a
    double, [n / len * 100]; the two readings agree at the thresholds the
    agents use (5, 10, 20, 50, 80) for frames below 2^40 rows. *)
Lemma percentage_gt (k : Z) (n len : nat) (q : Qc) :
  percentage n len = Ok q ->
  (Qc_of_Z k < q)%Qc <-> k * Z.of_nat len < 100 * Z.of_nat n.
Proof.
  destruct len as [|len']; [discriminate|].
  assert (HL : 0 < Z.of_nat (S len')) by lia.
  unfold percentage. generalize dependent (Z.of_nat (S len')). intros L HL [= <-].
  assert (Hpos : (0 < Qc_of_Z L)%Qc).
  { rewrite <- Z2Qc_inj_0. exact (proj1 (Z2Qc_inj_lt 0 L) HL). }
  assert (Hne : Qc_of_Z L <> 0%Qc).
  { intros H. rewrite H in Hpos. by apply (Qclt_not_eq _ _ Hpos). }
  rewrite (Qcmult_lt_mono_pos_r _ _ _ Hpos).
  replace (Qc_of_Z (Z.of_nat n) / Qc_of_Z L * Qc_of_Z 100 * Qc_of_Z L)%Qc
    with (Qc_of_Z 100 * Qc_of_Z (Z.of_nat n))%Qc by (field; exact Hne).
  rewrite <- !Z2Qc_inj_mul. symmetry. apply Z2Qc_inj_lt.
Qed.

(** ** The score: agreement with the specification, and its range *)

Section ScoreFacts.

Let cnt (sev : string) (l : list Issue) : Z :=
  Z.of_nat (count_where (fun i => bool_decide (severity i = sev)) l).

Let cntc (p : Qc -> bool) (l : list (string * ColumnProfile)) : Z :=
  Z.of_nat (count_where (fun e => p (null_percentage e.2)) l).

Lemma fold_issue_step (l : list Issue) (a : Z) :
  fold_left issue_step l a
  = a - 10 * cnt "HIGH" l - 5 * cnt "MEDIUM" l - 2 * cnt "LOW" l.
Proof.
  revert a; induction l as [|i l IH]; intros a; simpl.
  - unfold cnt, count_where; simpl; lia.
  - rewrite IH. unfold issue_step, cnt, count_where in *. simpl.
    repeat case_decide; repeat case_bool_decide;
      simpl length; try congruence; lia.
Qed.

Lemma fold_column_step (l : list (string * ColumnProfile)) (a : Z) :
  fold_left column_step l a
  = a - 5 * cntc (fun pct => bool_decide (Qc_of_Z 50 < pct)%Qc) l
      - 2 * cntc (fun pct => bool_decide (Qc_of_Z 20 < pct)%Qc
                             && bool_decide (pct <= Qc_of_Z 50)%Qc) l.
Proof.
  revert a; induction l as [|e l IH]; intros a; simpl.
  - unfold cntc, count_where; simpl; lia.
  - rewrite IH. unfold column_step, cntc, count_where in *. simpl.
    assert (Hlt : (Qc_of_Z 20 < Qc_of_Z 50)%Qc) by (by apply Qclt_alt).
    repeat case_bool_decide; simpl; simpl length; try lia; exfalso;
      repeat match goal with
             | H : (?a < ?x)%Qc, H' : (?x <= ?a)%Qc |- _ =>
                 exact (Qclt_not_le _ _ H H')
             | H : ~ (?x <= ?a)%Qc, H' : ~ (?a < ?x)%Qc |- _ =>
                 apply H, Qcnot_lt_le, H'
             | H : (Qc_of_Z 50 < ?x)%Qc, H' : ~ (Qc_of_Z 20 < ?x)%Qc |- _ =>
                 apply H'; etrans; [exact Hlt | exact H]
             end.
Qed.

(** C3. For every profile the score that [calculate_quality_score] returns
    is the one the specification words: 100, minus 10 per HIGH issue, 5 per
    MEDIUM, 2 per LOW (nothing for INFO), minus 5 per column whose null
    percentage is over 50 and 2 per column where it is in (20, 50], both
    penalties counting for a column that has an issue and a high null
    rate, clamped to [0, 100]. *)
Theorem calculate_quality_score_spec (profile : Profile) :
  calculate_quality_score profile = score_spec profile.
Proof.
  unfold calculate_quality_score, score_spec, clamp.
  rewrite fold_column_step, fold_issue_step.
  unfold cnt, cntc, count_severity, count_columns. lia.
Qed.

Lemma score_range (profile : Profile) :
  0 <= calculate_quality_score profile <= 100.
Proof.
  unfold calculate_quality_score.
  rewrite fold_column_step, fold_issue_step. unfold cnt, cntc. lia.
Qed.

End ScoreFacts.

(** ** The profiler returns on every frame that has a row *)

Section ProfilerFacts.

Variable numeric_stats_ok : list value -> bool.
Variable text_stats_ok : list value -> bool.

Lemma percentage_Ok (n len : nat) :
  len <> O -> exists q, percentage n len = Ok q.
Proof. destruct len; [done | eauto]. Qed.

Lemma _profile_column_Ok (df : DataFrame) (i : nat) (t : dtype) :
  height df <> O ->
  exists cp, _profile_column numeric_stats_ok text_stats_ok df i t = Ok cp.
Proof.
  intros Hh. unfold _profile_column.
  destruct (percentage_Ok (null_count (series i df)) _ Hh) as [q1 ->].
  destruct (percentage_Ok (n_unique (series i df)) _ Hh) as [q2 ->].
  simpl. eauto.
Qed.

Lemma profile_step_Ok (df : DataFrame) (c : string) st :
  height df <> O ->
  exists st', profile_step numeric_stats_ok text_stats_ok df st c = Ok st'.
Proof.
  intros Hh. unfold profile_step.
  destruct (find_column c (schema df)) as [[i t]|]; [|eauto].
  destruct (_profile_column_Ok df i t Hh) as [cp ->]. simpl. eauto.
Qed.

Lemma profile_loop_Ok (df : DataFrame) (cols : list string) st :
  height df <> O ->
  exists st',
    foldM (profile_step numeric_stats_ok text_stats_ok df) cols st = Ok st'.
Proof.
  intros Hh. revert st; induction cols as [|c cols IH]; intros st.
  - simpl. eauto.
  - cbn [foldM]. destruct (profile_step_Ok df c st Hh) as [st' ->].
    simpl. apply IH.
Qed.

Lemma find_column_head (c : string) (t : dtype) sch :
  find_column c ((c, t) :: sch) = Some (O, t).
Proof. cbn [find_column]. destruct (decide (c = c)); [done | congruence]. Qed.

Lemma profile_step_empty (df : DataFrame) (c : string) i t st :
  find_column c (schema df) = Some (i, t) ->
  height df = O ->
  profile_step numeric_stats_ok text_stats_ok df st c = Raise ZeroDivisionError.
Proof.
  intros Hf Hh. unfold profile_step, _profile_column. rewrite Hf, Hh.
  reflexivity.
Qed.

(** An empty frame that has a column is not profiled: the first
    percentage divides by [len(df) = 0]. *)
Lemma profile_dataset_empty (c : string) (t : dtype) sch (name : string) :
  profile_dataset numeric_stats_ok text_stats_ok (mkDF ((c, t) :: sch) []) name
  = Raise ZeroDivisionError.
Proof.
  unfold profile_dataset, columns. cbn [map fst schema foldM].
  rewrite (profile_step_empty _ c O t); [reflexivity | | reflexivity].
  apply find_column_head.
Qed.

(** C4. The score of a data set's profile lies in [0, 100]: the profiler
    returns a profile for every frame with at least one row, and the score
    of whatever profile it returns is at least 0 and at most 100. *)
Theorem quality_score_of_profile_in_range (df : DataFrame) (name : string) :
  (rows df <> [] ->
   exists profile,
     profile_dataset numeric_stats_ok text_stats_ok df name = Ok profile)
  /\ (forall profile,
        profile_dataset numeric_stats_ok text_stats_ok df name = Ok profile ->
        0 <= calculate_quality_score profile <= 100).
Proof.
  split.
  - intros Hrows.
    assert (Hh : height df <> O) by (unfold height; destruct (rows df); done).
    unfold profile_dataset.
    destruct (profile_loop_Ok df (columns df) ([], []) Hh) as [[cols issues] ->].
    simpl. eauto.
  - intros profile _. apply score_range.
Qed.

End ProfilerFacts.

(** ** Remediation, one issue at a time *)

Lemma auto_remediate_snoc (order : row_order) (df : DataFrame)
    (issues : list Issue) (issue : Issue) :
  auto_remediate order df (issues ++ [issue])
  = auto_remediate order df issues ≫= fun st => remediate_step order st issue.
Proof.
  unfold auto_remediate. rewrite foldM_app.
  destruct (foldM (remediate_step order) issues (df, [])) as [st|e]; simpl; [|done].
  by destruct (remediate_step order st issue).
Qed.

(** *** NEGATIVE_VALUES *)

(** What the filter [pl.col(col) >= 0] keeps of a numeric column: the rows
    whose cell is a number that is not negative.  A null cell compares to
    null, and [filter] drops the row. *)
Lemma negative_values_kept (order : row_order) (df df' : DataFrame)
    (issue : Issue) (i : nat) (t : dtype) a (r : Row) :
  type issue = "NEGATIVE_VALUES" ->
  find_column (column issue) (schema df) = Some (i, t) ->
  remediate_issue order df issue = Ok (df', a) ->
  r ∈ rows df' <-> r ∈ rows df /\ ge_lit 0 (cell i r) = Some true.
Proof.
  intros Hty Hcol. unfold remediate_issue. rewrite Hty. simpl.
  rewrite Hcol. unfold filter_num. rewrite Hcol.
  destruct (is_numeric t); simpl; [|discriminate].
  intros [= <- _]. simpl.
  rewrite !list_elem_of_In, filter_In. unfold keeps.
  destruct (ge_lit 0 (cell i r)) as [[]|]; intuition congruence.
Qed.

(** The frame of the failing run: one good row, one null, one negative. *)
Definition ages : DataFrame :=
  mkDF [("age", Int64)] [[VInt 5]; [VNull]; [VInt (-1)]].

Definition negative_age : Issue := mkIssue "HIGH" "NEGATIVE_VALUES" "age".

(** C7 (the code at the failing input). [auto_remediate] on a column
    5, null, -1 with a NEGATIVE_VALUES issue: the row whose value is null is
    removed together with the negative one, and [rows_removed] is 2, where
    the only negative value is one. *)
Theorem negative_values_removes_null_rows :
  auto_remediate keep_order ages [negative_age]
  = Ok (mkDF [("age", Int64)] [[VInt 5]],
        [mkAction negative_age "FILTERED_NEGATIVE_VALUES" (Some "age")
                  (Some 2) "SUCCESS"]).
Proof. vm_compute. reflexivity. Qed.

(** *** HIGH_NULL_RATE *)

Definition dropped_column (issue : Issue) : RemediationAction :=
  mkAction issue "DROPPED_COLUMN" (Some (column issue)) None "SUCCESS".

Lemma remediate_step_high_null_rate (order : row_order) (df_fixed : DataFrame)
    (actions : list RemediationAction) (issue : Issue) (i : nat) (t : dtype) :
  type issue = "HIGH_NULL_RATE" ->
  find_column (column issue) (schema df_fixed) = Some (i, t) ->
  rows df_fixed <> [] ->
  remediate_step order (df_fixed, actions) issue
  = if bool_decide (80 * Z.of_nat (height df_fixed)
                    < 100 * Z.of_nat (null_count (series i df_fixed)))
    then Ok (drop_column i df_fixed, actions ++ [dropped_column issue])
    else Ok (df_fixed, actions).
Proof.
  intros Hty Hcol Hrows.
  unfold remediate_step, remediate_issue. rewrite Hty. simpl. rewrite Hcol.
  destruct (percentage_Ok (null_count (series i df_fixed)) (height df_fixed))
    as [q Hq].
  { unfold height. by destruct (rows df_fixed). }
  rewrite Hq. simpl.
  pose proof (percentage_gt 80 _ _ _ Hq) as Hgt.
  repeat case_bool_decide; simpl; try reflexivity; tauto.
Qed.

(** A column that is half null. *)
Definition half_null : DataFrame := mkDF [("c", Int64)] [[VInt 1]; [VNull]].

Definition high_null_c : Issue := mkIssue "HIGH" "HIGH_NULL_RATE" "c".

(** C8 (counterexample). A HIGH_NULL_RATE issue on a column whose null rate
    is 50: the frame is left as it is and nothing is recorded, so there is
    no action of status SKIPPED. *)
Lemma high_null_rate_below_threshold_records_nothing :
  auto_remediate keep_order half_null [high_null_c] = Ok (half_null, [])
  /\ ~ (exists actions a,
          auto_remediate keep_order half_null [high_null_c] = Ok (half_null, actions)
          /\ a ∈ actions /\ status a = "SKIPPED").
Proof.
  assert (H : auto_remediate keep_order half_null [high_null_c] = Ok (half_null, []))
    by (vm_compute; reflexivity).
  split; [exact H|].
  intros (actions & a & Hrun & Hin & _). rewrite H in Hrun.
  injection Hrun as <-. by apply elem_of_nil in Hin.
Qed.

(** C8 (amended). A HIGH_NULL_RATE issue that names a column of the frame,
    handled after any issues before it, on a frame that still has a row:
    the null rate is taken on the frame as it is then; when it is over 80
    the column is dropped and a DROPPED_COLUMN action of status SUCCESS is
    appended, and otherwise the frame stays as it is and no action is
    recorded. *)
Theorem high_null_rate_drops_or_records_nothing (order : row_order)
    (df df_fixed : DataFrame) (issues : list Issue)
    (actions : list RemediationAction) (issue : Issue) (i : nat) (t : dtype) :
  auto_remediate order df issues = Ok (df_fixed, actions) ->
  type issue = "HIGH_NULL_RATE" ->
  find_column (column issue) (schema df_fixed) = Some (i, t) ->
  rows df_fixed <> [] ->
  auto_remediate order df (issues ++ [issue])
  = if bool_decide (80 * Z.of_nat (height df_fixed)
                    < 100 * Z.of_nat (null_count (series i df_fixed)))
    then Ok (drop_column i df_fixed, actions ++ [dropped_column issue])
    else Ok (df_fixed, actions).
Proof.
  intros Hrun Hty Hcol Hrows.
  rewrite auto_remediate_snoc, Hrun. simpl.
  by apply remediate_step_high_null_rate with t.
Qed.

(** The specification's example: five of six values null. *)
Definition mostly_null : DataFrame :=
  mkDF [("id", Int64); ("c", Int64)]
       [[VInt 1; VNull]; [VInt 2; VNull]; [VInt 3; VNull];
        [VInt 4; VNull]; [VInt 5; VNull]; [VInt 6; VInt 7]].

Lemma high_null_rate_witness :
  auto_remediate keep_order mostly_null ([] ++ [high_null_c])
  = Ok (mkDF [("id", Int64)]
             [[VInt 1]; [VInt 2]; [VInt 3]; [VInt 4]; [VInt 5]; [VInt 6]],
        [dropped_column high_null_c]).
Proof.
  exact (high_null_rate_drops_or_records_nothing keep_order mostly_null
           mostly_null [] [] high_null_c 1%nat Int64
           eq_refl eq_refl eq_refl
           (fun H => eq_ind (rows mostly_null)
                       (fun l => match l with [] => False | _ => True end)
                       I [] H)).
Defined.

(** ** Running remediation on its own output *)

(** The loop of [auto_remediate] without its accumulator. *)
Fixpoint run (order : row_order) (df : DataFrame) (issues : list Issue)
  : result (DataFrame * list RemediationAction) :=
  match issues with
  | [] => Ok (df, [])
  | issue :: issues' =>
      '(df1, a) ← remediate_issue order df issue;
      '(df2, actions) ← run order df1 issues';
      Ok (df2, record_action [] a ++ actions)
  end.

Lemma remediate_step_unfold (order : row_order) (df : DataFrame)
    (acc : list RemediationAction) (issue : Issue) :
  remediate_step order (df, acc) issue
  = '(df1, a) ← remediate_issue order df issue; Ok (df1, record_action acc a).
Proof. reflexivity. Qed.

Lemma foldM_remediate_step (order : row_order) (issues : list Issue)
    (df : DataFrame) (acc : list RemediationAction) :
  foldM (remediate_step order) issues (df, acc)
  = '(df', actions) ← run order df issues; Ok (df', acc ++ actions).
Proof.
  revert df acc; induction issues as [|x issues IH]; intros df acc.
  - simpl. by rewrite app_nil_r.
  - cbn [foldM run]. rewrite remediate_step_unfold.
    destruct (remediate_issue order df x) as [[df1 a]|e]; [|done].
    cbn [mbind result_bind]. rewrite IH.
    destruct (run order df1 issues) as [[df2 actions]|e]; [|done].
    cbn [mbind result_bind]. destruct a; simpl; by rewrite <- ?app_assoc.
Qed.

Lemma auto_remediate_run (order : row_order) (df : DataFrame) (issues : list Issue) :
  auto_remediate order df issues = run order df issues.
Proof.
  unfold auto_remediate. rewrite foldM_remediate_step.
  by destruct (run order df issues) as [[df' actions]|e].
Qed.

(** The issues whose fix touches single cells or single rows only. *)
Definition cellwise (issue : Issue) : Prop :=
  type issue <> "DUPLICATES" /\ type issue <> "HIGH_NULL_RATE".

(** The same action, with nothing removed. *)
Definition no_rows_removed (a : RemediationAction) : RemediationAction :=
  mkAction (action_issue a) (action a) (action_column a)
           ((fun _ => 0) <$> rows_removed a) (status a).

(** A frame on which the fix of [issue] has nothing left to do. *)
Definition settled (df : DataFrame) (issue : Issue) : Prop :=
  (type issue = "WHITESPACE" ->
   forall i, find_column (column issue) (schema df) = Some (i, Utf8) ->
             forall r, r ∈ rows df -> update_nth i strip_value r = r)
  /\ (type issue = "NEGATIVE_VALUES" ->
      forall i t, find_column (column issue) (schema df) = Some (i, t) ->
                  is_numeric t = true
                  /\ forall r, r ∈ rows df -> ge_lit 0 (cell i r) = Some true).

Section SecondRun.

Variable order : row_order.

Lemma remediate_issue_schema (df df' : DataFrame) (issue : Issue) a :
  cellwise issue ->
  remediate_issue order df issue = Ok (df', a) ->
  schema df' = schema df.
Proof.
  intros [Hd Hh]. unfold remediate_issue.
  repeat case_decide; try congruence.
  - destruct (find_column _ _) as [[i []]|]; by intros [= <- _].
  - destruct (find_column (column issue) (schema df)) as [[i t]|] eqn:Hc;
      [|by intros [= <- _]].
    unfold filter_num. rewrite Hc. destruct (is_numeric t); simpl; [|done].
    by intros [= <- _].
Qed.

Lemma frame_eta (df : DataFrame) : mkDF (schema df) (rows df) = df.
Proof. by destruct df. Qed.

Lemma filter_all {A} (p : A -> bool) (l : list A) :
  (forall x, x ∈ l -> p x = true) -> List.filter p l = l.
Proof.
  induction l as [|x l IH]; intros H; simpl; [done|].
  rewrite (H x) by apply list_elem_of_here.
  f_equal. apply IH. intros y Hy. apply H. by apply list_elem_of_further.
Qed.

Lemma map_fixed {A} (f : A -> A) (l : list A) :
  (forall x, x ∈ l -> f x = x) -> map f l = l.
Proof.
  induction l as [|x l IH]; intros H; simpl; [done|].
  rewrite (H x) by apply list_elem_of_here.
  f_equal. apply IH. intros y Hy. apply H. by apply list_elem_of_further.
Qed.

(** After its own fix an issue is settled. *)
Lemma remediate_issue_settles (df df' : DataFrame) (issue : Issue) a :
  cellwise issue ->
  remediate_issue order df issue = Ok (df', a) ->
  settled df' issue.
Proof.
  intros [Hd Hh]. unfold remediate_issue.
  repeat case_decide; try congruence.
  - (* WHITESPACE *)
    destruct (find_column (column issue) (schema df)) as [[i t]|] eqn:Hc.
    + destruct t; intros [= <- _]; (split; [|congruence]); intros _ i' Hi';
        try (simpl in Hi'; congruence).
      simpl in Hi'. assert (i' = i) as -> by congruence.
      intros r Hr. simpl in Hr. apply list_elem_of_fmap in Hr as (r0 & -> & _).
      apply update_nth_idempotent, strip_value_idempotent.
    + intros [= <- _]. split; [|congruence]. intros _ i'. congruence.
  - (* NEGATIVE_VALUES *)
    destruct (find_column (column issue) (schema df)) as [[i t]|] eqn:Hc.
    + unfold filter_num. rewrite Hc.
      destruct (is_numeric t) eqn:Ht; simpl; [|done].
      intros [= <- _]. split; [congruence|]. intros _ i' t' Hi'.
      simpl in Hi'. assert (i' = i /\ t' = t) as [-> ->] by (split; congruence).
      split; [done|]. intros r Hr. simpl in Hr.
      apply list_elem_of_In, filter_In in Hr as [_ Hk]. unfold keeps in Hk.
      by destruct (ge_lit 0 (cell i r)) as [[]|].
    + intros [= <- _]. split; [congruence|]. intros _ i' t'. congruence.
  - (* an issue that is ignored *)
    intros _. split; congruence.
Qed.

(** A fix keeps settled what was settled. *)
Lemma remediate_issue_preserves (df df' : DataFrame) (issue other : Issue) a :
  cellwise issue ->
  remediate_issue order df issue = Ok (df', a) ->
  settled df other -> settled df' other.
Proof.
  intros [Hd Hh]. unfold remediate_issue.
  repeat case_decide; try congruence.
  - (* WHITESPACE *)
    destruct (find_column (column issue) (schema df)) as [[j t]|] eqn:Hc;
      [|by intros [= <- _]].
    destruct t; try by intros [= <- _].
    intros [= <- _] [Hw Hn]. split.
    + intros Hty i Hi r Hr. simpl in Hi, Hr.
      apply list_elem_of_fmap in Hr as (r0 & -> & Hr0).
      rewrite update_nth_comm by done. by rewrite (Hw Hty i Hi r0 Hr0).
    + intros Hty i t Hi. simpl in Hi. destruct (Hn Hty i t Hi) as [Ht Hall].
      split; [done|]. intros r Hr. simpl in Hr.
      apply list_elem_of_fmap in Hr as (r0 & -> & Hr0).
      rewrite cell_update_nth by done. case_decide; [|by apply Hall].
      unfold ge_lit. rewrite num_cmp_strip_value. by apply Hall.
  - (* NEGATIVE_VALUES *)
    destruct (find_column (column issue) (schema df)) as [[j t]|] eqn:Hc;
      [|by intros [= <- _]].
    unfold filter_num. rewrite Hc. destruct (is_numeric t); simpl; [|done].
    intros [= <- _] [Hw Hn].
    assert (Hsub : forall r, r ∈ List.filter (keeps (fun r => ge_lit 0 (cell j r))) (rows df)
                             -> r ∈ rows df).
    { intros r Hr. apply list_elem_of_In, filter_In in Hr as [Hr _].
      by apply list_elem_of_In. }
    split.
    + intros Hty i Hi r Hr. apply (Hw Hty i Hi), Hsub, Hr.
    + intros Hty i t' Hi. destruct (Hn Hty i t' Hi) as [Ht Hall].
      split; [done|]. intros r Hr. apply Hall, Hsub, Hr.
Qed.

(** On a frame where it is settled, a fix changes nothing; it logs the
    action it logged before, with no row removed. *)
Lemma remediate_issue_settled (df df0 df1 : DataFrame) (issue : Issue) a :
  cellwise issue ->
  settled df issue ->
  remediate_issue order df0 issue = Ok (df1, a) ->
  schema df0 = schema df ->
  remediate_issue order df issue = Ok (df, no_rows_removed <$> a).
Proof.
  intros [Hd Hh] [Hw Hn]. unfold remediate_issue.
  repeat case_decide; try congruence.
  - (* WHITESPACE *)
    intros Hrun Hsch. rewrite Hsch in Hrun.
    destruct (find_column (column issue) (schema df)) as [[i t]|] eqn:Hc;
      [|by injection Hrun as _ <-].
    destruct t; try by injection Hrun as _ <-.
    injection Hrun as _ <-. simpl. unfold strip_column.
    rewrite (map_fixed _ _ (Hw ltac:(assumption) i eq_refl)). by rewrite frame_eta.
  - (* NEGATIVE_VALUES *)
    intros Hrun Hsch. rewrite Hsch in Hrun.
    destruct (find_column (column issue) (schema df)) as [[i t]|] eqn:Hc;
      [|by injection Hrun as _ <-].
    destruct (Hn ltac:(assumption) i t eq_refl) as [Ht Hall].
    unfold filter_num in *. rewrite Hsch in Hrun. rewrite Hc in *.
    rewrite Ht in *. simpl in *. injection Hrun as _ <-.
    unfold filter_rows. rewrite filter_all.
    + rewrite frame_eta. simpl. unfold no_rows_removed. simpl.
      by rewrite Z.sub_diag.
    + intros r Hr. unfold keeps. by rewrite (Hall r Hr).
  - (* an issue that is ignored *)
    by intros [= _ <-] _.
Qed.

Lemma run_settles (issues : list Issue) (df df' : DataFrame) actions :
  Forall cellwise issues ->
  run order df issues = Ok (df', actions) ->
  schema df' = schema df
  /\ Forall (settled df') issues
  /\ (forall other, settled df other -> settled df' other).
Proof.
  intros Hall. revert df df' actions.
  induction Hall as [|x issues Hx Hall IH]; intros df df' actions; simpl.
  - by intros [= <- _].
  - destruct (remediate_issue order df x) as [[df1 a]|e] eqn:Hstep; simpl; [|done].
    destruct (run order df1 issues) as [[df2 rest]|e] eqn:Hrun; simpl; [|done].
    intros [= <- _].
    destruct (IH _ _ _ Hrun) as (Hsch & Hset & Hpres).
    split; [|split].
    + rewrite Hsch. by eapply remediate_issue_schema.
    + constructor; [|done]. eapply Hpres, remediate_issue_settles; eauto.
    + intros other Ho. eapply Hpres, remediate_issue_preserves; eauto.
Qed.

Lemma run_settled (issues : list Issue) (df df0 df1 : DataFrame) actions :
  Forall cellwise issues ->
  Forall (settled df) issues ->
  run order df0 issues = Ok (df1, actions) ->
  schema df0 = schema df ->
  run order df issues = Ok (df, map no_rows_removed actions).
Proof.
  intros Hall. revert df0 df1 actions.
  induction Hall as [|x issues Hx Hall IH]; intros df0 df1 actions Hset; simpl.
  - by intros [= _ <-].
  - apply Forall_cons_1 in Hset as [Hsx Hset].
    destruct (remediate_issue order df0 x) as [[d a]|e] eqn:Hstep; simpl; [|done].
    destruct (run order d issues) as [[d2 rest]|e] eqn:Hrun; simpl; [|done].
    intros [= _ <-] Hsch.
    rewrite (remediate_issue_settled df df0 d x a Hx Hsx Hstep Hsch). simpl.
    rewrite (IH d d2 rest Hset Hrun).
    + simpl. rewrite map_app. by destruct a.
    + rewrite <- Hsch. by eapply remediate_issue_schema.
Qed.

(** C1 (amended). For an issue list without DUPLICATES and HIGH_NULL_RATE
    issues: when [auto_remediate] returns a frame and its actions, running
    it again on that frame with the same issues returns the frame as it
    is, and the same actions (each of status SUCCESS, as before) with
    every count of removed rows at 0.  So the second run changes nothing,
    and it does log an action again for every issue that it handles. *)
Theorem auto_remediate_second_run (df df' : DataFrame)
    (issues : list Issue) (actions : list RemediationAction) :
  Forall cellwise issues ->
  auto_remediate order df issues = Ok (df', actions) ->
  auto_remediate order df' issues = Ok (df', map no_rows_removed actions).
Proof.
  intros Hall. rewrite !auto_remediate_run. intros Hrun.
  destruct (run_settles issues df df' actions Hall Hrun) as (Hsch & Hset & _).
  by apply (run_settled issues df' df df' actions Hall Hset Hrun).
Qed.

End SecondRun.

(** *** Runs that are not idempotent *)

Definition padded : DataFrame := mkDF [("name", Utf8)] [[VStr " a"]; [VStr "a"]].

Definition duplicates : Issue := mkIssue "MEDIUM" "DUPLICATES" "ALL".
Definition whitespace_name : Issue := mkIssue "LOW" "WHITESPACE" "name".

(** C1 (counterexample). Two rows that differ by a leading blank, and the
    issues DUPLICATES, then WHITESPACE.  The first run finds no duplicate
    and trims, which makes the two rows equal; the second run, on that
    output, removes one of them, so its result differs from its input, and
    it records two actions of status SUCCESS. *)
Lemma auto_remediate_second_run_changes :
  exists df' actions df'' actions',
    auto_remediate keep_order padded [duplicates; whitespace_name] = Ok (df', actions)
    /\ auto_remediate keep_order df' [duplicates; whitespace_name] = Ok (df'', actions')
    /\ df'' <> df'
    /\ height df' = 2%nat /\ height df'' = 1%nat
    /\ Forall (fun a => status a = "SUCCESS") actions'
    /\ length actions' = 2%nat.
Proof.
  eexists _, _, _, _.
  split; [vm_compute; reflexivity|].
  split; [vm_compute; reflexivity|].
  split; [discriminate|].
  repeat split; repeat constructor.
Qed.

(** The same under every order [unique] may choose. *)
Lemma second_run_changes_under_any_order (order : row_order) :
  valid_order order ->
  exists actions actions',
    auto_remediate order padded [duplicates; whitespace_name]
    = Ok (mkDF [("name", Utf8)] [[VStr "a"]; [VStr "a"]], actions)
    /\ auto_remediate order (mkDF [("name", Utf8)] [[VStr "a"]; [VStr "a"]])
         [duplicates; whitespace_name]
       = Ok (mkDF [("name", Utf8)] [[VStr "a"]], actions').
Proof.
  intros Hord.
  assert (H2 : order [[VStr " a"]; [VStr "a"]] = [[VStr " a"]; [VStr "a"]]
            \/ order [[VStr " a"]; [VStr "a"]] = [[VStr "a"]; [VStr " a"]]).
  { apply Permutation_length_2_inv, Permutation_sym, Hord. }
  assert (H1 : order [[VStr "a"]] = [[VStr "a"]]).
  { apply Permutation_length_1_inv, Permutation_sym, Hord. }
  eexists _, _. split.
  - rewrite auto_remediate_run. cbn [run].
    unfold remediate_issue, duplicates, whitespace_name, padded, unique. simpl.
    unfold Row in *. destruct H2 as [H2 | H2]; rewrite H2; reflexivity.
  - rewrite auto_remediate_run. cbn [run].
    unfold remediate_issue, duplicates, whitespace_name, unique. simpl.
    unfold Row in *. rewrite H1. reflexivity.
Qed.

Definition four_of_five_null : DataFrame :=
  mkDF [("age", Int64); ("c", Int64)]
       [[VInt (-1); VInt 7]; [VInt 1; VNull]; [VInt 2; VNull];
        [VInt 3; VNull]; [VInt 4; VNull]].

(** A column at a null rate of 80 is kept by the first run; the negative
    row then goes, the rate is 100, and the second run drops the column. *)
Lemma second_run_drops_column :
  exists df' actions df'' actions',
    auto_remediate keep_order four_of_five_null [high_null_c; negative_age]
    = Ok (df', actions)
    /\ auto_remediate keep_order df' [high_null_c; negative_age] = Ok (df'', actions')
    /\ columns df' = ["age"; "c"] /\ columns df'' = ["age"].
Proof.
  eexists _, _, _, _.
  split; [vm_compute; reflexivity|].
  split; [vm_compute; reflexivity|].
  split; reflexivity.
Qed.

(** *** An instance of the second-run theorem *)

Definition people : DataFrame :=
  mkDF [("name", Utf8); ("age", Int64)]
       [[VStr "  Bob  "; VInt 30]; [VStr "Eve"; VInt (-5)]].

Definition people_fixed : DataFrame :=
  mkDF [("name", Utf8); ("age", Int64)] [[VStr "Bob"; VInt 30]].

Lemma cellwise_whitespace_name : cellwise whitespace_name.
Proof. split; discriminate. Defined.

Lemma cellwise_negative_age : cellwise negative_age.
Proof. split; discriminate. Defined.

Lemma auto_remediate_second_run_witness :
  auto_remediate keep_order people [whitespace_name; negative_age]
  = Ok (people_fixed,
        [mkAction whitespace_name "TRIMMED_WHITESPACE" (Some "name") None "SUCCESS";
         mkAction negative_age "FILTERED_NEGATIVE_VALUES" (Some "age") (Some 1) "SUCCESS"])
  /\ auto_remediate keep_order people_fixed [whitespace_name; negative_age]
     = Ok (people_fixed,
           [mkAction whitespace_name "TRIMMED_WHITESPACE" (Some "name") None "SUCCESS";
            mkAction negative_age "FILTERED_NEGATIVE_VALUES" (Some "age") (Some 0) "SUCCESS"]).
Proof.
  assert (H : auto_remediate keep_order people [whitespace_name; negative_age]
              = Ok (people_fixed,
                    [mkAction whitespace_name "TRIMMED_WHITESPACE" (Some "name") None "SUCCESS";
                     mkAction negative_age "FILTERED_NEGATIVE_VALUES" (Some "age") (Some 1) "SUCCESS"]))
    by (vm_compute; reflexivity).
  split; [exact H|].
  exact (auto_remediate_second_run keep_order people people_fixed
           [whitespace_name; negative_age] _
           (Forall_cons _ _ _ cellwise_whitespace_name
              (Forall_cons _ _ _ cellwise_negative_age (Forall_nil _)))
           H).
Defined.

(** *** The frame of the module's own example *)

Definition test_data : DataFrame :=
  mkDF [("id", Int64); ("name", Utf8); ("age", Int64); ("salary", Int64)]
       [[VInt 1; VStr "Alice"; VInt 25; VInt 50000];
        [VInt 2; VStr "  Bob  "; VInt 30; VInt 60000];
        [VInt 2; VStr "Charlie"; VInt 30; VInt 60000];
        [VInt 3; VNull; VInt (-5); VInt 70000];
        [VInt 4; VStr "Dave"; VInt 40; VNull];
        [VInt 5; VStr "Eve"; VInt 200; VInt 80000]].

(** With both [try] blocks running to their end, the profiler finds four
    issues in it, and the score is 100 - 5 - 2 - 10 - 5. *)
Example test_data_profile :
  exists profile,
    profile_dataset (fun _ => true) (fun _ => true) test_data "test_data" = Ok profile
    /\ issues_detected profile
       = [mkIssue "MEDIUM" "MODERATE_NULL_RATE" "name";
          mkIssue "LOW" "WHITESPACE" "name";
          mkIssue "HIGH" "NEGATIVE_VALUES" "age";
          mkIssue "MEDIUM" "MODERATE_NULL_RATE" "salary"]
    /\ calculate_quality_score profile = 78.
Proof. eexists. split; [vm_compute; reflexivity|]. split; vm_compute; reflexivity. Qed.

End Agents.

(** * [src/database/duckdb_manager.py] *)

Module Medallion.
Import Polars.

(** What a [MedallionDuckDB] holds: the parquet files below the paths of
    its configuration, and the tables of the schemas of its connection. *)
Record Store := mkStore {
  bronze_files : gmap string DataFrame;
  silver_files : gmap string DataFrame;
  gold_files : gmap string DataFrame;
  bronze : gmap string DataFrame;
  silver : gmap string DataFrame;
  gold : gmap string DataFrame
}.

(** [SELECT * FROM read_parquet(path)] *)
Definition read_parquet (files : gmap string DataFrame) (name : string)
  : result DataFrame :=
  match files !! name with
  | Some df => Ok df
  | None => Raise IOError
  end.

(** [SELECT * FROM schema.table] *)
Definition select_all (tables : gmap string DataFrame) (name : string)
  : result DataFrame :=
  match tables !! name with
  | Some df => Ok df
  | None => Raise CatalogError
  end.

(** [CREATE TABLE IF NOT EXISTS name AS (the rows of df)] *)
Definition create_table_if_not_exists (name : string) (df : DataFrame)
    (tables : gmap string DataFrame) : gmap string DataFrame :=
  match tables !! name with
  | Some _ => tables
  | None => <[name := df]> tables
  end.

(** ** Bronze *)

Definition load_to_bronze (s : Store) (df : DataFrame) (table_name : string)
    (mode : string) : result (Store * nat) :=
  let files := <[table_name := df]> (bronze_files s) in
  let tables :=
    if decide (mode = "replace") then delete table_name (bronze s)
    else bronze s in
  written ← read_parquet files table_name;
  let tables := create_table_if_not_exists table_name written tables in
  Ok (mkStore files (silver_files s) (gold_files s)
              tables (silver s) (gold s),
      height df).

(** ** Silver *)

Section Silver.

(** The order in which [unique] hands back its rows. *)
Variable order : row_order.

(** [str.strptime(pl.Date, "%Y-%m-%d", strict=False)] on one string: the
    day, or nothing when the string is no such date. *)
Variable strptime : string -> option Z.

Definition strip_if_text (df : DataFrame) (col : string) : DataFrame :=
  match find_column col (schema df) with
  | Some (i, Utf8) => strip_column i df
  | _ => df
  end.

(** [df.rename({col: col.lower() for col in df.columns})]: two columns that
    differ by case only end up under one name, which polars refuses. *)
Definition rename_lower (df : DataFrame) : result DataFrame :=
  let sch := map (fun ct => (lower ct.1, ct.2)) (schema df) in
  if bool_decide (NoDup (map fst sch)) then Ok (mkDF sch (rows df))
  else Raise DuplicateError.

Definition parse_date (v : value) : value :=
  match v with
  | VStr s => match strptime s with Some d => VDate d | None => VNull end
  | _ => VNull
  end.

Fixpoint set_dtype (i : nat) (t : dtype) (sch : list (string * dtype))
  : list (string * dtype) :=
  match sch, i with
  | [], _ => []
  | (c, _) :: sch', O => (c, t) :: sch'
  | ct :: sch', S i' => ct :: set_dtype i' t sch'
  end.

(** [if c in df.columns: df = df.with_columns(pl.col(c).str.strptime(...))] *)
Definition parse_date_column (c : string) (df : DataFrame) : result DataFrame :=
  match find_column c (schema df) with
  | Some (i, Utf8) =>
      Ok (mkDF (set_dtype i Date (schema df))
               (map (update_nth i parse_date) (rows df)))
  | Some (_, _) => Raise ComputeError
  | None => Ok df
  end.

(** [if col in df.columns: df = df.filter(pl.col(col).is_not_null())] *)
Definition drop_nulls (df : DataFrame) (col : string) : DataFrame :=
  match find_column col (schema df) with
  | Some (i, _) => filter_rows (fun r => Some (negb (is_null (cell i r)))) df
  | None => df
  end.

(** [if c in df.columns: df = df.filter(<predicate on pl.col(c)>)] *)
Definition filter_if_present (c : string) (p : value -> option bool)
    (df : DataFrame) : result DataFrame :=
  match find_column c (schema df) with
  | Some _ => filter_num c p df
  | None => Ok df
  end.

Definition between (lo hi : Z) (v : value) : option bool :=
  and3 (ge_lit lo v) (le_lit hi v).

Definition critical_cols : list string := ["customer_id"; "order_id"; "order_date"].

(** Steps 2 to 6 of [_apply_silver_transformations]. *)
Definition clean_rows (df : DataFrame) : result DataFrame :=
  let df := fold_left strip_if_text (columns df) df in
  df ← rename_lower df;
  df ← parse_date_column "order_date" df;
  let df := fold_left drop_nulls critical_cols df in
  df ← filter_if_present "quantity" (gt_lit 0) df;
  df ← filter_if_present "unit_price" (gt_lit 0) df;
  df ← filter_if_present "customer_age" (between 18 100) df;
  filter_if_present "satisfaction_score" (between 1 10) df.

Definition _apply_silver_transformations (df : DataFrame) : result DataFrame :=
  clean_rows (unique order df).

Definition promote_to_silver (s : Store) (bronze_table silver_table : string)
  : result (Store * DataFrame) :=
  df ← select_all (bronze s) bronze_table;
  df ← _apply_silver_transformations df;
  let files := <[silver_table := df]> (silver_files s) in
  written ← read_parquet files silver_table;
  let tables := <[silver_table := written]> (delete silver_table (silver s)) in
  Ok (mkStore (bronze_files s) files (gold_files s)
              (bronze s) tables (gold s),
      df).

End Silver.

(** ** Gold *)

(** The aggregation queries that [create_gold_aggregations] builds, each
    over the table [silver.<silver_table>]:
    - [DailySales]: order count, revenue, average order value and distinct
      customers [GROUP BY order_date];
    - [CustomerLtv]: orders, lifetime value, average order value, first and
      last order date and segment [GROUP BY customer_id];
    - [ProductPerformance]: units, quantity, revenue and average price
      [GROUP BY product_category, product_name];
    - [RegionalAnalytics]: order count, revenue, average order value and
      distinct customers [GROUP BY shipping_country]. *)
Inductive query :=
| DailySales (silver_table : string)
| CustomerLtv (silver_table : string)
| ProductPerformance (silver_table : string)
| RegionalAnalytics (silver_table : string).

Section Gold.

(** [conn.execute(query).fetch_arrow_table()]: the engine runs the query on
    the tables of the silver schema, and raises when it cannot (a table or
    a column that is not there, a sum over text). *)
Variable execute : gmap string DataFrame -> query -> result DataFrame.

Definition create_gold_aggregate (s : Store) (q : query) (table_name : string)
  : result (Store * DataFrame) :=
  df ← execute (silver s) q;
  let files := <[table_name := df]> (gold_files s) in
  written ← read_parquet files table_name;
  let tables := <[table_name := written]> (delete table_name (gold s)) in
  Ok (mkStore (bronze_files s) (silver_files s) files
              (bronze s) (silver s) tables,
      df).

End Gold.

(** ** Frames that hold the same rows *)

Definition same_rows (d1 d2 : DataFrame) : Prop :=
  schema d1 = schema d2 /\ Permutation (rows d1) (rows d2).

(** Two outcomes that agree up to the order of the rows. *)
Definition agree (r1 r2 : result DataFrame) : Prop :=
  match r1, r2 with
  | Ok d1, Ok d2 => same_rows d1 d2
  | Raise e1, Raise e2 => e1 = e2
  | _, _ => False
  end.

(** A step that treats every row by itself. *)
Definition rowwise (F : DataFrame -> result DataFrame) : Prop :=
  forall d1 d2, same_rows d1 d2 -> agree (F d1) (F d2).

Definition rowwise_total (f : DataFrame -> DataFrame) : Prop :=
  forall d1 d2, same_rows d1 d2 -> same_rows (f d1) (f d2).

Lemma agree_bind (r1 r2 : result DataFrame) (F : DataFrame -> result DataFrame) :
  agree r1 r2 -> rowwise F -> agree (r1 ≫= F) (r2 ≫= F).
Proof. destruct r1, r2; simpl; try done. intros H HF. by apply HF. Qed.

Lemma rowwise_bind (F G : DataFrame -> result DataFrame) :
  rowwise F -> rowwise G -> rowwise (fun d => F d ≫= G).
Proof. intros HF HG d1 d2 H. apply agree_bind; [by apply HF | done]. Qed.

Lemma rowwise_after (f : DataFrame -> DataFrame) (G : DataFrame -> result DataFrame) :
  rowwise_total f -> rowwise G -> rowwise (fun d => G (f d)).
Proof. intros Hf HG d1 d2 H. by apply HG, Hf. Qed.

Lemma Permutation_list_filter {A} (p : A -> bool) (l1 l2 : list A) :
  Permutation l1 l2 -> Permutation (List.filter p l1) (List.filter p l2).
Proof.
  induction 1 as [|x l1 l2 _ IH|x y l|l1 l2 l3 _ IH1 _ IH2]; simpl.
  - constructor.
  - destruct (p x); [by constructor | done].
  - destruct (p x), (p y); try done; by constructor.
  - by etrans.
Qed.

Lemma filter_rows_same (p : Row -> option bool) : rowwise_total (filter_rows p).
Proof.
  intros d1 d2 [Hs Hr]. split; simpl; [done|].
  by apply Permutation_list_filter.
Qed.

Lemma strip_column_same (i : nat) : rowwise_total (strip_column i).
Proof.
  intros d1 d2 [Hs Hr]. split; simpl; [done|]. by apply Permutation_map.
Qed.

Lemma fold_left_same (f : DataFrame -> string -> DataFrame) (cols : list string) :
  (forall c, rowwise_total (fun d => f d c)) ->
  rowwise_total (fun d => fold_left f cols d).
Proof.
  intros Hf. induction cols as [|c cols IH]; intros d1 d2 H; simpl; [done|].
  apply IH. by apply Hf.
Qed.

Section SilverFacts.

Variable strptime : string -> option Z.

Lemma strip_if_text_same (c : string) : rowwise_total (fun d => strip_if_text d c).
Proof.
  intros d1 d2 H. unfold strip_if_text. destruct H as [Hs Hr]. rewrite <- Hs.
  destruct (find_column c (schema d1)) as [[i []]|]; try by split.
  by apply strip_column_same.
Qed.

Lemma drop_nulls_same (c : string) : rowwise_total (fun d => drop_nulls d c).
Proof.
  intros d1 d2 H. unfold drop_nulls. destruct H as [Hs Hr]. rewrite <- Hs.
  destruct (find_column c (schema d1)) as [[i t]|]; [|by split].
  by apply filter_rows_same.
Qed.

Lemma rename_lower_same : rowwise rename_lower.
Proof.
  intros d1 d2 [Hs Hr]. unfold rename_lower. rewrite <- Hs.
  case_bool_decide; simpl; [by split | done].
Qed.

Lemma parse_date_column_same (c : string) : rowwise (parse_date_column strptime c).
Proof.
  intros d1 d2 [Hs Hr]. unfold parse_date_column. rewrite <- Hs.
  destruct (find_column c (schema d1)) as [[i []]|]; simpl; try done.
  split; simpl; [done|]. by apply Permutation_map.
Qed.

Lemma filter_if_present_same (c : string) (p : value -> option bool) :
  rowwise (filter_if_present c p).
Proof.
  intros d1 d2 [Hs Hr]. unfold filter_if_present, filter_num. rewrite <- Hs.
  destruct (find_column c (schema d1)) as [[i t]|]; simpl; [|by split].
  destruct (is_numeric t); simpl; [|done].
  by apply filter_rows_same.
Qed.

Lemma clean_rows_same : rowwise (clean_rows strptime).
Proof.
  intros d1 d2 H. unfold clean_rows.
  assert (Hc : columns d1 = columns d2) by (unfold columns; by destruct H as [-> _]).
  rewrite <- Hc.
  apply agree_bind.
  { apply rename_lower_same. by apply fold_left_same; [apply strip_if_text_same|]. }
  apply rowwise_bind; [apply parse_date_column_same|].
  apply (rowwise_bind
           (fun d => filter_if_present "quantity" (gt_lit 0)
                       (fold_left drop_nulls critical_cols d))).
  { apply (rowwise_after (fun d => fold_left drop_nulls critical_cols d)).
    - apply fold_left_same, drop_nulls_same.
    - apply filter_if_present_same. }
  repeat (apply rowwise_bind; [apply filter_if_present_same|]).
  apply filter_if_present_same.
Qed.

Lemma unique_same (o1 o2 : row_order) (df : DataFrame) :
  valid_order o1 -> valid_order o2 -> same_rows (unique o1 df) (unique o2 df).
Proof.
  intros H1 H2. split; simpl; [done|].
  etrans; [apply H1 | symmetry; apply H2].
Qed.

Lemma _apply_silver_transformations_same (o1 o2 : row_order) (df : DataFrame) :
  valid_order o1 -> valid_order o2 ->
  agree (_apply_silver_transformations o1 strptime df)
        (_apply_silver_transformations o2 strptime df).
Proof. intros H1 H2. by apply clean_rows_same, unique_same. Qed.

Lemma promote_to_silver_Ok (order : row_order) (s : Store) (b t : string)
    (raw d : DataFrame) :
  bronze s !! b = Some raw ->
  _apply_silver_transformations order strptime raw = Ok d ->
  promote_to_silver order strptime s b t
  = Ok (mkStore (bronze_files s) (<[t := d]> (silver_files s)) (gold_files s)
                (bronze s) (<[t := d]> (delete t (silver s))) (gold s),
        d).
Proof.
  intros Hb Hd. unfold promote_to_silver, select_all, read_parquet.
  rewrite Hb. simpl. rewrite Hd. simpl. by rewrite lookup_insert_eq.
Qed.

Lemma promote_to_silver_inv (order : row_order) (s s1 : Store) (b t : string)
    (d : DataFrame) :
  promote_to_silver order strptime s b t = Ok (s1, d) ->
  exists raw,
    bronze s !! b = Some raw
    /\ _apply_silver_transformations order strptime raw = Ok d.
Proof.
  unfold promote_to_silver, select_all. intros H.
  destruct (bronze s !! b) as [raw|]; [|done]. simpl in H.
  destruct (_apply_silver_transformations order strptime raw) as [d'|e] eqn:Hd;
    [|done].
  simpl in H. unfold read_parquet in H. rewrite lookup_insert_eq in H.
  simpl in H. injection H as _ ->. eauto.
Qed.

(** C2 (amended). Promotion run twice on a raw table that has not changed:
    the second run succeeds when the first did, leaves the raw tier as it
    was, and registers a cleaned table with the columns of the first and
    the same rows as a multiset.  The two tables are equal, and so are the
    stores, when [unique] handed back its rows in the same order both
    times; the order itself is not fixed by the code. *)
Theorem promote_to_silver_replay (o1 o2 : row_order) (s s1 : Store)
    (b t : string) (d1 : DataFrame) :
  valid_order o1 -> valid_order o2 ->
  promote_to_silver o1 strptime s b t = Ok (s1, d1) ->
  bronze s1 = bronze s
  /\ silver s1 !! t = Some d1
  /\ exists s2 d2,
       promote_to_silver o2 strptime s1 b t = Ok (s2, d2)
       /\ silver s2 !! t = Some d2
       /\ schema d2 = schema d1
       /\ Permutation (rows d2) (rows d1)
       /\ (forall raw, bronze s !! b = Some raw ->
                       o2 (remove_dups (rows raw)) = o1 (remove_dups (rows raw)) ->
                       d2 = d1 /\ s2 = s1).
Proof.
  intros Ho1 Ho2 Hrun.
  destruct (promote_to_silver_inv _ _ _ _ _ _ Hrun) as (raw & Hb & Hd1).
  rewrite (promote_to_silver_Ok _ _ _ _ _ _ Hb Hd1) in Hrun.
  injection Hrun as <-. simpl. split; [done|].
  split; [by rewrite lookup_insert_eq|].
  pose proof (_apply_silver_transformations_same o1 o2 raw Ho1 Ho2) as Hag.
  rewrite Hd1 in Hag.
  destruct (_apply_silver_transformations o2 strptime raw) as [d2|e] eqn:Hd2;
    [|done].
  destruct Hag as [Hs Hr].
  eexists _, d2. split.
  { rewrite (promote_to_silver_Ok o2 _ b t raw d2); [reflexivity | exact Hb | exact Hd2]. }
  simpl. split; [by rewrite lookup_insert_eq|].
  split; [done|]. split; [by symmetry|].
  intros raw' Hb' Hord. assert (raw' = raw) as -> by congruence.
  assert (d2 = d1) as ->.
  { unfold _apply_silver_transformations, unique in Hd1, Hd2.
    rewrite Hord in Hd2. congruence. }
  split; [done|].
  by rewrite insert_insert_eq, delete_insert_eq, delete_delete_eq.
Qed.

End SilverFacts.

(** *** Two runs that differ *)

Definition two_orders : DataFrame :=
  mkDF [("order_id", Utf8)] [[VStr "O1"]; [VStr "O2"]].

Definition raw_store : Store :=
  mkStore {["orders" := two_orders]} ∅ ∅ {["orders" := two_orders]} ∅ ∅.

(** No string is a date: the tables here have no [order_date]. *)
Definition no_dates : string -> option Z := fun _ => None.

(** C2 (counterexample). A raw table of two distinct rows, promoted twice
    without a change in between: with [unique] handing back its rows in
    one order the first time and in the other order the second time, the
    two cleaned tables differ. *)
Lemma promote_to_silver_order_differs :
  exists s1 d1 s2 d2,
    promote_to_silver keep_order no_dates raw_store "orders" "orders_clean" = Ok (s1, d1)
    /\ promote_to_silver reverse_order no_dates s1 "orders" "orders_clean" = Ok (s2, d2)
    /\ bronze s1 = bronze raw_store
    /\ rows d1 = [[VStr "O1"]; [VStr "O2"]]
    /\ rows d2 = [[VStr "O2"]; [VStr "O1"]]
    /\ d1 <> d2.
Proof.
  eexists _, _, _, _.
  split; [vm_compute; reflexivity|].
  split; [vm_compute; reflexivity|].
  repeat split; discriminate.
Qed.

Lemma promote_to_silver_replay_witness :
  exists s1 d1,
    promote_to_silver keep_order no_dates raw_store "orders" "orders_clean" = Ok (s1, d1)
    /\ exists s2 d2,
         promote_to_silver reverse_order no_dates s1 "orders" "orders_clean" = Ok (s2, d2)
         /\ schema d2 = schema d1
         /\ Permutation (rows d2) (rows d1).
Proof.
  assert (H : promote_to_silver keep_order no_dates raw_store "orders" "orders_clean"
              = Ok (mkStore {["orders" := two_orders]}
                            (<["orders_clean" := two_orders]> ∅) ∅
                            {["orders" := two_orders]}
                            (<["orders_clean" := two_orders]> (delete "orders_clean" ∅)) ∅,
                    two_orders)).
  { apply (promote_to_silver_Ok no_dates keep_order raw_store "orders"
             "orders_clean" two_orders two_orders); [reflexivity|].
    vm_compute. reflexivity. }
  eexists _, _. split; [exact H|].
  destruct (promote_to_silver_replay no_dates keep_order reverse_order _ _ _ _ _
              keep_order_valid reverse_order_valid H)
    as (_ & _ & s2 & d2 & Hrun & _ & Hs & Hp & _).
  exists s2, d2. auto.
Defined.

(** ** Loading the raw tier *)

(** C10. [load_to_bronze] on a name that is already registered in the
    bronze schema: with a [mode] other than ['replace'] (so with the
    default, ['append']) the parquet file of the table now holds the new
    frame alone, the registered table still holds what it held, and the
    call returns the number of rows of the new frame; with ['replace'] the
    registered table holds the new frame. *)
Theorem load_to_bronze_append_keeps_table (s : Store) (df old : DataFrame)
    (table_name mode : string) :
  bronze s !! table_name = Some old ->
  (mode <> "replace" ->
   exists s',
     load_to_bronze s df table_name mode = Ok (s', height df)
     /\ bronze_files s' !! table_name = Some df
     /\ bronze s' = bronze s
     /\ bronze s' !! table_name = Some old)
  /\ exists s',
       load_to_bronze s df table_name "replace" = Ok (s', height df)
       /\ bronze_files s' !! table_name = Some df
       /\ bronze s' !! table_name = Some df.
Proof.
  intros Hold. split.
  - intros Hmode. eexists. unfold load_to_bronze, read_parquet.
    rewrite lookup_insert_eq. simpl. rewrite decide_False by done.
    unfold create_table_if_not_exists. rewrite Hold.
    split; [reflexivity|]. simpl. by rewrite lookup_insert_eq.
  - eexists. unfold load_to_bronze, read_parquet.
    rewrite lookup_insert_eq. simpl.
    unfold create_table_if_not_exists. rewrite lookup_delete_eq.
    split; [reflexivity|]. simpl. by rewrite !lookup_insert_eq.
Qed.

Definition one_order : DataFrame := mkDF [("order_id", Utf8)] [[VStr "O3"]].

Lemma load_to_bronze_append_witness :
  exists s',
    load_to_bronze raw_store one_order "orders" "append" = Ok (s', 1%nat)
    /\ bronze_files s' !! "orders" = Some one_order
    /\ bronze s' !! "orders" = Some two_orders.
Proof.
  destruct (load_to_bronze_append_keeps_table raw_store one_order two_orders
              "orders" "append" eq_refl) as [Happend _].
  destruct Happend as (s' & Hrun & Hfile & _ & Htable); [discriminate|].
  exists s'. auto.
Defined.

End Medallion.

(** * [src/orchestration/prefect_flows.py] *)

Module Flows.
Import Polars Medallion.

Section GoldAggregations.

Variable execute : gmap string DataFrame -> query -> result DataFrame.

(** One block [if name in aggregations: try: ... except Exception: log].
    The state is the database and the dictionary [results]. *)
Definition aggregation_block (aggregations : list string) (name : string)
    (q : query) (table_name : string) (st : Store * gmap string nat)
  : Store * gmap string nat :=
  if bool_decide (name ∈ aggregations) then
    match create_gold_aggregate execute st.1 q table_name with
    | Ok (s', df) => (s', <[table_name := height df]> st.2)
    | Raise _ => st
    end
  else st.

(** The task returns [results] under the key ['tables']; the database is
    the other component here. *)
Definition create_gold_aggregations (s : Store) (silver_table : string)
    (aggregations : list string) : Store * gmap string nat :=
  let st := (s, ∅) in
  let st := aggregation_block aggregations "daily_sales"
              (DailySales silver_table) "daily_sales" st in
  let st := aggregation_block aggregations "customer_lifetime_value"
              (CustomerLtv silver_table) "customer_ltv" st in
  let st := aggregation_block aggregations "product_performance"
              (ProductPerformance silver_table) "product_performance" st in
  let st := aggregation_block aggregations "regional_analytics"
              (RegionalAnalytics silver_table) "regional_analytics" st in
  st.

(** What one aggregate contributes to [results], by itself. *)
Definition attempt (s : Store) (aggregations : list string) (name : string)
    (q : query) : option nat :=
  if bool_decide (name ∈ aggregations) then
    match execute (silver s) q with
    | Ok df => Some (height df)
    | Raise _ => None
    end
  else None.

Lemma create_gold_aggregate_silver (s s' : Store) (q : query) (t : string) df :
  create_gold_aggregate execute s q t = Ok (s', df) ->
  silver s' = silver s /\ execute (silver s) q = Ok df /\ gold s' !! t = Some df.
Proof.
  unfold create_gold_aggregate, read_parquet.
  destruct (execute (silver s) q) as [d|e]; simpl; [|done].
  rewrite lookup_insert_eq. simpl. intros [= <- <-]. simpl.
  by rewrite lookup_insert_eq.
Qed.

Lemma create_gold_aggregate_Raise (s : Store) (q : query) (t : string) e :
  create_gold_aggregate execute s q t = Raise e -> execute (silver s) q = Raise e.
Proof.
  unfold create_gold_aggregate, read_parquet.
  destruct (execute (silver s) q) as [d|e']; simpl; [|congruence].
  by rewrite lookup_insert_eq.
Qed.

Lemma aggregation_block_spec (aggregations : list string) (name : string)
    (q : query) (t : string) (st : Store * gmap string nat) :
  let st' := aggregation_block aggregations name q t st in
  silver st'.1 = silver st.1
  /\ st'.2 !! t = match attempt st.1 aggregations name q with
                   | Some n => Some n
                   | None => st.2 !! t
                   end
  /\ (forall k, k <> t -> st'.2 !! k = st.2 !! k).
Proof.
  unfold aggregation_block, attempt. simpl.
  case_bool_decide; [|done].
  destruct (create_gold_aggregate execute st.1 q t) as [[s' df]|e] eqn:Hc.
  - destruct (create_gold_aggregate_silver _ _ _ _ _ Hc) as (Hs & He & _).
    rewrite He. simpl. rewrite lookup_insert_eq.
    repeat split; [done|]. intros k Hk. by rewrite lookup_insert_ne.
  - by rewrite (create_gold_aggregate_Raise _ _ _ _ Hc).
Qed.

(** C9. Each of the four aggregates is attempted when it is requested,
    whatever became of the ones before it: the entry of [results] under its
    key is the row count of its table when its query ran, and is absent
    when the query raised (the error is caught in its own block) or when
    it was not requested.  The task itself never raises. *)
Theorem create_gold_aggregations_isolates_failures (s : Store)
    (silver_table : string) (aggregations : list string) :
  let results := (create_gold_aggregations s silver_table aggregations).2 in
  results !! "daily_sales"
  = attempt s aggregations "daily_sales" (DailySales silver_table)
  /\ results !! "customer_ltv"
     = attempt s aggregations "customer_lifetime_value" (CustomerLtv silver_table)
  /\ results !! "product_performance"
     = attempt s aggregations "product_performance" (ProductPerformance silver_table)
  /\ results !! "regional_analytics"
     = attempt s aggregations "regional_analytics" (RegionalAnalytics silver_table).
Proof.
  unfold create_gold_aggregations.
  set (st0 := (s, ∅) : Store * gmap string nat).
  set (st1 := aggregation_block aggregations "daily_sales" _ _ st0).
  set (st2 := aggregation_block aggregations "customer_lifetime_value" _ _ st1).
  set (st3 := aggregation_block aggregations "product_performance" _ _ st2).
  set (st4 := aggregation_block aggregations "regional_analytics" _ _ st3).
  destruct (aggregation_block_spec aggregations "daily_sales"
              (DailySales silver_table) "daily_sales" st0) as (S1 & R1 & K1).
  destruct (aggregation_block_spec aggregations "customer_lifetime_value"
              (CustomerLtv silver_table) "customer_ltv" st1) as (S2 & R2 & K2).
  destruct (aggregation_block_spec aggregations "product_performance"
              (ProductPerformance silver_table) "product_performance" st2)
    as (S3 & R3 & K3).
  destruct (aggregation_block_spec aggregations "regional_analytics"
              (RegionalAnalytics silver_table) "regional_analytics" st3)
    as (S4 & R4 & K4).
  fold st1 in S1, R1, K1, S2, R2, K2. fold st2 in S2, R2, K2, S3, R3, K3.
  fold st3 in S3, R3, K3, S4, R4, K4. fold st4 in S4, R4, K4.
  assert (E0 : st0.2 = ∅) by done.
  assert (A1 : forall n q, attempt st1.1 aggregations n q = attempt s aggregations n q).
  { intros. unfold attempt. by rewrite S1. }
  assert (A2 : forall n q, attempt st2.1 aggregations n q = attempt s aggregations n q).
  { intros. unfold attempt. by rewrite S2, S1. }
  assert (A3 : forall n q, attempt st3.1 aggregations n q = attempt s aggregations n q).
  { intros. unfold attempt. by rewrite S3, S2, S1. }
  simpl. repeat split.
  - rewrite K4, K3, K2, R1 by done. rewrite E0, lookup_empty.
    change (st0.1) with s. by destruct (attempt s _ _ _).
  - rewrite K4, K3, R2, A1 by done. rewrite K1, E0, lookup_empty by done.
    by destruct (attempt s _ _ _).
  - rewrite K4, R3, A2 by done. rewrite K2, K1, E0, lookup_empty by done.
    by destruct (attempt s _ _ _).
  - rewrite R4, A3. rewrite K3, K2, K1, E0, lookup_empty by done.
    by destruct (attempt s _ _ _).
Qed.

End GoldAggregations.

(** An engine that cannot run the customer query. *)
Definition without_customers : gmap string DataFrame -> query -> result DataFrame :=
  fun _ q =>
    match q with
    | CustomerLtv _ => Raise CatalogError
    | _ => Ok one_order
    end.

Example create_gold_aggregations_one_fails :
  let results :=
    (create_gold_aggregations without_customers raw_store "orders_clean"
       ["daily_sales"; "customer_lifetime_value"; "regional_analytics"]).2 in
  results !! "daily_sales" = Some 1%nat
  /\ results !! "customer_ltv" = None
  /\ results !! "product_performance" = None
  /\ results !! "regional_analytics" = Some 1%nat.
Proof. vm_compute. repeat split. Qed.

End Flows.

(** * [src/validation/business_rules.py] *)

Module Rules.
Import Polars.

(** An entry of [failed_records]. *)
Record FailedRecord := mkFailed {
  rule : string;
  column : string;
  count : Z
}.

(** A boolean series, null included. *)
Definition Mask := list (option bool).

(** Python's [any] and [sum] over [Series.to_list()]: [None] is falsy for
    [any], and [sum] cannot add it. *)
Definition py_any (l : Mask) : bool :=
  existsb (fun x => match x with Some true => true | _ => false end) l.

Definition py_sum (l : Mask) : result Z :=
  foldM (fun acc x =>
           match x with
           | Some b => Ok (acc + Z.b2z b)
           | None => Raise TypeError
           end) l 0.

(** [df.filter(valid_mask)] *)
Fixpoint select_rows (mask : Mask) (l : list Row) : list Row :=
  match mask, l with
  | m :: mask', r :: l' =>
      match m with
      | Some true => r :: select_rows mask' l'
      | _ => select_rows mask' l'
      end
  | _, _ => []
  end.

Fixpoint and_masks (a b : Mask) : Mask :=
  match a, b with
  | x :: a', y :: b' => and3 x y :: and_masks a' b'
  | _, _ => []
  end.

Section Validator.

(** [datetime.now().date()], as a day number. *)
Variable today : Z.

(** [str.strptime(pl.Date, "%Y-%m-%d", strict=False)] on one string. *)
Variable strptime : string -> option Z.

(** What every rule does with its mask: the record when a row fails, and
    [valid_mask = valid_mask & col_mask]. *)
Definition apply_mask (rule_id col : string) (col_mask : Mask)
    (st : list FailedRecord * Mask) : result (list FailedRecord * Mask) :=
  let failed_idx := map not3 col_mask in
  failed_records ←
    (if py_any failed_idx
     then n ← py_sum failed_idx; Ok (st.1 ++ [mkFailed rule_id col n])
     else Ok st.1);
  Ok (failed_records, and_masks st.2 col_mask).

Definition critical_cols : list string := ["customer_id"; "order_id"; "order_date"].
Definition positive_cols : list string := ["quantity"; "unit_price"; "total_amount"].

Definition not_null (v : value) : option bool := Some (negb (is_null v)).

(** Rule 1 for one column. *)
Definition not_null_rule (df : DataFrame) (st : list FailedRecord * Mask)
    (col : string) : result (list FailedRecord * Mask) :=
  match find_column col (schema df) with
  | Some (i, _) =>
      apply_mask ("NOT_NULL_" +:+ col) col (map not_null (series i df)) st
  | None => Ok st
  end.

(** Rule 2 for one column: [df[col] > 0] raises on a column that is not
    numeric. *)
Definition positive_rule (df : DataFrame) (st : list FailedRecord * Mask)
    (col : string) : result (list FailedRecord * Mask) :=
  match find_column col (schema df) with
  | Some (i, t) =>
      if is_numeric t
      then apply_mask ("POSITIVE_" +:+ col) col (map (gt_lit 0) (series i df)) st
      else Raise ComputeError
  | None => Ok st
  end.

Definition parse_date (v : value) : value :=
  match v with
  | VStr s => match strptime s with Some d => VDate d | None => VNull end
  | _ => VNull
  end.

(** [df['order_date'] <= today] on one cell. *)
Definition not_after_today (v : value) : option bool :=
  match v with
  | VDate d => Some (bool_decide (d <= today))
  | _ => None
  end.

(** Rule 3: the frame with its dates parsed, and the new state. *)
Definition date_rule (df : DataFrame) (st : list FailedRecord * Mask)
  : result (DataFrame * (list FailedRecord * Mask)) :=
  match find_column "order_date" (schema df) with
  | Some (i, t) =>
      df ← match t with
            | Utf8 => Ok (mkDF (Medallion.set_dtype i Date (schema df))
                               (map (update_nth i parse_date) (rows df)))
            | Date => Ok df
            | _ => Raise ComputeError
            end;
      st ← apply_mask "VALID_DATE_RANGE" "order_date"
             (map not_after_today (series i df)) st;
      Ok (df, st)
  | None => Ok (df, st)
  end.

Definition validate_all (df : DataFrame) : result (DataFrame * list FailedRecord) :=
  let failed_records := [] in
  let valid_mask := replicate (height df) (Some true) in
  st ← foldM (not_null_rule df) critical_cols (failed_records, valid_mask);
  st ← foldM (positive_rule df) positive_cols st;
  '(df, st) ← date_rule df st;
  let valid_df := mkDF (schema df) (select_rows st.2 (rows df)) in
  Ok (valid_df, st.1).

End Validator.

(** ** The rules as verdicts on rows *)

(** A rule: its id, its column, and what it says of one row of the frame
    that [validate_all] received ([None]: the comparison is null). *)
Record Rule := mkRule {
  rule_id : string;
  rule_column : string;
  verdict : Row -> option bool
}.

(** The conjunction of the masks of the rules [rs], at one row. *)
Definition all3 (rs : list Rule) (r : Row) : option bool :=
  fold_left (fun acc rl => and3 acc (verdict rl r)) rs (Some true).

(** A row is in the valid output when the conjunction is true. *)
Definition passes (rs : list Rule) (r : Row) : bool :=
  match all3 rs r with Some true => true | _ => false end.

Definition fails (rl : Rule) (r : Row) : bool :=
  match verdict rl r with Some false => true | _ => false end.

(** The rows a rule's record counts. *)
Definition count_failed (rl : Rule) (l : list Row) : Z :=
  Z.of_nat (length (List.filter (fails rl) l)).

Definition record_of (l : list Row) (rl : Rule) : list FailedRecord :=
  if existsb (fails rl) l
  then [mkFailed (rule_id rl) (rule_column rl) (count_failed rl l)]
  else [].

Definition records_of (rs : list Rule) (l : list Row) : list FailedRecord :=
  flat_map (record_of l) rs.

Section RulesInForce.

Variable today : Z.
Variable strptime : string -> option Z.

Definition not_null_rules (df : DataFrame) (col : string) : list Rule :=
  match find_column col (schema df) with
  | Some (i, _) => [mkRule ("NOT_NULL_" +:+ col) col (fun r => not_null (cell i r))]
  | None => []
  end.

Definition positive_rules (df : DataFrame) (col : string) : list Rule :=
  match find_column col (schema df) with
  | Some (i, _) => [mkRule ("POSITIVE_" +:+ col) col (fun r => gt_lit 0 (cell i r))]
  | None => []
  end.

Definition as_date (t : dtype) (v : value) : value :=
  match t with Utf8 => parse_date strptime v | _ => v end.

Definition date_rules (df : DataFrame) : list Rule :=
  match find_column "order_date" (schema df) with
  | Some (i, t) =>
      [mkRule "VALID_DATE_RANGE" "order_date"
              (fun r => not_after_today today (as_date t (cell i r)))]
  | None => []
  end.

(** The rules that apply to a frame, in the order of the code. *)
Definition rules_for (df : DataFrame) : list Rule :=
  flat_map (not_null_rules df) critical_cols
  ++ flat_map (positive_rules df) positive_cols
  ++ date_rules df.

(** A row as the valid output shows it: its date parsed when it was text. *)
Definition output_row (df : DataFrame) (r : Row) : Row :=
  match find_column "order_date" (schema df) with
  | Some (i, Utf8) => update_nth i (parse_date strptime) r
  | _ => r
  end.

End RulesInForce.

(** ** From masks to verdicts *)

Lemma py_any_failed (v : Row -> option bool) (l : list Row) :
  py_any (map not3 (map v l))
  = existsb (fun r => match v r with Some false => true | _ => false end) l.
Proof.
  induction l as [|r l IH]; simpl; [done|]. rewrite <- IH.
  by destruct (v r) as [[]|].
Qed.

Lemma py_sum_failed (v : Row -> option bool) (l : list Row) (a n : Z) :
  foldM (fun acc x =>
           match x with
           | Some b => Ok (acc + Z.b2z b)
           | None => Raise TypeError
           end) (map not3 (map v l)) a = Ok n ->
  n = a + Z.of_nat (length (List.filter
                              (fun r => match v r with Some false => true | _ => false end) l)).
Proof.
  revert a; induction l as [|r l IH]; intros a; simpl.
  - intros [= <-]. lia.
  - destruct (v r) as [[]|]; simpl; [| |done]; intros H; apply IH in H; lia.
Qed.

Lemma and_masks_map {A} (f g : A -> option bool) (l : list A) :
  and_masks (map f l) (map g l) = map (fun r => and3 (f r) (g r)) l.
Proof. induction l as [|r l IH]; simpl; [done|]. by rewrite IH. Qed.

Lemma select_rows_map (f : Row -> option bool) (g : Row -> Row) (l : list Row) :
  select_rows (map f l) (map g l)
  = map g (List.filter (fun r => match f r with Some true => true | _ => false end) l).
Proof.
  induction l as [|r l IH]; simpl; [done|].
  destruct (f r) as [[]|]; simpl; by rewrite IH.
Qed.

Lemma all3_snoc (rs : list Rule) (rl : Rule) (r : Row) :
  all3 (rs ++ [rl]) r = and3 (all3 rs r) (verdict rl r).
Proof. unfold all3. by rewrite fold_left_app. Qed.

Lemma records_of_app (rs1 rs2 : list Rule) (l : list Row) :
  records_of (rs1 ++ rs2) l = records_of rs1 l ++ records_of rs2 l.
Proof. unfold records_of. by rewrite flat_map_app. Qed.

(** The state of the loop after the rules [rs]. *)
Definition state_after (rs : list Rule) (l : list Row) : list FailedRecord * Mask :=
  (records_of rs l, map (all3 rs) l).

Lemma state_after_nil (l : list Row) :
  state_after [] l = ([], replicate (length l) (Some true)).
Proof.
  unfold state_after, records_of. simpl. f_equal.
  induction l as [|r l IH]; simpl; [done|]. by rewrite IH.
Qed.

Section ValidatorFacts.

Variable today : Z.
Variable strptime : string -> option Z.

Lemma apply_mask_state (rule_id col : string) (v : Row -> option bool)
    (rs : list Rule) (l : list Row) st' :
  apply_mask rule_id col (map v l) (state_after rs l) = Ok st' ->
  st' = state_after (rs ++ [mkRule rule_id col v]) l.
Proof.
  unfold apply_mask, state_after. simpl.
  rewrite py_any_failed, and_masks_map, records_of_app.
  unfold records_of at 2. simpl. rewrite app_nil_r. unfold record_of, fails. simpl.
  replace (map (all3 (rs ++ [mkRule rule_id col v])) l)
    with (map (fun r => and3 (all3 rs r) (v r)) l)
    by (apply map_ext; intros r; by rewrite all3_snoc).
  destruct (existsb _ l) eqn:Hany; simpl.
  - destruct (py_sum (map not3 (map v l))) as [n|e] eqn:Hsum; simpl; [|done].
    apply py_sum_failed in Hsum. rewrite Z.add_0_l in Hsum.
    intros [= <-]. unfold count_failed, fails. simpl. by rewrite Hsum.
  - intros [= <-]. by rewrite app_nil_r.
Qed.

Lemma rule_loop (l : list Row)
    (step : list FailedRecord * Mask -> string -> result (list FailedRecord * Mask))
    (mk : string -> list Rule) :
  (forall rs c st', step (state_after rs l) c = Ok st' ->
                    st' = state_after (rs ++ mk c) l) ->
  forall cols rs st',
    foldM step cols (state_after rs l) = Ok st' ->
    st' = state_after (rs ++ flat_map mk cols) l.
Proof.
  intros Hstep cols. induction cols as [|c cols IH]; intros rs st'.
  - simpl. intros [= <-]. by rewrite app_nil_r.
  - cbn [foldM flat_map].
    destruct (step (state_after rs l) c) as [st1|e] eqn:H1; [|done].
    apply Hstep in H1 as ->. cbn [mbind result_bind]. intros H.
    apply IH in H. by rewrite <- app_assoc in H.
Qed.

Lemma not_null_rule_state (df : DataFrame) (rs : list Rule) (c : string) st' :
  not_null_rule df (state_after rs (rows df)) c = Ok st' ->
  st' = state_after (rs ++ not_null_rules df c) (rows df).
Proof.
  unfold not_null_rule, not_null_rules, series.
  destruct (find_column c (schema df)) as [[i t]|].
  - rewrite map_map. apply apply_mask_state.
  - intros [= <-]. by rewrite app_nil_r.
Qed.

Lemma positive_rule_state (df : DataFrame) (rs : list Rule) (c : string) st' :
  positive_rule df (state_after rs (rows df)) c = Ok st' ->
  st' = state_after (rs ++ positive_rules df c) (rows df).
Proof.
  unfold positive_rule, positive_rules, series.
  destruct (find_column c (schema df)) as [[i t]|].
  - destruct (is_numeric t); [|done]. rewrite map_map. apply apply_mask_state.
  - intros [= <-]. by rewrite app_nil_r.
Qed.

Lemma date_rule_state (df df' : DataFrame) (rs : list Rule) st' :
  date_rule today strptime df (state_after rs (rows df)) = Ok (df', st') ->
  rows df' = map (output_row strptime df) (rows df)
  /\ st' = state_after (rs ++ date_rules today strptime df) (rows df).
Proof.
  unfold date_rule, date_rules, output_row.
  destruct (find_column "order_date" (schema df)) as [[i t]|].
  - destruct t; try done; cbn [mbind result_bind as_date].
    + (* text: parsed first *)
      unfold series. cbn [rows]. rewrite !map_map.
      rewrite (map_ext (fun r => not_after_today today (cell i (update_nth i (parse_date strptime) r)))
                       (fun r => not_after_today today (parse_date strptime (cell i r)))).
      2:{ intros r. rewrite cell_update_nth by done. by rewrite decide_True. }
      destruct (apply_mask _ _ _ _) as [st1|e] eqn:Hstep; [|done].
      apply apply_mask_state in Hstep as ->. by intros [= <- <-].
    + (* dates already *)
      unfold series. rewrite map_map.
      destruct (apply_mask _ _ _ _) as [st1|e] eqn:Hstep; [|done].
      apply apply_mask_state in Hstep as ->. intros [= <- <-].
      split; [by rewrite map_id|done].
  - intros [= <- <-]. by rewrite map_id, app_nil_r.
Qed.

(** What [validate_all] returns when it returns: the rows that pass every
    rule in force, and one record for each rule that a row fails. *)
Lemma validate_all_returns (df valid : DataFrame) (records : list FailedRecord) :
  validate_all today strptime df = Ok (valid, records) ->
  rows valid = map (output_row strptime df)
                   (List.filter (passes (rules_for today strptime df)) (rows df))
  /\ records = records_of (rules_for today strptime df) (rows df).
Proof.
  unfold validate_all, height. rewrite <- state_after_nil.
  destruct (foldM (not_null_rule df) _ _) as [st1|e] eqn:H1; [|done].
  apply (rule_loop _ _ (not_null_rules df) (not_null_rule_state df)) in H1 as ->.
  cbn [mbind result_bind].
  destruct (foldM (positive_rule df) _ _) as [st2|e] eqn:H2; [|done].
  apply (rule_loop _ _ (positive_rules df) (positive_rule_state df)) in H2 as ->.
  cbn [mbind result_bind].
  destruct (date_rule today strptime df _) as [[df' st3]|e] eqn:H3; [|done].
  apply date_rule_state in H3 as [Hrows ->].
  cbn [mbind result_bind]. intros [= <- <-]. cbn [rows snd fst state_after].
  rewrite <- app_assoc. fold (rules_for today strptime df).
  rewrite Hrows, select_rows_map. done.
Qed.

End ValidatorFacts.

(** ** Which rows are left out, and which of them a record counts *)

Lemma and3_not_true (a b : option bool) :
  and3 a b <> Some true -> a <> Some true \/ b <> Some true.
Proof. destruct a as [[]|], b as [[]|]; simpl; intros H; auto; by left. Qed.

Lemma fold_and3_not_true (rs : list Rule) (r : Row) (acc : option bool) :
  fold_left (fun acc rl => and3 acc (verdict rl r)) rs acc <> Some true ->
  acc <> Some true \/ exists rl, rl ∈ rs /\ verdict rl r <> Some true.
Proof.
  revert acc; induction rs as [|rl rs IH]; intros acc; simpl; [auto|].
  intros H. destruct (IH _ H) as [Hacc | (rl' & Hin & Hv)].
  - destruct (and3_not_true _ _ Hacc) as [Ha | Hv]; [by left|].
    right. exists rl. split; [apply list_elem_of_here | done].
  - right. exists rl'. split; [by apply list_elem_of_further | done].
Qed.

Lemma not_passes (rs : list Rule) (r : Row) :
  passes rs r = false -> exists rl, rl ∈ rs /\ verdict rl r <> Some true.
Proof.
  unfold passes, all3. intros H.
  destruct (fold_and3_not_true rs r (Some true)) as [Hacc | Hex]; [|done|done].
  intros Heq. by rewrite Heq in H.
Qed.

Lemma failed_row_recorded (rs : list Rule) (l : list Row) (rl : Rule) (r : Row) :
  rl ∈ rs -> r ∈ l -> fails rl r = true ->
  mkFailed (rule_id rl) (rule_column rl) (count_failed rl l) ∈ records_of rs l
  /\ 1 <= count_failed rl l.
Proof.
  intros Hrl Hr Hf.
  assert (Hin : In r (List.filter (fails rl) l)).
  { apply filter_In. split; [by apply list_elem_of_In | done]. }
  split.
  - unfold records_of. apply list_elem_of_In, in_flat_map.
    exists rl. split; [by apply list_elem_of_In|].
    unfold record_of.
    assert (existsb (fails rl) l = true) as ->.
    { apply existsb_exists. exists r. split; [by apply list_elem_of_In | done]. }
    by left.
  - unfold count_failed. destruct (List.filter (fails rl) l); [done | simpl; lia].
Qed.

Lemma filter_split_length {A} (p : A -> bool) (l : list A) :
  (length (List.filter p l) + length (List.filter (fun x => negb (p x)) l)
   = length l)%nat.
Proof.
  induction l as [|x l IH]; simpl; [done|]. destruct (p x); simpl; lia.
Qed.

(** *** The frame of the module's own example *)

(** The four dates of the example, as day numbers. *)
Definition example_dates (s : string) : option Z :=
  if decide (s = "2024-01-01") then Some 19723
  else if decide (s = "2024-01-02") then Some 19724
  else if decide (s = "2024-01-03") then Some 19725
  else if decide (s = "2025-12-31") then Some 20453
  else None.

Definition example_orders : DataFrame :=
  mkDF [("customer_id", Utf8); ("order_id", Utf8); ("order_date", Utf8);
        ("quantity", Int64); ("unit_price", Float64); ("total_amount", Float64)]
       [[VStr "C1"; VStr "O1"; VStr "2024-01-01"; VInt 1;
         VFloat (Qc_of_Z 100); VFloat (Qc_of_Z 100)];
        [VStr "C2"; VStr "O2"; VStr "2024-01-02"; VInt (-1);
         VFloat (Qc_of_Z 50); VFloat (Qc_of_Z 50)];
        [VNull; VStr "O3"; VStr "2024-01-03"; VInt 2;
         VFloat (Qc_of_Z 75); VFloat (Qc_of_Z 150)];
        [VStr "C4"; VStr "O4"; VStr "2025-12-31"; VInt 3;
         VFloat (Qc_of_Z 200); VFloat (Qc_of_Z 600)]].

(** Validated on a day of 2024: one row is valid, and each of the other
    three fails one rule. *)
Example example_orders_validated :
  exists valid,
    validate_all 20000 example_dates example_orders
    = Ok (valid,
          [mkFailed "NOT_NULL_customer_id" "customer_id" 1;
           mkFailed "POSITIVE_quantity" "quantity" 1;
           mkFailed "VALID_DATE_RANGE" "order_date" 1])
    /\ height valid = 1%nat.
Proof. eexists. split; [vm_compute; reflexivity | reflexivity]. Qed.

(** A null beside a value that fails: [sum] meets [None] and raises. *)
Example null_and_failure_raise :
  validate_all 20000 example_dates
    (mkDF [("quantity", Int64)] [[VInt 1]; [VNull]; [VInt 0]])
  = Raise TypeError.
Proof. vm_compute. reflexivity. Qed.

End Rules.

(** * [validation/schema_validation.py] and the schema block of [main.py] *)

Module Wallet.
Import Polars.

(** ** The schema *)

(** The checks the schema uses. *)
Inductive Check :=
| str_matches_id               (* Check.str_matches(r'^[a-zA-Z0-9_-]+$') *)
| ge (min_value : Z)           (* Check.ge *)
| le (max_value : Z)           (* Check.le *)
| isin (allowed : list string) (* Check.isin *)
| min_less_than_max.           (* check_min_less_than_max, on the frame *)

Record Column := mkColumn {
  name : string;
  col_dtype : dtype;
  checks : list Check;
  nullable : bool
}.

Definition schema_columns : list Column :=
  [ mkColumn "Customer_ID" Utf8 [str_matches_id] false;
    mkColumn "Age" Int64 [ge 18; le 100] false;
    mkColumn "Location" Utf8 [isin ["Urban"; "Suburban"; "Rural"]] false;
    mkColumn "Income_Level" Utf8 [isin ["Low"; "Middle"; "High"]] false;
    mkColumn "Total_Transactions" Int64 [ge 0] false;
    mkColumn "Avg_Transaction_Value" Float64 [ge 1] false;
    mkColumn "Max_Transaction_Value" Float64 [ge 0] false;
    mkColumn "Min_Transaction_Value" Float64 [ge 0] false;
    mkColumn "Total_Spent" Float64 [ge 0] false;
    mkColumn "Active_Days" Int64 [ge 0] false;
    mkColumn "Last_Transaction_Days_Ago" Int64 [ge 0] false;
    mkColumn "Loyalty_Points_Earned" Int64 [ge 0] false;
    mkColumn "Referral_Count" Int64 [ge 0] false;
    mkColumn "Cashback_Received" Float64 [ge 0] false;
    mkColumn "App_Usage_Frequency" Utf8 [isin ["Monthly"; "Weekly"; "Daily"]] false;
    mkColumn "Preferred_Payment_Method" Utf8 [] false;
    mkColumn "Support_Tickets_Raised" Int64 [ge 0] false;
    mkColumn "Issue_Resolution_Time" Float64 [ge 0] false;
    mkColumn "Customer_Satisfaction_Score" Int64 [ge 0; le 10] false;
    mkColumn "LTV" Float64 [ge 0] false ].

(** The characters of the class [[a-zA-Z0-9_-]]. *)
Definition id_char (a : ascii) : bool :=
  let n := nat_of_ascii a in
  ((97 <=? n)%nat && (n <=? 122)%nat) || ((65 <=? n)%nat && (n <=? 90)%nat)
  || ((48 <=? n)%nat && (n <=? 57)%nat) || (n =? 95)%nat || (n =? 45)%nat.

(** [re.match(r'^[a-zA-Z0-9_-]+$', s)]: one character of the class or more,
    and then the end of the string or one last line feed. *)
Fixpoint id_tail (s : string) : bool :=
  match s with
  | EmptyString => true
  | String a s' =>
      if id_char a then id_tail s'
      else (nat_of_ascii a =? 10)%nat && bool_decide (s' = EmptyString)
  end.

Definition matches_id (s : string) : bool :=
  match s with
  | EmptyString => false
  | String a s' => id_char a && id_tail s'
  end.

(** A check on one cell of its column. *)
Definition check_value (c : Check) (v : value) : bool :=
  match c, v with
  | str_matches_id, VStr s => matches_id s
  | ge k, _ => is_true (ge_lit k v)
  | le k, _ => is_true (le_lit k v)
  | isin allowed, VStr s => bool_decide (s ∈ allowed)
  | _, _ => false
  end.

(** ** Failure cases *)

(** What a row of [SchemaErrors.failure_cases] says: the column, the check,
    the offending value, and, in its column ['index'], the label of the
    offending row of the validated frame (nothing for a failure of the
    column as a whole). *)
Inductive CheckId :=
| column_in_dataframe
| dtype_check
| not_nullable
| value_check (c : Check).

Record FailureCase := mkFailure {
  column : string;
  check : CheckId;
  failure_case : value;
  index : option nat
}.

(** The rows of column [i] whose cell fails [p], with their labels. *)
Definition failing (column : string) (check : CheckId) (p : value -> bool)
    (i : nat) (df : DataFrame) : list FailureCase :=
  omap (fun '(label, r) =>
          let v := cell i r in
          if p v then None else Some (mkFailure column check v (Some label)))
       (zip (seq 0 (height df)) (rows df)).

Definition column_failures (df : DataFrame) (col : Column) : list FailureCase :=
  match find_column (name col) (schema df) with
  | None => [mkFailure (name col) column_in_dataframe VNull None]
  | Some (i, t) =>
      (if decide (t = col_dtype col) then []
       else [mkFailure (name col) dtype_check VNull None])
      ++ (if nullable col then []
          else failing (name col) not_nullable (fun v => negb (is_null v)) i df)
      ++ flat_map (fun c => failing (name col) (value_check c)
                              (fun v => is_null v || check_value c v) i df)
                  (checks col)
  end.

Definition le_value (a b : value) : bool :=
  match a, b with
  | VInt x, VInt y => bool_decide (x <= y)
  | VFloat x, VFloat y => bool_decide (x <= y)%Qc
  | VInt x, VFloat y => bool_decide (Qc_of_Z x <= y)%Qc
  | VFloat x, VInt y => bool_decide (x <= Qc_of_Z y)%Qc
  | _, _ => false
  end.

(** The check on the frame, [Min_Transaction_Value <= Max_Transaction_Value],
    one failure case for a row that fails it. *)
Definition frame_failures (df : DataFrame) : list FailureCase :=
  match find_column "Min_Transaction_Value" (schema df),
        find_column "Max_Transaction_Value" (schema df) with
  | Some (i, _), Some (j, _) =>
      omap (fun '(label, r) =>
              if le_value (cell i r) (cell j r) then None
              else Some (mkFailure "DataFrameSchema" (value_check min_less_than_max)
                                   (cell i r) (Some label)))
           (zip (seq 0 (height df)) (rows df))
  | _, _ => []
  end.

Definition failure_cases (df : DataFrame) : list FailureCase :=
  flat_map (column_failures df) schema_columns ++ frame_failures df.

(** What [schema.validate] does: it returns the frame, or raises. *)
Inductive outcome :=
| Validated (df : DataFrame)
| SchemaErrors (failure_cases : list FailureCase)   (* lazy: all failures *)
| SchemaError (first : FailureCase).                (* not lazy: the first one *)

Definition validate_schema (df : DataFrame) (lazy : bool) : outcome :=
  match failure_cases df with
  | [] => Validated df
  | first :: rest =>
      if lazy then SchemaErrors (first :: rest) else SchemaError first
  end.

(** ** [main.py], "Validate schema" *)

(** The labels of a frame with a default index: [RangeIndex(n)]. *)
Definition range_index (n : nat) : list nat := seq 0 n.

(** [Index.difference] *)
Definition difference (a b : list nat) : list nat :=
  List.filter (fun label => negb (bool_decide (label ∈ b))) a.

(** [df.loc[labels]] *)
Definition loc (df : DataFrame) (labels : list nat) : DataFrame :=
  mkDF (schema df) (omap (fun label => rows df !! label) labels).

(** The [except pa.errors.SchemaErrors] block, for any failure cases:
    [err.failure_cases] is a frame of its own, and [err.failure_cases.index]
    are its own labels, which number the failure cases. *)
Definition isolate (df : DataFrame) (failure_cases : list FailureCase)
  : DataFrame * list FailureCase :=
  let valid_indexes :=
    difference (range_index (height df)) (range_index (length failure_cases)) in
  let df_valid := loc df valid_indexes in
  let df_failed_schema := failure_cases in
  (df_valid, df_failed_schema).

(** The frame the pipeline goes on with, and the failed rows it saves;
    [None] when the exception is not the one the block catches. *)
Definition schema_block (df : DataFrame) : option (DataFrame * list FailureCase) :=
  match validate_schema df true with
  | Validated df' => Some (df', [])
  | SchemaErrors failure_cases => Some (isolate df failure_cases)
  | SchemaError _ => None
  end.

(** ** What the block keeps *)

Lemma difference_range (n k : nat) :
  difference (range_index n) (range_index k) = seq k (n - k).
Proof.
  unfold difference, range_index. induction n as [|n IH].
  - done.
  - rewrite seq_S, List.filter_app, IH. simpl.
    destruct (decide (k <= n)%nat) as [Hle|Hgt].
    + rewrite bool_decide_eq_false_2; simpl.
      * replace (S n - k)%nat with (S (n - k)) by lia.
        rewrite seq_S. do 2 f_equal. lia.
      * rewrite list_elem_of_In, in_seq. lia.
    + rewrite bool_decide_eq_true_2; simpl.
      * replace (S n - k)%nat with O by lia. replace (n - k)%nat with O by lia. done.
      * rewrite list_elem_of_In, in_seq. lia.
Qed.

Lemma omap_map {A B C} (f : B -> option C) (g : A -> B) (l : list A) :
  omap f (map g l) = omap (fun x => f (g x)) l.
Proof. induction l as [|x l IH]; csimpl; [done|]. by rewrite IH. Qed.

Lemma omap_lookup_seq {A} (l : list A) (k : nat) :
  omap (fun label => l !! label) (seq k (length l - k)) = drop k l.
Proof.
  revert k; induction l as [|x l IH]; intros k; simpl.
  - by destruct k.
  - destruct k as [|k]; simpl.
    + f_equal. rewrite <- seq_shift, omap_map. simpl.
      specialize (IH O). rewrite Nat.sub_0_r in IH. by rewrite drop_0 in IH.
    + rewrite <- seq_shift, omap_map. apply IH.
Qed.

(** The block drops as many leading rows as there are failure cases,
    whichever rows the failure cases are about. *)
Lemma isolate_drops_leading_rows (df : DataFrame) (failure_cases : list FailureCase) :
  isolate df failure_cases
  = (mkDF (schema df) (drop (length failure_cases) (rows df)), failure_cases).
Proof.
  unfold isolate, loc. rewrite difference_range. unfold height.
  by rewrite omap_lookup_seq.
Qed.

Lemma schema_block_total (df : DataFrame) :
  exists valid failed, schema_block df = Some (valid, failed).
Proof.
  unfold schema_block, validate_schema.
  destruct (failure_cases df); simpl; eauto.
Qed.

Lemma schema_block_rows (df valid : DataFrame) (failed : list FailureCase) :
  schema_block df = Some (valid, failed) ->
  (height valid + length failed >= height df)%nat.
Proof.
  unfold schema_block, validate_schema.
  destruct (failure_cases df) as [|fc fcs]; simpl.
  - intros [= <- <-]. simpl. lia.
  - rewrite isolate_drops_leading_rows. intros [= <- <-].
    unfold height. simpl. rewrite length_drop. lia.
Qed.

(** ** Runs of the block *)

Definition wallet_columns : list (string * dtype) :=
  map (fun c => (name c, col_dtype c)) schema_columns.

(** A customer whose other columns pass every check. *)
Definition customer (id : string) (age : Z) (location : string) : Row :=
  [ VStr id; VInt age; VStr location; VStr "Low"; VInt 10;
    VFloat (Qc_of_Z 20); VFloat (Qc_of_Z 50); VFloat (Qc_of_Z 5);
    VFloat (Qc_of_Z 200); VInt 3; VInt 1; VInt 0; VInt 0;
    VFloat (Qc_of_Z 0); VStr "Daily"; VStr "Card"; VInt 0;
    VFloat (Qc_of_Z 0); VInt 8; VFloat (Qc_of_Z 100) ].

(** The first customer passes, the second is five years old. *)
Definition two_customers : DataFrame :=
  mkDF wallet_columns [customer "C_1" 30 "Urban"; customer "C_2" 5 "Urban"].

(** C5 (the code at the failing input). Lazy validation reports one
    failure case, about the row labelled 1 (the check [ge 18] on [Age]).
    The block then drops the row labelled 0, which no failure case is
    about, and the pipeline goes on with the row that failed. *)
Theorem schema_block_keeps_the_failing_row :
  validate_schema two_customers true
  = SchemaErrors [mkFailure "Age" (value_check (ge 18)) (VInt 5) (Some 1%nat)]
  /\ schema_block two_customers
     = Some (mkDF wallet_columns [customer "C_2" 5 "Urban"],
             [mkFailure "Age" (value_check (ge 18)) (VInt 5) (Some 1%nat)]).
Proof. split; vm_compute; reflexivity. Qed.

(** One customer who fails two checks. *)
Definition one_customer : DataFrame :=
  mkDF wallet_columns [customer "C_1" 5 "Mars"].

Lemma schema_block_one_customer :
  schema_block one_customer
  = Some (mkDF wallet_columns [],
          [mkFailure "Age" (value_check (ge 18)) (VInt 5) (Some 0%nat);
           mkFailure "Location" (value_check (isin ["Urban"; "Suburban"; "Rural"]))
                     (VStr "Mars") (Some 0%nat)]).
Proof. vm_compute. reflexivity. Qed.

End Wallet.

(** * Rows in, rows out *)

Section Conservation.
Import Polars.

Variable today : Z.
Variable strptime : string -> option Z.

(** C6 (amended). After the schema block of [main.py] the saved failures
    are one row for each failure case (row, column, check), so with the
    rows the pipeline goes on with they are at least as many as the input
    rows, and can be more.  After [validate_all], when it returns: the
    valid output holds the input rows that pass every rule in force, so
    with the rows that do not pass they are the input rows; there is one
    record for each rule that a row fails, and it counts the rows on which
    the rule's mask is false; a row that is left out fails a rule whose
    record counts it, or has a null mask under a rule (a null in a column
    that must be positive, a date that is null or does not parse), and
    then no record counts it for that rule. *)
Theorem rows_after_validation :
  (forall df valid failed,
     Wallet.schema_block df = Some (valid, failed) ->
     (height valid + length failed >= height df)%nat)
  /\ (forall df valid records,
        Rules.validate_all today strptime df = Ok (valid, records) ->
        let rules := Rules.rules_for today strptime df in
        rows valid = map (Rules.output_row strptime df)
                         (List.filter (Rules.passes rules) (rows df))
        /\ (height valid
            + length (List.filter (fun r => negb (Rules.passes rules r)) (rows df))
            = height df)%nat
        /\ records = Rules.records_of rules (rows df)
        /\ forall r, r ∈ rows df -> Rules.passes rules r = false ->
             exists rl, rl ∈ rules
               /\ ((Rules.fails rl r = true
                    /\ Rules.mkFailed (Rules.rule_id rl) (Rules.rule_column rl)
                                       (Rules.count_failed rl (rows df)) ∈ records
                    /\ 1 <= Rules.count_failed rl (rows df))
                   \/ Rules.verdict rl r = None)).
Proof.
  split.
  - intros df valid failed. apply Wallet.schema_block_rows.
  - intros df valid records Hrun rules.
    destruct (Rules.validate_all_returns today strptime df valid records Hrun)
      as [Hrows Hrec].
    fold rules in Hrows, Hrec.
    split; [done|]. split.
    { unfold height. rewrite Hrows, length_map. apply Rules.filter_split_length. }
    split; [done|].
    intros r Hr Hp. destruct (Rules.not_passes rules r Hp) as (rl & Hrl & Hv).
    exists rl. split; [done|].
    destruct (Rules.verdict rl r) as [[]|] eqn:Hvr; [done| |by right].
    left. assert (Hf : Rules.fails rl r = true) by (unfold Rules.fails; by rewrite Hvr).
    split; [done|]. rewrite Hrec. by apply Rules.failed_row_recorded with r.
Qed.

End Conservation.

(** One good quantity, one null. *)
Definition null_quantity : Polars.DataFrame :=
  Polars.mkDF [("quantity", Polars.Int64)] [[Polars.VInt 1]; [Polars.VNull]].

(** C6 (counterexample). One customer who fails two checks: the block keeps
    no row and saves two failures, two for an input of one row.  And a
    frame whose second quantity is null: [validate_all] leaves that row
    out of the valid output and returns no failure record at all. *)
Lemma rows_not_conserved :
  (exists valid failed,
     Wallet.schema_block Wallet.one_customer = Some (valid, failed)
     /\ Polars.height Wallet.one_customer = 1%nat
     /\ Polars.height valid = 0%nat /\ length failed = 2%nat)
  /\ (exists valid,
        Rules.validate_all 0 Medallion.no_dates null_quantity = Ok (valid, [])
        /\ Polars.height null_quantity = 2%nat
        /\ Polars.rows valid = [[Polars.VInt 1]]).
Proof.
  split.
  - eexists _, _. split; [apply Wallet.schema_block_one_customer|]. done.
  - eexists. split; [vm_compute; reflexivity|]. done.
Qed.

Lemma rows_after_validation_witness :
  Rules.validate_all 0 Medallion.no_dates null_quantity
  = Ok (Polars.mkDF [("quantity", Polars.Int64)] [[Polars.VInt 1]], [])
  /\ [] = Rules.records_of (Rules.rules_for 0 Medallion.no_dates null_quantity)
                           (Polars.rows null_quantity).
Proof.
  assert (H : Rules.validate_all 0 Medallion.no_dates null_quantity
              = Ok (Polars.mkDF [("quantity", Polars.Int64)] [[Polars.VInt 1]], []))
    by (vm_compute; reflexivity).
  split; [exact H|].
  destruct (proj2 (rows_after_validation 0 Medallion.no_dates) _ _ _ H)
    as (_ & _ & Hrec & _).
  exact Hrec.
Defined.


(** * Lists without repeats *)

Lemma length_remove_dups {A} `{EqDecision A} (l : list A) :
  (length (remove_dups l) <= length l)%nat.
Proof. induction l as [|x l IH]; simpl; [done|]. case_decide; simpl; lia. Qed.

Lemma remove_dups_fixed {A} `{EqDecision A} (l : list A) :
  NoDup l -> remove_dups l = l.
Proof.
  induction 1 as [|x l Hx _ IH]; simpl; [done|].
  case_decide; [done|]. by rewrite IH.
Qed.

Lemma remove_dups_length_NoDup {A} `{EqDecision A} (l : list A) :
  length (remove_dups l) = length l -> NoDup l.
Proof.
  induction l as [|x l IH]; simpl; [constructor|].
  pose proof (length_remove_dups l). case_decide as Hx; simpl; [lia|].
  intros [= H']. apply NoDup_cons_2; [done | by apply IH].
Qed.

(** * Strings, character by character *)

Fixpoint all_chars (p : ascii -> bool) (s : string) : bool :=
  match s with
  | EmptyString => true
  | String a s' => p a && all_chars p s'
  end.


(** * More of the profiler and of the scorer *)

Module Profiling.
Import Polars Agents.

(** ** Columns by name *)

Lemma find_column_Some (c : string) (sch : list (string * dtype)) i t :
  find_column c sch = Some (i, t) -> sch !! i = Some (c, t).
Proof.
  revert i; induction sch as [|[c' t'] sch IH]; intros i; simpl; [done|].
  case_decide as Hc.
  - intros [= <- <-]. by subst.
  - destruct (find_column c sch) as [[j u]|]; simpl; [|done].
    intros [= <- <-]. by apply IH.
Qed.

Lemma find_column_elem (c : string) (sch : list (string * dtype)) i t :
  find_column c sch = Some (i, t) -> c ∈ map fst sch.
Proof.
  intros H. apply find_column_Some in H.
  apply list_elem_of_fmap. exists (c, t). split; [done|].
  by apply list_elem_of_lookup_2 with i.
Qed.

Lemma elem_find_column (c : string) (sch : list (string * dtype)) :
  c ∈ map fst sch -> exists i t, find_column c sch = Some (i, t).
Proof.
  induction sch as [|[c' t'] sch IH]; simpl; [by intros ?%elem_of_nil|].
  intros H. case_decide; [eauto|].
  apply elem_of_cons in H as [->|H]; [done|].
  destruct (IH H) as (i & t & ->). simpl. eauto.
Qed.

(** Two names at one position are one name. *)
Lemma find_column_index (c1 c2 : string) (sch : list (string * dtype)) i t1 t2 :
  find_column c1 sch = Some (i, t1) -> find_column c2 sch = Some (i, t2) -> c1 = c2.
Proof. intros H1%find_column_Some H2%find_column_Some. congruence. Qed.

Lemma find_column_lt (c : string) (sch : list (string * dtype)) i t :
  find_column c sch = Some (i, t) -> (i < length sch)%nat.
Proof. intros H%find_column_Some. by apply lookup_lt_Some in H. Qed.

Section Loop.

Variable numeric_stats_ok : list value -> bool.
Variable text_stats_ok : list value -> bool.

Abbreviation step := (profile_step numeric_stats_ok text_stats_ok).
Abbreviation column_profile := (_profile_column numeric_stats_ok text_stats_ok).

(** What the loop over the columns adds to its state. *)
Lemma profile_loop_grows (df : DataFrame) (cols : list string) st st' :
  foldM (step df) cols st = Ok st' ->
  (forall x, x ∈ st.2 -> x ∈ st'.2)
  /\ (forall e, e ∈ st.1 -> e ∈ st'.1).
Proof.
  revert st; induction cols as [|c cols IH]; intros st.
  - simpl. by intros [= <-].
  - cbn [foldM]. destruct (step df st c) as [st1|e] eqn:H1; [|done].
    cbn [mbind result_bind]. intros H. destruct (IH _ H) as [Hi He].
    unfold profile_step in H1.
    destruct (find_column c (schema df)) as [[i t]|].
    + destruct (column_profile df i t) as [cp|]; [|done].
      injection H1 as <-. simpl in *. split.
      * intros x Hx. apply Hi, elem_of_app. by left.
      * intros x Hx. apply He, elem_of_app. by left.
    + injection H1 as <-. done.
Qed.

Lemma profile_loop_column (df : DataFrame) (cols : list string) st st' c i t :
  foldM (step df) cols st = Ok st' ->
  c ∈ cols -> find_column c (schema df) = Some (i, t) ->
  exists cp,
    column_profile df i t = Ok cp
    /\ (c, cp) ∈ st'.1
    /\ forall x, x ∈ _detect_column_issues c cp -> x ∈ st'.2.
Proof.
  revert st; induction cols as [|c' cols IH]; intros st Hrun Hc Hf.
  - by apply elem_of_nil in Hc.
  - cbn [foldM] in Hrun. destruct (step df st c') as [st1|e] eqn:H1; [|done].
    cbn [mbind result_bind] in Hrun.
    destruct (decide (c = c')) as [<-|Hne].
    + unfold profile_step in H1. rewrite Hf in H1.
      destruct (column_profile df i t) as [cp|]; [|done].
      injection H1 as <-. exists cp. split; [done|].
      destruct (profile_loop_grows _ _ _ _ Hrun) as [Hi He]. simpl in *. split.
      * apply He, elem_of_app. right. apply list_elem_of_singleton. done.
      * intros x Hx. apply Hi, elem_of_app. by right.
    + apply elem_of_cons in Hc as [?|Hc]; [done|]. by apply (IH st1).
Qed.

(** Where the issues of the loop come from. *)
Lemma profile_loop_issues (df : DataFrame) (cols : list string) st st' x :
  foldM (step df) cols st = Ok st' ->
  x ∈ st'.2 ->
  x ∈ st.2
  \/ exists c i t cp,
       c ∈ cols /\ find_column c (schema df) = Some (i, t)
       /\ column_profile df i t = Ok cp
       /\ x ∈ _detect_column_issues c cp.
Proof.
  revert st; induction cols as [|c cols IH]; intros st.
  - simpl. intros [= <-]. by left.
  - cbn [foldM]. destruct (step df st c) as [st1|e] eqn:H1; [|done].
    cbn [mbind result_bind]. intros Hrun Hx.
    destruct (IH _ Hrun Hx) as [Hx1 | (c' & i & t & cp & Hc' & Hf & Hcp & Hx')].
    + unfold profile_step in H1.
      destruct (find_column c (schema df)) as [[i t]|] eqn:Hf.
      * destruct (column_profile df i t) as [cp|] eqn:Hcp; [|done].
        injection H1 as <-. simpl in Hx1.
        apply elem_of_app in Hx1 as [?|?]; [by left|].
        right. exists c, i, t, cp. split; [apply list_elem_of_here | done].
      * injection H1 as <-. by left.
    + right. exists c', i, t, cp. split; [by apply list_elem_of_further | done].
Qed.

End Loop.

Ltac in_list :=
  repeat first [apply list_elem_of_here | apply list_elem_of_further].

(** ** Counting *)

Lemma count_where_elem {A} (p : A -> bool) (l : list A) (x : A) :
  x ∈ l -> p x = true -> (1 <= count_where p l)%nat.
Proof.
  intros Hx Hp. unfold count_where.
  assert (Hin : In x (List.filter p l)).
  { apply filter_In. split; [by apply list_elem_of_In | done]. }
  destruct (List.filter p l); [done | simpl; lia].
Qed.

Lemma count_where_two {A} (p : A -> bool) (l : list A) (x y : A) :
  x <> y -> x ∈ l -> y ∈ l -> p x = true -> p y = true ->
  (2 <= count_where p l)%nat.
Proof.
  intros Hne Hx Hy Hpx Hpy. unfold count_where.
  change 2%nat with (length [x; y]). apply submseteq_length, NoDup_submseteq.
  - apply NoDup_cons_2; [by intros ?%list_elem_of_singleton|].
    apply NoDup_singleton.
  - intros z Hz. apply list_elem_of_In, filter_In.
    apply elem_of_cons in Hz as [->|Hz].
    + split; [by apply list_elem_of_In | done].
    + apply list_elem_of_singleton in Hz as ->.
      split; [by apply list_elem_of_In | done].
Qed.

(** The score, unfolded. *)
Lemma score_unfolded (profile : Profile) :
  calculate_quality_score profile
  = Z.max 0
      (100 - 10 * count_severity "HIGH" profile
           - 5 * count_severity "MEDIUM" profile
           - 2 * count_severity "LOW" profile
           - 5 * count_columns (fun pct => bool_decide (Qc_of_Z 50 < pct)%Qc) profile
           - 2 * count_columns
                   (fun pct => bool_decide (Qc_of_Z 20 < pct)%Qc
                               && bool_decide (pct <= Qc_of_Z 50)%Qc) profile).
Proof.
  unfold calculate_quality_score. rewrite fold_column_step, fold_issue_step.
  reflexivity.
Qed.

Section Profiled.

Variable numeric_stats_ok : list value -> bool.
Variable text_stats_ok : list value -> bool.

Abbreviation profiled := (profile_dataset numeric_stats_ok text_stats_ok).

Lemma profile_dataset_inv (df : DataFrame) (name : string) (profile : Profile) :
  profiled df name = Ok profile ->
  exists cols issues,
    foldM (profile_step numeric_stats_ok text_stats_ok df) (columns df) ([], [])
    = Ok (cols, issues)
    /\ profile_columns profile = cols
    /\ issues_detected profile = issues ++ _detect_dataset_issues df.
Proof.
  unfold profile_dataset.
  destruct (foldM _ _ _) as [[cols issues]|e]; simpl; [|done].
  intros [= <-]. simpl. eauto.
Qed.

(** A column that is null in every row of a frame that has a row: the
    profile reports it twice, as HIGH_NULL_RATE and as EMPTY_COLUMN, both of
    severity HIGH, and its null rate costs 5 more: the score is at most
    75. *)
Theorem empty_column_scores_at_most_75 (df : DataFrame) (name c : string)
    (i : nat) (t : dtype) :
  rows df <> [] ->
  find_column c (schema df) = Some (i, t) ->
  null_count (series i df) = height df ->
  exists profile,
    profiled df name = Ok profile
    /\ mkIssue "HIGH" "HIGH_NULL_RATE" c ∈ issues_detected profile
    /\ mkIssue "HIGH" "EMPTY_COLUMN" c ∈ issues_detected profile
    /\ calculate_quality_score profile <= 75.
Proof.
  intros Hrows Hc Hnull.
  assert (Hh : height df <> O) by (unfold height; by destruct (rows df)).
  destruct (profile_loop_Ok numeric_stats_ok text_stats_ok df (columns df) ([], []) Hh)
    as [[cols0 issues0] Hloop0].
  set (profile := mkProfile name (height df) (length (columns df)) cols0
                            (issues0 ++ _detect_dataset_issues df)).
  assert (Hp : profiled df name = Ok profile).
  { unfold profile_dataset. by rewrite Hloop0. }
  exists profile. split; [exact Hp|].
  destruct (profile_dataset_inv _ _ _ Hp) as (cols & issues & Hloop & Hcols & Hiss).
  assert (Hcin : c ∈ columns df) by (by eapply find_column_elem).
  destruct (profile_loop_column _ _ df (columns df) _ _ c i t Hloop Hcin Hc)
    as (cp & Hcp & Hentry & Hdet).
  (* the null rate of the column is over 50 *)
  assert (Hpct : (Qc_of_Z 50 < null_percentage cp)%Qc).
  { unfold _profile_column in Hcp.
    destruct (percentage (null_count (series i df)) (height df)) as [q|] eqn:Hq;
      [|done].
    destruct (percentage (n_unique (series i df)) (height df)) as [q'|]; [|done].
    injection Hcp as <-. simpl.
    apply (percentage_gt 50 _ _ _ Hq). rewrite Hnull. lia. }
  assert (H1 : mkIssue "HIGH" "HIGH_NULL_RATE" c ∈ issues_detected profile).
  { rewrite Hiss. apply elem_of_app. left. apply Hdet.
    unfold _detect_column_issues. rewrite bool_decide_eq_true_2 by done.
    apply list_elem_of_here. }
  assert (H2 : mkIssue "HIGH" "EMPTY_COLUMN" c ∈ issues_detected profile).
  { rewrite Hiss. apply elem_of_app. right.
    unfold _detect_dataset_issues. apply elem_of_app. right.
    apply list_elem_of_In, in_flat_map. exists c.
    split; [by apply list_elem_of_In|]. rewrite Hc.
    rewrite bool_decide_eq_true_2 by done. by left. }
  split; [done|]. split; [done|].
  rewrite score_unfolded.
  assert (2 <= count_severity "HIGH" profile).
  { unfold count_severity.
    assert (Hne : mkIssue "HIGH" "HIGH_NULL_RATE" c <> mkIssue "HIGH" "EMPTY_COLUMN" c)
      by discriminate.
    pose proof (count_where_two (fun x => bool_decide (severity x = "HIGH"))
                  _ _ _ Hne H1 H2 eq_refl eq_refl). lia. }
  assert (1 <= count_columns (fun pct => bool_decide (Qc_of_Z 50 < pct)%Qc) profile).
  { unfold count_columns. rewrite Hcols.
    pose proof (count_where_elem
                  (fun e : string * ColumnProfile =>
                     bool_decide (Qc_of_Z 50 < null_percentage e.2)%Qc)
                  cols (c, cp) Hentry (bool_decide_eq_true_2 _ Hpct)). lia. }
  unfold count_severity, count_columns in *. lia.
Qed.

(** The six kinds of issue that a column can raise, with their severity. *)
Definition column_issue_kinds : list (string * string) :=
  [("HIGH", "HIGH_NULL_RATE"); ("MEDIUM", "MODERATE_NULL_RATE");
   ("INFO", "LOW_CARDINALITY"); ("HIGH", "NEGATIVE_VALUES");
   ("LOW", "WHITESPACE"); ("HIGH", "EMPTY_COLUMN")].

Definition profiler_issue (df : DataFrame) (x : Issue) : Prop :=
  x = mkIssue "MEDIUM" "DUPLICATES" "ALL"
  \/ (column x ∈ columns df /\ (severity x, type x) ∈ column_issue_kinds).

Lemma _detect_column_issues_kinds (c : string) (cp : ColumnProfile) (x : Issue) :
  x ∈ _detect_column_issues c cp ->
  column x = c /\ (severity x, type x) ∈ column_issue_kinds.
Proof.
  intros Hx. unfold _detect_column_issues in Hx.
  repeat (apply elem_of_app in Hx as [Hx | Hx]).
  - repeat case_bool_decide; try (by apply elem_of_nil in Hx);
      apply list_elem_of_singleton in Hx as ->; simpl;
      (split; [done | unfold column_issue_kinds; in_list]).
  - destruct (_ && _); [|by apply elem_of_nil in Hx].
    apply list_elem_of_singleton in Hx as ->; simpl.
    split; [done | unfold column_issue_kinds; in_list].
  - destruct (negative_count cp); [|by apply elem_of_nil in Hx].
    destruct (_ && _); [|by apply elem_of_nil in Hx].
    apply list_elem_of_singleton in Hx as ->; simpl.
    split; [done | unfold column_issue_kinds; in_list].
  - destruct (whitespace_issues cp); [|by apply elem_of_nil in Hx].
    case_bool_decide; [|by apply elem_of_nil in Hx].
    apply list_elem_of_singleton in Hx as ->; simpl.
    split; [done | unfold column_issue_kinds; in_list].
Qed.

(** Every issue of a profile is one of the six that a column can raise, on
    a column of the frame, or the one that the frame as a whole raises. *)
Theorem profile_issues_are_known (df : DataFrame) (name : string) (profile : Profile) :
  profiled df name = Ok profile ->
  forall x, x ∈ issues_detected profile -> profiler_issue df x.
Proof.
  intros Hp x Hx.
  destruct (profile_dataset_inv _ _ _ Hp) as (cols & issues & Hloop & _ & Hiss).
  rewrite Hiss in Hx. apply elem_of_app in Hx as [Hx | Hx].
  - destruct (profile_loop_issues _ _ _ _ _ _ x Hloop Hx)
      as [Hnil | (c & i & t & cp & Hc & _ & _ & Hdet)]; [by apply elem_of_nil in Hnil|].
    destruct (_detect_column_issues_kinds _ _ _ Hdet) as [Hcol Hkind].
    right. by rewrite Hcol.
  - unfold _detect_dataset_issues in Hx. apply elem_of_app in Hx as [Hx | Hx].
    + case_bool_decide; [|by apply elem_of_nil in Hx].
      apply list_elem_of_singleton in Hx. by left.
    + apply list_elem_of_In, in_flat_map in Hx as (c & Hc & Hx).
      apply list_elem_of_In in Hc.
      destruct (find_column c (schema df)) as [[i t]|]; [|done].
      case_bool_decide; [|done]. destruct Hx as [<- | []].
      right. simpl. split; [done|]. unfold column_issue_kinds. in_list.
Qed.

(** An issue that only a column raises comes from the profile of the column
    it names. *)
Lemma column_issue_origin (df : DataFrame) (name : string) (profile : Profile)
    (sev ty c : string) :
  profiled df name = Ok profile ->
  mkIssue sev ty c ∈ issues_detected profile ->
  ty <> "DUPLICATES" -> ty <> "EMPTY_COLUMN" ->
  exists i t cp,
    find_column c (schema df) = Some (i, t)
    /\ _profile_column numeric_stats_ok text_stats_ok df i t = Ok cp
    /\ mkIssue sev ty c ∈ _detect_column_issues c cp.
Proof.
  intros Hp Hx Hd He.
  destruct (profile_dataset_inv _ _ _ Hp) as (cols & issues & Hloop & _ & Hiss).
  rewrite Hiss in Hx. apply elem_of_app in Hx as [Hx | Hx].
  - destruct (profile_loop_issues _ _ _ _ _ _ _ Hloop Hx)
      as [Hnil | (c' & i & t & cp & Hc & Hf & Hcp & Hdet)];
      [by apply elem_of_nil in Hnil|].
    destruct (_detect_column_issues_kinds _ _ _ Hdet) as [Hcol _].
    simpl in Hcol. subst c'. by exists i, t, cp.
  - unfold _detect_dataset_issues in Hx. apply elem_of_app in Hx as [Hx | Hx].
    + case_bool_decide; [|by apply elem_of_nil in Hx].
      apply list_elem_of_singleton in Hx. congruence.
    + apply list_elem_of_In, in_flat_map in Hx as (c' & _ & Hx).
      destruct (find_column c' (schema df)) as [[i t]|]; [|done].
      case_bool_decide; [|done]. destruct Hx as [Hx | []]. congruence.
Qed.

(** The profiler reports DUPLICATES exactly for the frames in which a row
    occurs twice. *)
Theorem duplicates_reported_iff (df : DataFrame) (name : string) (profile : Profile) :
  profiled df name = Ok profile ->
  mkIssue "MEDIUM" "DUPLICATES" "ALL" ∈ issues_detected profile
  <-> ~ NoDup (rows df).
Proof.
  intros Hp.
  destruct (profile_dataset_inv _ _ _ Hp) as (cols & issues & Hloop & _ & Hiss).
  rewrite Hiss. unfold _detect_dataset_issues, height, n_unique.
  pose proof (length_remove_dups (rows df)) as Hle.
  split.
  - intros Hx Hnd. remember (mkIssue "MEDIUM" "DUPLICATES" "ALL") as d eqn:Hd.
    assert (Hd' : severity d = "MEDIUM" /\ type d = "DUPLICATES") by (by subst d).
    apply elem_of_app in Hx as [Hx | Hx].
    + destruct (profile_loop_issues _ _ _ _ _ _ _ Hloop Hx)
        as [Hnil | (c & i & t & cp & Hc & _ & _ & Hdet)]; [by apply elem_of_nil in Hnil|].
      destruct (_detect_column_issues_kinds _ _ _ Hdet) as [_ Hkind].
      destruct Hd' as [Hs Ht]. rewrite Hs, Ht in Hkind. unfold column_issue_kinds in Hkind.
      repeat (apply elem_of_cons in Hkind as [Hkind | Hkind]; [discriminate|]).
      by apply elem_of_nil in Hkind.
    + apply elem_of_app in Hx as [Hx | Hx].
      * case_bool_decide as Hc; [|by apply elem_of_nil in Hx].
        rewrite (remove_dups_fixed _ Hnd) in Hc. lia.
      * apply list_elem_of_In, in_flat_map in Hx as (c & _ & Hx).
        destruct (find_column c (schema df)) as [[i t]|]; [|done].
        case_bool_decide; [|done]. destruct Hx as [Hx | []]. by subst d.
  - intros Hdup. apply elem_of_app. right. apply elem_of_app. left.
    rewrite bool_decide_eq_true_2; [apply list_elem_of_here|].
    destruct (decide (length (remove_dups (rows df)) = length (rows df))) as [He|Hne].
    + by apply remove_dups_length_NoDup in He.
    + lia.
Qed.

End Profiled.

(** ** The score and the order of its inputs *)

Lemma count_where_Permutation {A} (p : A -> bool) (l1 l2 : list A) :
  Permutation l1 l2 -> count_where p l1 = count_where p l2.
Proof.
  intros H. unfold count_where.
  by apply Permutation_length, Medallion.Permutation_list_filter.
Qed.

Lemma count_where_cons {A} (p : A -> bool) (x : A) (l : list A) :
  (count_where p l <= count_where p (x :: l))%nat.
Proof. unfold count_where. simpl. destruct (p x); simpl; lia. Qed.

(** The score does not depend on the order in which the issues and the
    columns of a profile are listed, and one more issue or one more column
    never raises it. *)
Theorem score_order_and_growth :
  (forall p q,
     Permutation (issues_detected p) (issues_detected q) ->
     Permutation (profile_columns p) (profile_columns q) ->
     calculate_quality_score p = calculate_quality_score q)
  /\ (forall name r c cols issues x,
        calculate_quality_score (mkProfile name r c cols (x :: issues))
        <= calculate_quality_score (mkProfile name r c cols issues))
  /\ (forall name r c cols issues e,
        calculate_quality_score (mkProfile name r c (e :: cols) issues)
        <= calculate_quality_score (mkProfile name r c cols issues)).
Proof.
  split; [|split].
  - intros p q Hi Hc. rewrite !score_unfolded.
    unfold count_severity, count_columns.
    rewrite !(count_where_Permutation _ _ _ Hi), !(count_where_Permutation _ _ _ Hc).
    reflexivity.
  - intros name r c cols issues x. rewrite !score_unfolded.
    unfold count_severity, count_columns. simpl.
    pose proof (count_where_cons (fun i => bool_decide (severity i = "HIGH")) x issues).
    pose proof (count_where_cons (fun i => bool_decide (severity i = "MEDIUM")) x issues).
    pose proof (count_where_cons (fun i => bool_decide (severity i = "LOW")) x issues).
    lia.
  - intros name r c cols issues e. rewrite !score_unfolded.
    unfold count_severity, count_columns. simpl.
    pose proof (count_where_cons
                  (fun e : string * ColumnProfile =>
                     bool_decide (Qc_of_Z 50 < null_percentage e.2)%Qc) e cols).
    pose proof (count_where_cons
                  (fun e : string * ColumnProfile =>
                     bool_decide (Qc_of_Z 20 < null_percentage e.2)%Qc
                     && bool_decide (null_percentage e.2 <= Qc_of_Z 50)%Qc) e cols).
    lia.
Qed.

(** ** Instances *)

Definition always : list value -> bool := fun _ => true.

Definition empty_notes : DataFrame :=
  mkDF [("id", Int64); ("notes", Utf8)] [[VInt 1; VNull]; [VInt 2; VNull]].

Lemma empty_column_witness :
  exists profile,
    profile_dataset always always empty_notes "t" = Ok profile
    /\ calculate_quality_score profile <= 75.
Proof.
  destruct (empty_column_scores_at_most_75 always always empty_notes "t" "notes"
              1%nat Utf8)
    as (profile & Hp & _ & _ & Hs); [discriminate | reflexivity | reflexivity |].
  exists profile. auto.
Defined.

Lemma profile_issues_witness :
  profiler_issue test_data (mkIssue "LOW" "WHITESPACE" "name").
Proof.
  assert (H : exists p, profile_dataset always always test_data "test_data" = Ok p
                        /\ mkIssue "LOW" "WHITESPACE" "name" ∈ issues_detected p).
  { eexists. split; [vm_compute; reflexivity|]. vm_compute. in_list. }
  destruct H as (p & Hp & Hin).
  exact (profile_issues_are_known always always test_data "test_data" p Hp _ Hin).
Defined.

Definition twice : DataFrame := mkDF [("id", Int64)] [[VInt 1]; [VInt 1]].

Lemma duplicates_reported_witness :
  exists p, profile_dataset always always twice "t" = Ok p
            /\ mkIssue "MEDIUM" "DUPLICATES" "ALL" ∈ issues_detected p.
Proof.
  assert (H : exists p, profile_dataset always always twice "t" = Ok p).
  { eexists. vm_compute. reflexivity. }
  destruct H as (p & Hp). exists p. split; [done|].
  apply (duplicates_reported_iff always always twice "t" p Hp).
  intros Hnd. apply NoDup_cons_1_1 in Hnd. apply Hnd, list_elem_of_here.
Defined.

End Profiling.

(** * The fixes of [auto_remediate], profiled again

    [src/agents/agentic_agents.py], [DataProfilerAgent] and
    [RemediationAgent] together: what a second profile says about a frame
    that a fix has gone over. *)

Module Remediating.
Import Polars Agents Profiling.

(** [auto_remediate] with one issue is one turn of its loop. *)
Lemma auto_remediate_one (order : row_order) (df : DataFrame) (issue : Issue) :
  auto_remediate order df [issue]
  = '(df1, a) ← remediate_issue order df issue; Ok (df1, record_action [] a).
Proof.
  rewrite auto_remediate_run. cbn [run].
  destruct (remediate_issue order df issue) as [[df1 a]|e]; [|done].
  cbn [mbind result_bind]. by rewrite app_nil_r.
Qed.

(** The kind of an issue tells which entry of the column's profile raised
    it. *)
Lemma whitespace_issue_count (c : string) (cp : ColumnProfile) (x : Issue) :
  x ∈ _detect_column_issues c cp -> type x = "WHITESPACE" ->
  exists n, whitespace_issues cp = Some n /\ (0 < n)%nat.
Proof.
  intros Hx Hty. unfold _detect_column_issues in Hx.
  repeat (apply elem_of_app in Hx as [Hx | Hx]).
  - repeat case_bool_decide; try (by apply elem_of_nil in Hx);
      apply list_elem_of_singleton in Hx as ->; discriminate.
  - destruct (_ && _); [|by apply elem_of_nil in Hx].
    apply list_elem_of_singleton in Hx as ->; discriminate.
  - destruct (negative_count cp); [|by apply elem_of_nil in Hx].
    destruct (_ && _); [|by apply elem_of_nil in Hx].
    apply list_elem_of_singleton in Hx as ->; discriminate.
  - destruct (whitespace_issues cp) as [n|]; [|by apply elem_of_nil in Hx].
    case_bool_decide; [|by apply elem_of_nil in Hx]. by exists n.
Qed.

Lemma negative_issue_count (c : string) (cp : ColumnProfile) (x : Issue) :
  x ∈ _detect_column_issues c cp -> type x = "NEGATIVE_VALUES" ->
  exists n, negative_count cp = Some n /\ (0 < n)%nat.
Proof.
  intros Hx Hty. unfold _detect_column_issues in Hx.
  repeat (apply elem_of_app in Hx as [Hx | Hx]).
  - repeat case_bool_decide; try (by apply elem_of_nil in Hx);
      apply list_elem_of_singleton in Hx as ->; discriminate.
  - destruct (_ && _); [|by apply elem_of_nil in Hx].
    apply list_elem_of_singleton in Hx as ->; discriminate.
  - destruct (negative_count cp) as [n|]; [|by apply elem_of_nil in Hx].
    destruct (bool_decide (0 < n)%nat) eqn:Hn; [|by apply elem_of_nil in Hx].
    apply bool_decide_eq_true in Hn. by exists n.
  - destruct (whitespace_issues cp) as [n|]; [|by apply elem_of_nil in Hx].
    case_bool_decide; [|by apply elem_of_nil in Hx].
    apply list_elem_of_singleton in Hx as ->; discriminate.
Qed.

Lemma count_where_none {A} (p : A -> bool) (l : list A) :
  (forall x, x ∈ l -> p x = false) -> count_where p l = O.
Proof.
  unfold count_where. induction l as [|x l IH]; intros H; simpl; [done|].
  rewrite (H x (list_elem_of_here _ _)). apply IH.
  intros y Hy. apply H. by apply list_elem_of_further.
Qed.

Lemma strip_differs_strip_value (v : value) : strip_differs (strip_value v) = false.
Proof.
  destruct v; simpl; try done.
  rewrite strip_chars_idempotent. by rewrite bool_decide_eq_true_2.
Qed.

(** An issue of a profile whose kind only a column raises: the column it
    names is in the frame, and the issue comes from that column's
    profile. *)
Lemma kind_origin numeric_stats_ok text_stats_ok (df : DataFrame) (name : string)
    (profile : Profile) (x : Issue) :
  profile_dataset numeric_stats_ok text_stats_ok df name = Ok profile ->
  x ∈ issues_detected profile ->
  type x <> "DUPLICATES" -> type x <> "EMPTY_COLUMN" ->
  exists i t cp,
    find_column (column x) (schema df) = Some (i, t)
    /\ _profile_column numeric_stats_ok text_stats_ok df i t = Ok cp
    /\ x ∈ _detect_column_issues (column x) cp.
Proof.
  destruct x as [sev ty c]. simpl. intros Hp Hx Hd He.
  exact (column_issue_origin _ _ _ _ _ _ _ _ Hp Hx Hd He).
Qed.

(** The two optional entries of a column's profile. *)
Lemma _profile_column_entries numeric_stats_ok text_stats_ok (df : DataFrame)
    (i : nat) (t : dtype) (cp : ColumnProfile) :
  _profile_column numeric_stats_ok text_stats_ok df i t = Ok cp ->
  negative_count cp
  = (if is_numeric t && numeric_stats_ok (series i df)
     then Some (count_where (fun v => is_true (lt_lit 0 v)) (series i df))
     else None)
  /\ whitespace_issues cp
     = (if bool_decide (t = Utf8) && text_stats_ok (series i df)
        then Some (count_where strip_differs (series i df))
        else None).
Proof.
  unfold _profile_column.
  destruct (percentage (null_count _) _); cbn [mbind result_bind]; [|done].
  destruct (percentage _ _); cbn [mbind result_bind]; [|done].
  by intros [= <-].
Qed.

(** DUPLICATES comes from the frame as a whole, and only from a frame in
    which a row occurs twice. *)
Lemma duplicates_issue_repeat numeric_stats_ok text_stats_ok (df : DataFrame)
    (name : string) (profile : Profile) (x : Issue) :
  profile_dataset numeric_stats_ok text_stats_ok df name = Ok profile ->
  x ∈ issues_detected profile -> type x = "DUPLICATES" ->
  ~ NoDup (rows df).
Proof.
  intros Hp Hx Hty Hnd.
  destruct (profile_dataset_inv _ _ _ _ _ Hp) as (cols & issues & Hloop & _ & Hiss).
  rewrite Hiss in Hx. apply elem_of_app in Hx as [Hx | Hx].
  - destruct (profile_loop_issues _ _ _ _ _ _ _ Hloop Hx)
      as [Hnil | (c & i & t & cp & _ & _ & _ & Hdet)];
      [by apply elem_of_nil in Hnil|].
    destruct (_detect_column_issues_kinds _ _ _ Hdet) as [_ Hkind].
    rewrite Hty in Hkind. unfold column_issue_kinds in Hkind.
    repeat (apply elem_of_cons in Hkind as [Hkind | Hkind]; [discriminate|]).
    by apply elem_of_nil in Hkind.
  - unfold _detect_dataset_issues in Hx. apply elem_of_app in Hx as [Hx | Hx].
    + case_bool_decide as Hc; [|by apply elem_of_nil in Hx].
      unfold height, n_unique in Hc. rewrite (remove_dups_fixed _ Hnd) in Hc. lia.
    + apply list_elem_of_In, in_flat_map in Hx as (c & _ & Hx).
      destruct (find_column c (schema df)) as [[i t]|]; [|done].
      case_bool_decide; [|done]. destruct Hx as [<- | []]. discriminate.
Qed.

Lemma remove_nth_sublist {A} (i : nat) (l : list A) : remove_nth i l `sublist_of` l.
Proof.
  revert i; induction l as [|x l IH]; intros [|i]; simpl; try done.
  - by apply sublist_cons.
  - by apply sublist_skip.
Qed.

(** One turn of the loop of [auto_remediate]: the frame loses rows or a
    column at most, and an action, if there is one, is filed under the
    issue of the turn with status SUCCESS. *)
Lemma remediate_issue_shrinks (order : row_order) (df df1 : DataFrame)
    (issue : Issue) (a : option RemediationAction) :
  valid_order order ->
  remediate_issue order df issue = Ok (df1, a) ->
  (height df1 <= height df)%nat
  /\ columns df1 `sublist_of` columns df
  /\ forall x, a = Some x -> action_issue x = issue /\ status x = "SUCCESS".
Proof.
  intros Hord. unfold remediate_issue.
  assert (Hsame : (height df <= height df)%nat
                  /\ columns df `sublist_of` columns df) by done.
  repeat case_decide.
  - destruct (find_column _ _) as [[i []]|]; intros [= <- <-];
      try (by destruct Hsame; split_and!).
    split_and!; [by unfold height; simpl; rewrite length_map | done |].
    by intros x [= <-].
  - intros [= <- <-]. split_and!.
    + unfold height. simpl. rewrite (Permutation_length (Hord _)).
      apply length_remove_dups.
    + done.
    + by intros x [= <-].
  - destruct (find_column _ _) as [[i t]|] eqn:Hf;
      [|by intros [= <- <-]; destruct Hsame; split_and!].
    unfold filter_num. rewrite Hf. destruct (is_numeric t); [|done].
    simpl. intros [= <- <-]. split_and!.
    + unfold height. simpl. apply List.filter_length_le.
    + done.
    + by intros x [= <-].
  - destruct (find_column _ _) as [[i t]|];
      [|by intros [= <- <-]; destruct Hsame; split_and!].
    destruct (percentage _ _); [|done]. cbn [mbind result_bind].
    case_bool_decide; intros [= <- <-]; [|by destruct Hsame; split_and!].
    split_and!.
    + by unfold height; simpl; rewrite length_map.
    + unfold columns. simpl. apply (fmap_sublist fst), remove_nth_sublist.
    + by intros x [= <-].
  - intros [= <- <-]. by destruct Hsame; split_and!.
Qed.

Section Fixes.

Variable order : row_order.
Variables numeric_stats_ok text_stats_ok : list value -> bool.

Local Abbreviation profiled := (profile_dataset numeric_stats_ok text_stats_ok).

(** The WHITESPACE fix: whatever the column of the issue is, a profile of
    the frame that comes back reports no WHITESPACE issue on it; the frame
    keeps its columns and its number of rows. *)
Theorem whitespace_fix_clears_issue (df df' : DataFrame) (issue : Issue)
    (actions : list RemediationAction) :
  type issue = "WHITESPACE" ->
  auto_remediate order df [issue] = Ok (df', actions) ->
  schema df' = schema df /\ height df' = height df
  /\ forall name profile x,
       profiled df' name = Ok profile ->
       x ∈ issues_detected profile ->
       type x = "WHITESPACE" -> column x <> column issue.
Proof.
  intros Hty. rewrite auto_remediate_one. unfold remediate_issue.
  rewrite Hty. simpl.
  destruct (find_column (column issue) (schema df)) as [[i t]|] eqn:Hf.
  - intros Hrun.
    assert (Hcases : t = Utf8 /\ df' = strip_column i df \/ t <> Utf8 /\ df' = df).
    { destruct t; simpl in Hrun; injection Hrun as <- _; (by left) || (by right). }
    clear Hrun. destruct Hcases as [[-> ->] | [Ht ->]].
    + split; [done|]. split; [by unfold height; simpl; rewrite length_map|].
      intros name profile x Hp Hx Htx Hcol.
      destruct (kind_origin _ _ _ _ _ _ Hp Hx) as (j & t & cp & Hj & Hcp & Hdet);
        [by rewrite Htx | by rewrite Htx |].
      rewrite Hcol in Hj. simpl in Hj. rewrite Hf in Hj. injection Hj as <- <-.
      destruct (whitespace_issue_count _ _ _ Hdet Htx) as (n & Hn & Hpos).
      apply _profile_column_entries in Hcp as [_ Hw]. rewrite Hw in Hn.
      destruct (_ && _); [|done]. injection Hn as <-.
      rewrite count_where_none in Hpos; [lia|].
      intros v Hv. unfold series in Hv. simpl in Hv.
      rewrite map_map in Hv. apply list_elem_of_fmap in Hv as (r & -> & _).
      rewrite cell_update_nth by done. rewrite decide_True by done.
      apply strip_differs_strip_value.
    + split; [done|]. split; [done|].
      intros name profile x Hp Hx Htx Hcol.
      destruct (kind_origin _ _ _ _ _ _ Hp Hx) as (j & t' & cp & Hj & Hcp & Hdet);
        [by rewrite Htx | by rewrite Htx |].
      rewrite Hcol, Hf in Hj. injection Hj as <- <-.
      destruct (whitespace_issue_count _ _ _ Hdet Htx) as (n & Hn & Hpos).
      apply _profile_column_entries in Hcp as [_ Hw]. rewrite Hw in Hn.
      rewrite bool_decide_eq_false_2 in Hn by done. done.
  - intros [= <- _]. split; [done|]. split; [done|].
    intros name profile x Hp Hx Htx Hcol.
    destruct (kind_origin _ _ _ _ _ _ Hp Hx) as (j & t' & cp & Hj & _);
      [by rewrite Htx | by rewrite Htx |].
    rewrite Hcol, Hf in Hj. done.
Qed.

(** The NEGATIVE_VALUES fix: a profile of the frame that comes back reports
    no NEGATIVE_VALUES issue on the column of the issue. *)
Theorem negative_values_fix_clears_issue (df df' : DataFrame) (issue : Issue)
    (actions : list RemediationAction) :
  type issue = "NEGATIVE_VALUES" ->
  auto_remediate order df [issue] = Ok (df', actions) ->
  schema df' = schema df
  /\ forall name profile x,
       profiled df' name = Ok profile ->
       x ∈ issues_detected profile ->
       type x = "NEGATIVE_VALUES" -> column x <> column issue.
Proof.
  intros Hty. rewrite auto_remediate_one. unfold remediate_issue.
  rewrite Hty. simpl.
  destruct (find_column (column issue) (schema df)) as [[i t]|] eqn:Hf.
  - unfold filter_num. rewrite Hf.
    destruct (is_numeric t) eqn:Hnum; [|done]. simpl. intros [= <- _].
    split; [done|].
    intros name profile x Hp Hx Htx Hcol.
    destruct (kind_origin _ _ _ _ _ _ Hp Hx) as (j & t' & cp & Hj & Hcp & Hdet);
      [by rewrite Htx | by rewrite Htx |].
    rewrite Hcol in Hj. simpl in Hj. rewrite Hf in Hj. injection Hj as <- <-.
    destruct (negative_issue_count _ _ _ Hdet Htx) as (n & Hn & Hpos).
    apply _profile_column_entries in Hcp as [Hneg _]. rewrite Hneg in Hn.
    destruct (_ && _); [|done]. injection Hn as <-.
    rewrite count_where_none in Hpos; [lia|].
    intros v Hv. unfold series in Hv. simpl in Hv.
    apply list_elem_of_fmap in Hv as (r & -> & Hr).
    apply list_elem_of_In, filter_In in Hr as [_ Hr]. unfold keeps in Hr.
    destruct (cell i r) as [|z|q| |]; simpl in *; try done.
    + case_bool_decide; [|done]. by rewrite bool_decide_eq_false_2 by lia.
    + case_bool_decide as Hq; [|done]. rewrite bool_decide_eq_false_2; [done|].
      by apply Qcle_not_lt.
  - intros [= <- _]. split; [done|].
    intros name profile x Hp Hx Htx Hcol.
    destruct (kind_origin _ _ _ _ _ _ Hp Hx) as (j & t' & cp & Hj & _);
      [by rewrite Htx | by rewrite Htx |].
    rewrite Hcol, Hf in Hj. done.
Qed.

(** The DUPLICATES fix: the rows that come back are the rows of the frame,
    each once; the action records as removed the number of rows the
    profiler counts as duplicates; and no profile of the result reports
    DUPLICATES. *)
Theorem duplicates_fix_leaves_no_repeats (df df' : DataFrame) (issue : Issue)
    (actions : list RemediationAction) :
  valid_order order ->
  type issue = "DUPLICATES" ->
  auto_remediate order df [issue] = Ok (df', actions) ->
  NoDup (rows df')
  /\ (forall r, r ∈ rows df' <-> r ∈ rows df)
  /\ actions
     = [mkAction issue "REMOVED_DUPLICATES" None
                 (Some (Z.of_nat (height df - n_unique (rows df)))) "SUCCESS"]
  /\ forall name profile x,
       profiled df' name = Ok profile ->
       x ∈ issues_detected profile -> type x <> "DUPLICATES".
Proof.
  intros Hord Hty. rewrite auto_remediate_one. unfold remediate_issue.
  rewrite Hty. simpl. intros [= <- <-].
  assert (Hnd : NoDup (rows (unique order df))).
  { simpl. rewrite (Hord _). apply NoDup_remove_dups. }
  split_and!.
  - exact Hnd.
  - intros r. simpl. rewrite (Hord _). apply elem_of_remove_dups.
  - unfold height, n_unique. simpl. rewrite (Permutation_length (Hord _)).
    pose proof (length_remove_dups (rows df)).
    do 3 f_equal. lia.
  - intros name profile x Hp Hx Htx.
    exact (duplicates_issue_repeat _ _ _ _ _ _ Hp Hx Htx Hnd).
Qed.

(** [auto_remediate] only takes away: the frame it returns has no more
    rows than the one it is given, its columns are among the given ones in
    their order, and there is at most one action per issue, each of status
    SUCCESS and filed under one of the issues. *)
Theorem auto_remediate_never_grows (df df' : DataFrame) (issues : list Issue)
    (actions : list RemediationAction) :
  valid_order order ->
  auto_remediate order df issues = Ok (df', actions) ->
  (height df' <= height df)%nat
  /\ columns df' `sublist_of` columns df
  /\ (length actions <= length issues)%nat
  /\ forall a, a ∈ actions -> action_issue a ∈ issues /\ status a = "SUCCESS".
Proof.
  intros Hord. rewrite auto_remediate_run.
  revert df df' actions; induction issues as [|issue issues IH];
    intros df df' actions; cbn [run].
  - intros [= <- <-]. split_and!; try done.
    intros a Ha. by apply elem_of_nil in Ha.
  - destruct (remediate_issue order df issue) as [[df1 a]|e] eqn:H1; [|done].
    cbn [mbind result_bind].
    destruct (run order df1 issues) as [[df2 acts]|e] eqn:H2; [|done].
    cbn [mbind result_bind]. intros [= <- <-].
    destruct (remediate_issue_shrinks _ _ _ _ _ Hord H1) as (Hh1 & Hc1 & Ha1).
    destruct (IH _ _ _ H2) as (Hh2 & Hc2 & Hl2 & Ha2).
    split_and!.
    + lia.
    + by etrans.
    + rewrite length_app. destruct a; simpl; lia.
    + intros x Hx. apply elem_of_app in Hx as [Hx | Hx].
      * destruct a as [y|]; simpl in Hx; [|by apply elem_of_nil in Hx].
        apply list_elem_of_singleton in Hx as ->.
        destruct (Ha1 y eq_refl) as [-> ?]. split; [apply list_elem_of_here | done].
      * destruct (Ha2 x Hx). split; [by apply list_elem_of_further | done].
Qed.

(** The kinds of issue that [auto_remediate] has a fix for. *)
Definition fixable : list string :=
  ["WHITESPACE"; "DUPLICATES"; "NEGATIVE_VALUES"; "HIGH_NULL_RATE"].

(** Issues of every other kind, among them MODERATE_NULL_RATE,
    LOW_CARDINALITY and EMPTY_COLUMN of the profiler, are passed over: the
    frame comes back as it is and no action is recorded. *)
Theorem other_issues_are_passed_over (df : DataFrame) (issues : list Issue) :
  (forall x, x ∈ issues -> type x ∉ fixable) ->
  auto_remediate order df issues = Ok (df, []).
Proof.
  rewrite auto_remediate_run.
  induction issues as [|issue issues IH]; intros Hall; cbn [run]; [done|].
  assert (Hnot : type issue ∉ fixable) by apply Hall, list_elem_of_here.
  unfold fixable in Hnot.
  assert (H1 : remediate_issue order df issue = Ok (df, None)).
  { unfold remediate_issue.
    repeat case_decide; try done; exfalso; apply Hnot;
      match goal with H : type issue = _ |- _ => rewrite H end; in_list. }
  rewrite H1. cbn [mbind result_bind]. rewrite IH; [done|].
  intros x Hx. by apply Hall, list_elem_of_further.
Qed.

(** The HIGH_NULL_RATE fix on a frame that the fixes before it have left
    without a row: the null rate of the column divides by [len(df_fixed)],
    which is 0, and [auto_remediate] raises. *)
Theorem high_null_rate_fix_divides_by_zero (df df1 : DataFrame)
    (issues : list Issue) (actions : list RemediationAction) (issue : Issue) :
  auto_remediate order df issues = Ok (df1, actions) ->
  rows df1 = [] ->
  type issue = "HIGH_NULL_RATE" ->
  column issue ∈ columns df1 ->
  auto_remediate order df (issues ++ [issue]) = Raise ZeroDivisionError.
Proof.
  intros Hrun Hrows Hty Hcol.
  rewrite auto_remediate_snoc, Hrun. cbn [mbind result_bind].
  rewrite remediate_step_unfold. unfold remediate_issue. rewrite Hty. simpl.
  destruct (elem_find_column _ _ Hcol) as (i & t & ->).
  unfold height. by rewrite Hrows.
Qed.

End Fixes.

(** ** Instances *)

Lemma whitespace_fix_witness :
  type whitespace_name = "WHITESPACE"
  /\ auto_remediate keep_order people [whitespace_name]
     = Ok (strip_column 0 people,
           [mkAction whitespace_name "TRIMMED_WHITESPACE" (Some "name") None "SUCCESS"])
  /\ height (strip_column 0 people) = height people.
Proof.
  split; [reflexivity|]. split; [reflexivity|].
  exact (proj1 (proj2 (whitespace_fix_clears_issue keep_order always always
                         people _ whitespace_name _ eq_refl eq_refl))).
Defined.

Lemma negative_values_fix_witness :
  type negative_age = "NEGATIVE_VALUES"
  /\ auto_remediate keep_order ages [negative_age]
     = Ok (mkDF [("age", Int64)] [[VInt 5]],
           [mkAction negative_age "FILTERED_NEGATIVE_VALUES" (Some "age")
                     (Some 2) "SUCCESS"])
  /\ schema (mkDF [("age", Int64)] [[VInt 5]]) = schema ages.
Proof.
  split; [reflexivity|]. split; [reflexivity|].
  exact (proj1 (negative_values_fix_clears_issue keep_order always always
                  ages _ negative_age _ eq_refl eq_refl)).
Defined.

Lemma duplicates_fix_witness :
  valid_order reverse_order
  /\ type duplicates = "DUPLICATES"
  /\ auto_remediate reverse_order twice [duplicates]
     = Ok (mkDF [("id", Int64)] [[VInt 1]],
           [mkAction duplicates "REMOVED_DUPLICATES" None (Some 1) "SUCCESS"])
  /\ NoDup (rows (mkDF [("id", Int64)] [[VInt 1]])).
Proof.
  split; [exact reverse_order_valid|]. split; [reflexivity|].
  split; [reflexivity|].
  exact (proj1 (duplicates_fix_leaves_no_repeats reverse_order always always
                  twice _ duplicates _ reverse_order_valid eq_refl eq_refl)).
Defined.

Lemma auto_remediate_never_grows_witness :
  auto_remediate keep_order people [whitespace_name; negative_age]
  = Ok (people_fixed,
        [mkAction whitespace_name "TRIMMED_WHITESPACE" (Some "name") None "SUCCESS";
         mkAction negative_age "FILTERED_NEGATIVE_VALUES" (Some "age")
                  (Some 1) "SUCCESS"])
  /\ (height people_fixed <= height people)%nat.
Proof.
  split; [reflexivity|].
  exact (proj1 (auto_remediate_never_grows keep_order people _
                  [whitespace_name; negative_age] _ keep_order_valid eq_refl)).
Defined.

Definition empty_notes_issue : Issue := mkIssue "HIGH" "EMPTY_COLUMN" "notes".

Lemma other_issues_witness :
  auto_remediate keep_order empty_notes [empty_notes_issue] = Ok (empty_notes, []).
Proof.
  apply other_issues_are_passed_over.
  intros x Hx. apply list_elem_of_singleton in Hx as ->.
  unfold fixable. simpl. intros Hin.
  repeat (apply elem_of_cons in Hin as [Hin | Hin]; [discriminate|]).
  by apply elem_of_nil in Hin.
Defined.

(** Prices that are all negative, beside a column of nulls: the
    NEGATIVE_VALUES fix takes every row, and the HIGH_NULL_RATE fix after it
    divides by zero. *)
Definition refunds : DataFrame :=
  mkDF [("price", Int64); ("note", Utf8)] [[VInt (-1); VNull]; [VInt (-2); VNull]].

Definition negative_price : Issue := mkIssue "HIGH" "NEGATIVE_VALUES" "price".
Definition null_note : Issue := mkIssue "HIGH" "HIGH_NULL_RATE" "note".

Lemma divides_by_zero_witness :
  auto_remediate keep_order refunds [negative_price]
  = Ok (mkDF [("price", Int64); ("note", Utf8)] [],
        [mkAction negative_price "FILTERED_NEGATIVE_VALUES" (Some "price")
                  (Some 2) "SUCCESS"])
  /\ auto_remediate keep_order refunds [negative_price; null_note]
     = Raise ZeroDivisionError.
Proof.
  split; [reflexivity|].
  apply (high_null_rate_fix_divides_by_zero keep_order refunds _ [negative_price]
           _ null_note eq_refl eq_refl eq_refl).
  unfold columns. simpl. in_list.
Defined.

(** The profiler raises exactly these two issues, in this order, and
    EMPTY_COLUMN after them: a run of the agents on [refunds] ends in the
    division by zero. *)
Example refunds_profiled_and_remediated :
  exists profile,
    profile_dataset always always refunds "refunds" = Ok profile
    /\ issues_detected profile
       = [negative_price; null_note; mkIssue "HIGH" "EMPTY_COLUMN" "note"]
    /\ auto_remediate keep_order refunds (issues_detected profile)
       = Raise ZeroDivisionError.
Proof. eexists. split; [vm_compute; reflexivity|]. split; reflexivity. Qed.

End Remediating.

(** * What the silver tier holds

    [src/database/duckdb_manager.py], [_apply_silver_transformations] and
    [promote_to_silver] seen from their results. *)

Module Cleaning.
Import Polars Medallion Profiling.

(** ** Schemas *)

Lemma set_dtype_names (i : nat) (t : dtype) (sch : list (string * dtype)) :
  map fst (set_dtype i t sch) = map fst sch.
Proof.
  revert i; induction sch as [|[c u] sch IH]; intros [|i]; simpl; try done.
  by rewrite IH.
Qed.

Lemma find_column_set_dtype (c : string) (i : nat) (t0 t : dtype)
    (sch : list (string * dtype)) :
  find_column c sch = Some (i, t0) ->
  find_column c (set_dtype i t sch) = Some (i, t).
Proof.
  revert i; induction sch as [|[c' u] sch IH]; intros i; simpl; [done|].
  case_decide as Hc.
  - intros [= <- _]. simpl. by rewrite decide_True.
  - destruct (find_column c sch) as [[j v]|] eqn:Hf; simpl; [|done].
    intros [= <- ->]. simpl. rewrite decide_False by done.
    by rewrite (IH j eq_refl).
Qed.

Lemma lower_ascii_idempotent (a : ascii) : lower_ascii (lower_ascii a) = lower_ascii a.
Proof.
  unfold lower_ascii.
  destruct ((65 <=? nat_of_ascii a)%nat && (nat_of_ascii a <=? 90)%nat) eqn:Hup;
    [|by rewrite Hup].
  apply andb_true_iff in Hup as [H1 H2].
  apply Nat.leb_le in H1, H2.
  rewrite nat_ascii_embedding by lia.
  replace ((nat_of_ascii a + 32 <=? 90)%nat) with false
    by (symmetry; apply Nat.leb_gt; lia).
  by rewrite andb_false_r.
Qed.

Lemma lower_idempotent (s : string) : lower (lower s) = lower s.
Proof.
  induction s as [|a s IH]; simpl; [done|].
  by rewrite lower_ascii_idempotent, IH.
Qed.

Lemma lower_names_fixed (sch : list (string * dtype)) :
  Forall (fun c => lower c = c) (map fst sch) ->
  map (fun ct : string * dtype => (lower ct.1, ct.2)) sch = sch.
Proof.
  induction sch as [|[c u] sch IH]; simpl; [done|].
  intros [Hc Hrest]%Forall_cons_1. simpl in Hc. by rewrite Hc, (IH Hrest).
Qed.

(** ** Steps that only take rows away *)

(** The cell of column [c], if the frame has that column, satisfies [P]. *)
Definition checked (sch : list (string * dtype)) (c : string)
    (P : value -> Prop) (r : Row) : Prop :=
  forall i t, find_column c sch = Some (i, t) -> P (cell i r).

(** [d'] is [d] without the rows that fail [P]. *)
Definition narrows (P : Row -> Prop) (d d' : DataFrame) : Prop :=
  schema d' = schema d
  /\ (height d' <= height d)%nat
  /\ forall r, r ∈ rows d' <-> r ∈ rows d /\ P r.

Lemma narrows_same (P : Row -> Prop) (d : DataFrame) :
  (forall r, P r) -> narrows P d d.
Proof. intros HP. split_and!; [done..|]. intros r. specialize (HP r). tauto. Qed.

Lemma filter_rows_narrows (p : Row -> option bool) (d : DataFrame) :
  narrows (fun r => p r = Some true) d (filter_rows p d).
Proof.
  split_and!; [done | apply List.filter_length_le |].
  intros r. simpl. rewrite !list_elem_of_In, filter_In. unfold keeps.
  destruct (p r) as [[]|]; intuition congruence.
Qed.

Lemma drop_nulls_narrows (d : DataFrame) (c : string) :
  narrows (checked (schema d) c (fun v => v <> VNull)) d (drop_nulls d c).
Proof.
  unfold drop_nulls, checked.
  destruct (find_column c (schema d)) as [[i t]|] eqn:Hf.
  - destruct (filter_rows_narrows
                (fun r => Some (negb (is_null (cell i r)))) d) as (Hs & Hh & Hr).
    split_and!; [done..|]. intros r. rewrite Hr. split.
    + intros [Hin Hp]. split; [done|]. intros j u [= <- <-].
      by destruct (cell i r).
    + intros [Hin Hp]. split; [done|]. specialize (Hp i t eq_refl).
      by destruct (cell i r).
  - by apply narrows_same.
Qed.

Lemma filter_if_present_narrows (c : string) (p : value -> option bool)
    (d d' : DataFrame) :
  filter_if_present c p d = Ok d' ->
  narrows (checked (schema d) c (fun v => p v = Some true)) d d'.
Proof.
  unfold filter_if_present, filter_num, checked.
  destruct (find_column c (schema d)) as [[i t]|] eqn:Hf.
  - destruct (is_numeric t); [|done]. intros [= <-].
    destruct (filter_rows_narrows (fun r => p (cell i r)) d) as (Hs & Hh & Hr).
    split_and!; [done..|]. intros r. rewrite Hr. split.
    + intros [Hin Hp]. split; [done|]. by intros j u [= <- <-].
    + intros [Hin Hp]. split; [done|]. exact (Hp i t eq_refl).
  - intros [= <-]. by apply narrows_same.
Qed.

Section Silver.

Variable order : row_order.
Variable strptime : string -> option Z.

Local Abbreviation cleaned := (_apply_silver_transformations order strptime).

(** ** The steps before the filters *)

Lemma strip_if_text_shape (d : DataFrame) (c : string) :
  schema (strip_if_text d c) = schema d
  /\ height (strip_if_text d c) = height d.
Proof.
  unfold strip_if_text. destruct (find_column c (schema d)) as [[i []]|]; try done.
  split; [done|]. unfold height. simpl. by rewrite length_map.
Qed.

Lemma strip_fold_shape (cols : list string) (d : DataFrame) :
  schema (fold_left strip_if_text cols d) = schema d
  /\ height (fold_left strip_if_text cols d) = height d.
Proof.
  revert d; induction cols as [|c cols IH]; intros d; simpl; [done|].
  destruct (IH (strip_if_text d c)) as [-> ->]. apply strip_if_text_shape.
Qed.

Lemma rename_lower_inv (d d' : DataFrame) :
  rename_lower d = Ok d' ->
  columns d' = map lower (columns d)
  /\ NoDup (map lower (columns d))
  /\ rows d' = rows d.
Proof.
  unfold rename_lower. rewrite map_map. simpl.
  case_bool_decide as Hnd; [|done]. intros [= <-].
  unfold columns. simpl. rewrite !map_map. simpl. done.
Qed.

Lemma rename_lower_raises (d : DataFrame) :
  ~ NoDup (map lower (columns d)) -> rename_lower d = Raise DuplicateError.
Proof.
  intros Hnd. unfold rename_lower. rewrite map_map. simpl.
  unfold columns in Hnd. rewrite map_map in Hnd.
  by rewrite bool_decide_eq_false_2.
Qed.

(** The parsed column holds days and nulls only, and has the dtype
    [Date]. *)
Lemma parse_date_column_inv (c : string) (d d' : DataFrame) :
  parse_date_column strptime c d = Ok d' ->
  columns d' = columns d
  /\ height d' = height d
  /\ forall i t, find_column c (schema d') = Some (i, t) ->
       t = Date
       /\ forall r, r ∈ rows d' -> cell i r = VNull \/ exists z, cell i r = VDate z.
Proof.
  unfold parse_date_column.
  destruct (find_column c (schema d)) as [[i t]|] eqn:Hf.
  - destruct t; try done. intros [= <-]. unfold columns, height. simpl.
    rewrite set_dtype_names, length_map. split_and!; [done..|].
    intros j u. rewrite (find_column_set_dtype _ _ _ Date _ Hf).
    intros [= <- <-]. split; [done|].
    intros r Hr. apply list_elem_of_fmap in Hr as (r0 & -> & _).
    rewrite cell_update_nth by done. rewrite decide_True by done.
    unfold parse_date. destruct (cell i r0); eauto.
    destruct (strptime s); eauto.
  - intros [= <-]. split_and!; [done..|]. intros i t. by rewrite Hf.
Qed.

(** ** The rows of the cleaned frame *)

(** What every row of the silver tier satisfies, column by column, for the
    columns that the frame has. *)
Definition clean_row (sch : list (string * dtype)) (r : Row) : Prop :=
  (forall c, c ∈ critical_cols -> checked sch c (fun v => v <> VNull) r)
  /\ checked sch "order_date" (fun v => exists d, v = VDate d) r
  /\ checked sch "quantity" (fun v => gt_lit 0 v = Some true) r
  /\ checked sch "unit_price" (fun v => gt_lit 0 v = Some true) r
  /\ checked sch "customer_age" (fun v => between 18 100 v = Some true) r
  /\ checked sch "satisfaction_score" (fun v => between 1 10 v = Some true) r.

(** [clean_rows] from its result: the frame [parsed] after the date step,
    of which the result keeps the rows that pass every filter. *)
Lemma clean_rows_inv (d out : DataFrame) :
  clean_rows strptime d = Ok out ->
  exists parsed,
    columns parsed = map lower (columns d)
    /\ NoDup (map lower (columns d))
    /\ height parsed = height d
    /\ (forall i t, find_column "order_date" (schema parsed) = Some (i, t) ->
          t = Date
          /\ forall r, r ∈ rows parsed ->
               cell i r = VNull \/ exists z, cell i r = VDate z)
    /\ schema out = schema parsed
    /\ (height out <= height parsed)%nat
    /\ forall r, r ∈ rows out ->
         r ∈ rows parsed
         /\ (forall c, c ∈ critical_cols ->
               checked (schema parsed) c (fun v => v <> VNull) r)
         /\ checked (schema parsed) "quantity" (fun v => gt_lit 0 v = Some true) r
         /\ checked (schema parsed) "unit_price" (fun v => gt_lit 0 v = Some true) r
         /\ checked (schema parsed) "customer_age"
              (fun v => between 18 100 v = Some true) r
         /\ checked (schema parsed) "satisfaction_score"
              (fun v => between 1 10 v = Some true) r.
Proof.
  unfold clean_rows.
  destruct (strip_fold_shape (columns d) d) as [Hs0 Hh0].
  set (d0 := fold_left strip_if_text (columns d) d) in *.
  destruct (rename_lower d0) as [d1|e] eqn:H1; [|done].
  cbn [mbind result_bind].
  destruct (parse_date_column strptime "order_date" d1) as [d2|e] eqn:H2; [|done].
  cbn [mbind result_bind].
  cbn [fold_left critical_cols].
  pose proof (drop_nulls_narrows d2 "customer_id") as (Hsa & Hha & Hra).
  set (da := drop_nulls d2 "customer_id") in *.
  pose proof (drop_nulls_narrows da "order_id") as (Hsb & Hhb & Hrb).
  set (db := drop_nulls da "order_id") in *.
  pose proof (drop_nulls_narrows db "order_date") as (Hsc & Hhc & Hrc).
  set (dc := drop_nulls db "order_date") in *.
  destruct (filter_if_present "quantity" (gt_lit 0) dc) as [d4|e] eqn:H4; [|done].
  cbn [mbind result_bind].
  destruct (filter_if_present "unit_price" (gt_lit 0) d4) as [d5|e] eqn:H5; [|done].
  cbn [mbind result_bind].
  destruct (filter_if_present "customer_age" (between 18 100) d5) as [d6|e] eqn:H6;
    [|done].
  cbn [mbind result_bind]. intros H7.
  apply filter_if_present_narrows in H4 as (Hs4 & Hh4 & Hr4).
  apply filter_if_present_narrows in H5 as (Hs5 & Hh5 & Hr5).
  apply filter_if_present_narrows in H6 as (Hs6 & Hh6 & Hr6).
  apply filter_if_present_narrows in H7 as (Hs7 & Hh7 & Hr7).
  apply rename_lower_inv in H1 as (Hc1 & Hnd & Hr1).
  apply parse_date_column_inv in H2 as (Hc2 & Hh2 & Hdate).
  assert (Hsch : forall x, x ∈ [schema da; schema db; schema dc; schema d4;
                                 schema d5; schema d6; schema out] ->
                           x = schema d2).
  { intros x Hx. repeat (apply elem_of_cons in Hx as [-> | Hx]; [congruence|]).
    by apply elem_of_nil in Hx. }
  exists d2. split_and!.
  - rewrite Hc2, Hc1. unfold columns. by rewrite Hs0.
  - unfold columns in *. by rewrite <- Hs0.
  - rewrite Hh2. unfold height in *. by rewrite Hr1.
  - exact Hdate.
  - congruence.
  - lia.
  - intros r Hr.
    apply Hr7 in Hr as [Hr P7]. apply Hr6 in Hr as [Hr P6].
    apply Hr5 in Hr as [Hr P5]. apply Hr4 in Hr as [Hr P4].
    apply Hrc in Hr as [Hr Pc]. apply Hrb in Hr as [Hr Pb].
    apply Hra in Hr as [Hr Pa].
    rewrite ?Hs6, ?Hs5, ?Hs4, ?Hsc, ?Hsb, ?Hsa in *.
    split_and!; try done.
    intros c Hc. unfold critical_cols in Hc.
    repeat (apply elem_of_cons in Hc as [-> | Hc]; [done|]).
    by apply elem_of_nil in Hc.
Qed.

(** Every row that [_apply_silver_transformations] returns is clean: no
    null in a critical column, a day in [order_date], a positive quantity
    and unit price, an age from 18 to 100 and a satisfaction score from 1
    to 10, each for the columns that the frame has. *)
Theorem silver_rows_are_clean (df out : DataFrame) :
  cleaned df = Ok out ->
  forall r, r ∈ rows out -> clean_row (schema out) r.
Proof.
  unfold _apply_silver_transformations. intros Hrun r Hr.
  destruct (clean_rows_inv _ _ Hrun)
    as (parsed & _ & _ & _ & Hdate & Hs & _ & Hrows).
  destruct (Hrows r Hr) as (Hin & Hcrit & Hq & Hp & Ha & Hsat).
  rewrite Hs. unfold clean_row. split_and!; try done.
  intros i t Hf. destruct (Hdate i t Hf) as [_ Hcell].
  destruct (Hcell r Hin) as [Hnull | Hday]; [|done].
  exfalso. apply (Hcrit "order_date" ltac:(unfold critical_cols; in_list) i t Hf Hnull).
Qed.

(** The shape of the cleaned frame: its columns are the lower-cased columns
    of the input, no name twice, and it has no more rows than the input. *)
Theorem silver_shape (df out : DataFrame) :
  valid_order order ->
  cleaned df = Ok out ->
  columns out = map lower (columns df)
  /\ NoDup (columns out)
  /\ (height out <= height df)%nat.
Proof.
  intros Hord. unfold _apply_silver_transformations. intros Hrun.
  destruct (clean_rows_inv _ _ Hrun)
    as (parsed & Hc & Hnd & Hh & _ & Hs & Hle & _).
  assert (Hcols : columns out = map lower (columns df)).
  { unfold columns at 1. rewrite Hs. exact Hc. }
  split_and!; [done | by rewrite Hcols |].
  rewrite Hh in Hle. unfold height in *. simpl in Hle.
  rewrite (Permutation_length (Hord _)) in Hle.
  pose proof (length_remove_dups (rows df)). lia.
Qed.

(** Two columns whose names differ by case only: the cleaning raises
    polars' DuplicateError, whatever the rows are. *)
Theorem case_clash_raises (df : DataFrame) :
  ~ NoDup (map lower (columns df)) ->
  cleaned df = Raise DuplicateError.
Proof.
  intros Hnd. unfold _apply_silver_transformations, clean_rows.
  rewrite rename_lower_raises; [done|].
  unfold columns. by rewrite (proj1 (strip_fold_shape _ _)).
Qed.

(** The cleaning does not take its own result: a cleaned frame that has an
    [order_date] column holds dates there, and parsing them as text
    raises. *)
Theorem second_cleaning_raises (order' : row_order) (strptime' : string -> option Z)
    (df out : DataFrame) :
  cleaned df = Ok out ->
  "order_date" ∈ columns out ->
  _apply_silver_transformations order' strptime' out = Raise ComputeError.
Proof.
  unfold _apply_silver_transformations at 1. intros Hrun Hcol.
  destruct (clean_rows_inv _ _ Hrun)
    as (parsed & Hc & Hnd & _ & Hdate & Hs & _ & _).
  destruct (elem_find_column _ _ Hcol) as (i & t & Hf).
  assert (Ht : t = Date) by (rewrite Hs in Hf; by destruct (Hdate i t Hf)).
  subst t.
  assert (Hnames : map (fun ct : string * dtype => (lower ct.1, ct.2)) (schema out)
                   = schema out).
  { assert (Hlow : Forall (fun c => lower c = c) (map fst (schema out))).
    { change (map fst (schema out)) with (columns out).
      unfold columns at 1. rewrite Hs. fold (columns parsed). rewrite Hc.
      apply Forall_forall. intros c Hin.
      apply list_elem_of_In, list_elem_of_fmap in Hin as (c0 & -> & _).
      apply lower_idempotent. }
    by apply lower_names_fixed. }
  unfold _apply_silver_transformations, clean_rows.
  set (d0 := fold_left strip_if_text (columns (unique order' out)) (unique order' out)).
  assert (Hs0 : schema d0 = schema out)
    by exact (proj1 (strip_fold_shape _ (unique order' out))).
  unfold rename_lower. rewrite Hs0, Hnames.
  rewrite bool_decide_eq_true_2.
  - cbn [mbind result_bind]. unfold parse_date_column. simpl. by rewrite Hf.
  - change (map fst (schema out)) with (columns out).
    unfold columns. rewrite Hs. fold (columns parsed). by rewrite Hc.
Qed.

(** ** A load followed by a promotion *)

(** The frame that reaches the silver tier after a load is the frame
    loaded when the mode is replace or the raw table is new, and the table
    that was there before otherwise.  What the promotion returns is what
    the silver table and the silver file hold afterwards. *)
Theorem promote_after_load (s s1 s2 : Store) (df out : DataFrame)
    (table_name mode silver_table : string) (n : nat) :
  load_to_bronze s df table_name mode = Ok (s1, n) ->
  promote_to_silver order strptime s1 table_name silver_table = Ok (s2, out) ->
  let source :=
    if decide (mode = "replace") then df
    else default df (bronze s !! table_name) in
  n = height df
  /\ bronze s2 !! table_name = Some source
  /\ cleaned source = Ok out
  /\ silver s2 !! silver_table = Some out
  /\ silver_files s2 !! silver_table = Some out.
Proof.
  unfold load_to_bronze, read_parquet. rewrite lookup_insert_eq.
  cbn [mbind result_bind]. intros [= <- <-].
  unfold promote_to_silver, select_all, read_parquet. cbn [bronze].
  set (source := if decide (mode = "replace") then df
                 else default df (bronze s !! table_name)).
  assert (Hb : create_table_if_not_exists table_name df
                 (if decide (mode = "replace") then delete table_name (bronze s)
                  else bronze s) !! table_name = Some source).
  { unfold create_table_if_not_exists, source. case_decide.
    - rewrite lookup_delete_eq. by rewrite lookup_insert_eq.
    - destruct (bronze s !! table_name) as [old|] eqn:Hold; simpl.
      + done.
      + by rewrite lookup_insert_eq. }
  rewrite Hb. cbn [mbind result_bind].
  destruct (_apply_silver_transformations order strptime source) as [d|e] eqn:Hd;
    [|done].
  cbn [mbind result_bind]. rewrite lookup_insert_eq. cbn [mbind result_bind].
  intros [= <- <-]. cbn [bronze silver silver_files].
  split_and!; try done; by rewrite lookup_insert_eq.
Qed.

End Silver.

(** ** Instances *)

(** A [strptime] that knows one day. *)
Definition new_year : string -> option Z :=
  fun s => if decide (s = "2024-01-01") then Some 19723 else None.

Definition raw_orders : DataFrame :=
  mkDF [("Order_ID", Utf8); ("order_date", Utf8); ("quantity", Int64)]
       [[VStr " O1 "; VStr "2024-01-01"; VInt 2];
        [VStr "O2"; VStr "soon"; VInt 1];
        [VStr "O3"; VStr "2024-01-01"; VInt 0]].

Definition silver_orders : DataFrame :=
  mkDF [("order_id", Utf8); ("order_date", Date); ("quantity", Int64)]
       [[VStr "O1"; VDate 19723; VInt 2]].

Lemma silver_rows_witness :
  _apply_silver_transformations keep_order new_year raw_orders = Ok silver_orders
  /\ clean_row (schema silver_orders) [VStr "O1"; VDate 19723; VInt 2].
Proof.
  split; [reflexivity|].
  apply (silver_rows_are_clean keep_order new_year raw_orders silver_orders eq_refl).
  simpl. apply list_elem_of_here.
Defined.

Lemma silver_shape_witness :
  valid_order keep_order
  /\ _apply_silver_transformations keep_order new_year raw_orders = Ok silver_orders
  /\ columns silver_orders = map lower (columns raw_orders)
  /\ NoDup (columns silver_orders)
  /\ (height silver_orders <= height raw_orders)%nat.
Proof.
  split; [exact keep_order_valid|]. split; [reflexivity|].
  exact (silver_shape keep_order new_year raw_orders silver_orders
           keep_order_valid eq_refl).
Defined.

Definition two_ids : DataFrame :=
  mkDF [("ID", Int64); ("id", Int64)] [[VInt 1; VInt 1]].

Lemma case_clash_witness :
  _apply_silver_transformations keep_order new_year two_ids = Raise DuplicateError.
Proof.
  apply case_clash_raises. simpl. intros Hnd.
  apply NoDup_cons_1_1 in Hnd. apply Hnd, list_elem_of_here.
Defined.

Lemma second_cleaning_witness :
  _apply_silver_transformations keep_order new_year raw_orders = Ok silver_orders
  /\ _apply_silver_transformations reverse_order no_dates silver_orders
     = Raise ComputeError.
Proof.
  split; [reflexivity|].
  apply (second_cleaning_raises keep_order new_year reverse_order no_dates
           raw_orders silver_orders eq_refl).
  unfold columns. simpl. in_list.
Defined.

(** A store whose raw table [orders] holds [two_orders]; [raw_orders] is
    loaded over it without [replace], and the silver tier gets the old
    table. *)
Lemma promote_after_load_witness :
  exists s1 s2,
    load_to_bronze raw_store raw_orders "orders" "append" = Ok (s1, 3%nat)
    /\ promote_to_silver keep_order new_year s1 "orders" "orders"
       = Ok (s2, two_orders)
    /\ _apply_silver_transformations keep_order new_year two_orders = Ok two_orders
    /\ silver s2 !! "orders" = Some two_orders.
Proof.
  eexists. eexists. split; [reflexivity|]. split; [reflexivity|].
  destruct (promote_after_load keep_order new_year raw_store _ _ raw_orders
              two_orders "orders" "append" "orders" 3%nat eq_refl eq_refl)
    as (_ & _ & Hclean & Hsilver & _).
  split; [exact Hclean | exact Hsilver].
Defined.

End Cleaning.

(** * The flow

    [src/orchestration/prefect_flows.py]: the tasks around the agents and
    the database, and [agentic_etl_pipeline] from the frame that
    [extract_raw_data] hands it. *)

Module Pipeline.
Import Polars Agents Medallion Profiling.

(** ** A flow: the database goes through, an exception ends it *)

Definition flow (A : Type) : Type := Store -> Store * result A.

#[global] Instance flow_ret : MRet flow := fun A a s => (s, Ok a).

#[global] Instance flow_bind : MBind flow := fun A B f m s =>
  match m s with
  | (s', Ok a) => f a s'
  | (s', Raise e) => (s', Raise e)
  end.

(** A task that opens the database: when it raises, the database is as the
    task found it (every method of [MedallionDuckDB] writes after its last
    statement that can raise). *)
Definition db_task {A} (f : Store -> result (Store * A)) : flow A :=
  fun s =>
    match f s with
    | Ok (s', a) => (s', Ok a)
    | Raise e => (s, Raise e)
    end.

(** A task that does not touch the database. *)
Definition task {A} (r : result A) : flow A := fun s => (s, r).

(** What the flow returns; the time stamps and the constant entries of the
    dictionaries are left out. *)
Record Summary := mkSummary {
  bronze_rows : nat;
  silver_rows : nat;
  gold_tables : gmap string nat;
  quality_score : Z;
  issues_found : nat;
  remediation_actions : nat
}.

Section Tasks.

Variable order : row_order.
Variable strptime : string -> option Z.
Variable execute : gmap string DataFrame -> query -> result DataFrame.
Variables numeric_stats_ok text_stats_ok : list value -> bool.

Definition load_to_bronze (df : DataFrame) (table_name : string) : flow nat :=
  db_task (fun s => Medallion.load_to_bronze s df table_name "replace").

Definition profile_data (df : DataFrame) (dataset_name : string) : result Profile :=
  profile_dataset numeric_stats_ok text_stats_ok df dataset_name.

Definition calculate_quality_score (profile : Profile) : Z :=
  Agents.calculate_quality_score profile.

Definition auto_remediate (df : DataFrame) (profile : Profile) (enabled : bool)
  : result (DataFrame * list RemediationAction) :=
  if negb enabled then Ok (df, [])
  else Agents.auto_remediate order df (issues_detected profile).

Definition promote_to_silver (bronze_table silver_table : string) : flow nat :=
  db_task (fun s =>
    '(s', df_silver) ← Medallion.promote_to_silver order strptime s
                          bronze_table silver_table;
    Ok (s', height df_silver)).

Definition create_gold_aggregations (silver_table : string)
    (aggregations : list string) : flow (gmap string nat) :=
  fun s =>
    let st := Flows.create_gold_aggregations execute s silver_table aggregations in
    (st.1, Ok st.2).

(** Whether the warning is logged. *)
Definition send_quality_alert (quality_score threshold : Z) : bool :=
  bool_decide (quality_score < threshold).

(** [agentic_etl_pipeline] after [df_raw = extract_raw_data(source_config)],
    with [name] for [source_config['name']]: the summary and whether the
    alert was logged.  [except Exception: raise] hands the exception on. *)
Definition agentic_etl_pipeline (df_raw : DataFrame) (name : string)
    (enable_auto_remediation : bool) : flow (Summary * bool) :=
  rows_loaded ← load_to_bronze df_raw name;
  profile ← task (profile_data df_raw name);
  let quality_score := calculate_quality_score profile in
  '(df_remediated, actions) ←
    task (auto_remediate df_raw profile enable_auto_remediation);
  rows ← promote_to_silver name name;
  tables ← create_gold_aggregations name
             ["daily_sales"; "customer_lifetime_value";
              "product_performance"; "regional_analytics"];
  let alert := send_quality_alert quality_score 80 in
  mret (mkSummary rows_loaded rows tables quality_score
                  (length (issues_detected profile)) (length actions),
        alert).

End Tasks.

(** ** The database after a load *)

Lemma load_to_bronze_replace (s : Store) (df : DataFrame) (name : string) :
  Medallion.load_to_bronze s df name "replace"
  = Ok (mkStore (<[name := df]> (bronze_files s)) (silver_files s) (gold_files s)
                (<[name := df]> (delete name (bronze s))) (silver s) (gold s),
        height df).
Proof.
  unfold Medallion.load_to_bronze, read_parquet. rewrite lookup_insert_eq.
  cbn [mbind result_bind]. rewrite decide_True by done.
  unfold create_table_if_not_exists. by rewrite lookup_delete_eq.
Qed.



Section Runs.

Variable order : row_order.
Variable strptime : string -> option Z.
Variable execute : gmap string DataFrame -> query -> result DataFrame.
Variables numeric_stats_ok text_stats_ok : list value -> bool.

Local Abbreviation pipeline :=
  (agentic_etl_pipeline order strptime execute numeric_stats_ok text_stats_ok).
Local Abbreviation cleaned := (_apply_silver_transformations order strptime).

(** The database after the load task of the flow. *)
Definition loaded (s : Store) (df_raw : DataFrame) (name : string) : Store :=
  mkStore (<[name := df_raw]> (bronze_files s)) (silver_files s) (gold_files s)
          (<[name := df_raw]> (delete name (bronze s))) (silver s) (gold s).

(** The flow, step by step, from the results of its tasks. *)
Lemma pipeline_unfold (df_raw : DataFrame) (name : string) (enable : bool)
    (s : Store) :
  pipeline df_raw name enable s
  = match profile_data numeric_stats_ok text_stats_ok df_raw name with
    | Raise e => (loaded s df_raw name, Raise e)
    | Ok profile =>
        match auto_remediate order df_raw profile enable with
        | Raise e => (loaded s df_raw name, Raise e)
        | Ok (_, actions) =>
            match cleaned df_raw with
            | Raise e => (loaded s df_raw name, Raise e)
            | Ok out =>
                let s2 :=
                  mkStore (<[name := df_raw]> (bronze_files s))
                          (<[name := out]> (silver_files s)) (gold_files s)
                          (<[name := df_raw]> (delete name (bronze s)))
                          (<[name := out]> (delete name (silver s))) (gold s) in
                let st :=
                  Flows.create_gold_aggregations execute s2 name
                    ["daily_sales"; "customer_lifetime_value";
                     "product_performance"; "regional_analytics"] in
                (st.1,
                 Ok (mkSummary (height df_raw) (height out) st.2
                               (Agents.calculate_quality_score profile)
                               (length (issues_detected profile)) (length actions),
                     send_quality_alert (Agents.calculate_quality_score profile) 80))
            end
        end
    end.
Proof.
  unfold agentic_etl_pipeline, mbind, mret, flow_bind, load_to_bronze, db_task,
    task, flow_ret.
  rewrite load_to_bronze_replace. fold (loaded s df_raw name).
  destruct (profile_data numeric_stats_ok text_stats_ok df_raw name)
    as [profile|e]; [|done].
  destruct (auto_remediate order df_raw profile enable) as [[df_fixed actions]|e];
    [|done].
  unfold promote_to_silver, db_task, Medallion.promote_to_silver, select_all,
    read_parquet.
  cbn [bronze loaded]. rewrite lookup_insert_eq. cbn [mbind result_bind].
  destruct (cleaned df_raw) as [out|e]; [|done].
  cbn [mbind result_bind]. rewrite lookup_insert_eq. cbn [mbind result_bind].
  reflexivity.
Qed.



(** An extract without rows (and with a column): the run raises
    ZeroDivisionError in the profiler, after the load. *)
Theorem empty_extract_fails_after_load (s : Store) (df_raw : DataFrame)
    (name : string) (enable : bool) :
  rows df_raw = [] -> schema df_raw <> [] ->
  pipeline df_raw name enable s = (loaded s df_raw name, Raise ZeroDivisionError).
Proof.
  intros Hrows Hsch. rewrite pipeline_unfold.
  unfold profile_data, profile_dataset.
  destruct df_raw as [[|[c t] sch] rws]; [done|]. simpl in Hrows. subst rws.
  unfold columns. cbn [map fst schema foldM].
  rewrite (profile_step_empty _ _ _ c O t); [reflexivity | | reflexivity].
  apply find_column_head.
Qed.

End Runs.

(** ** Instances *)

(** An engine without the columns of the aggregates: every query raises. *)
Definition no_gold : gmap string DataFrame -> query -> result DataFrame :=
  fun _ _ => Raise CatalogError.


Definition no_orders : DataFrame := mkDF [("order_id", Utf8)] [].

Lemma empty_extract_witness :
  agentic_etl_pipeline keep_order Cleaning.new_year no_gold always always
    no_orders "orders" true raw_store
  = (loaded raw_store no_orders "orders", Raise ZeroDivisionError).
Proof.
  apply empty_extract_fails_after_load; [reflexivity | discriminate].
Defined.


End Pipeline.

(** * When [validate_all] returns

    [src/validation/business_rules.py]: the frames on which
    [BusinessRuleValidator.validate_all] raises, and what it makes of a
    frame that is valid already. *)

Module Validating.
Import Polars Rules Profiling.

(** ** [sum] over a mask *)

Abbreviation add_flag :=
  (fun (acc : Z) (x : option bool) =>
     match x with
     | Some b => Ok (acc + Z.b2z b)
     | None => Raise TypeError
     end).

Lemma py_sum_None (l : Mask) (a : Z) :
  None ∈ l -> foldM add_flag l a = Raise TypeError.
Proof.
  revert a; induction l as [|x l IH]; intros a Hin; [by apply elem_of_nil in Hin|].
  cbn [foldM]. destruct x as [b|]; [|done]. cbn [mbind result_bind].
  apply IH. by apply elem_of_cons in Hin as [|].
Qed.

Lemma py_sum_Some (l : Mask) (a : Z) :
  None ∉ l -> exists n, foldM add_flag l a = Ok n.
Proof.
  revert a; induction l as [|x l IH]; intros a Hin; [simpl; eauto|].
  cbn [foldM]. destruct x as [b|].
  - cbn [mbind result_bind]. apply IH. intros H. apply Hin. by apply list_elem_of_further.
  - exfalso. apply Hin, list_elem_of_here.
Qed.

(** ** A rule that stops the validation *)

(** The mask of the rule has a row that fails, so that the failures are
    summed, and a null, which the sum cannot add. *)
Definition blocked (rl : Rule) (l : list Row) : bool :=
  existsb (fails rl) l
  && existsb (fun r => bool_decide (verdict rl r = None)) l.

Lemma None_in_mask (v : Row -> option bool) (l : list Row) :
  None ∈ map not3 (map v l)
  <-> existsb (fun r => bool_decide (v r = None)) l = true.
Proof.
  rewrite existsb_exists, map_map, list_elem_of_fmap. split.
  - intros (r & Hr & Hin). exists r. split; [by apply list_elem_of_In|].
    apply bool_decide_eq_true. by destruct (v r) as [[]|].
  - intros (r & Hin & Hr). apply bool_decide_eq_true in Hr.
    exists r. split; [by rewrite Hr | by apply list_elem_of_In].
Qed.

(** What [apply_mask] makes of the mask of a rule. *)
Lemma apply_mask_outcome (rule_id col : string) (v : Row -> option bool)
    (rs : list Rule) (l : list Row) :
  apply_mask rule_id col (map v l) (state_after rs l)
  = if blocked (mkRule rule_id col v) l then Raise TypeError
    else Ok (state_after (rs ++ [mkRule rule_id col v]) l).
Proof.
  destruct (apply_mask rule_id col (map v l) (state_after rs l)) as [st'|e] eqn:Hrun.
  - pose proof (apply_mask_state _ _ _ _ _ _ Hrun) as ->.
    destruct (blocked _ l) eqn:Hb; [|done]. exfalso.
    apply andb_true_iff in Hb as [Hf Hn]. unfold fails in Hf. simpl in Hf, Hn.
    unfold apply_mask in Hrun. rewrite py_any_failed, Hf in Hrun.
    unfold py_sum in Hrun. rewrite py_sum_None in Hrun; [done|].
    by apply None_in_mask.
  - unfold apply_mask in Hrun. rewrite py_any_failed in Hrun.
    unfold blocked, fails. simpl.
    destruct (existsb _ l) eqn:Hf; [|done]. simpl.
    destruct (existsb (fun r => bool_decide (v r = None)) l) eqn:Hn.
    + unfold py_sum in Hrun. rewrite py_sum_None in Hrun by (by apply None_in_mask).
      simpl in Hrun. congruence.
    + destruct (py_sum_Some (map not3 (map v l)) 0) as [n Hn'].
      { rewrite None_in_mask. by rewrite Hn. }
      unfold py_sum in Hrun. by rewrite Hn' in Hrun.
Qed.

(** ** Rows that pass *)

Lemma and3_true (a b : option bool) :
  and3 a b = Some true <-> a = Some true /\ b = Some true.
Proof. destruct a as [[]|], b as [[]|]; simpl; intuition congruence. Qed.

Lemma fold_and3_true (rs : list Rule) (r : Row) (acc : option bool) :
  fold_left (fun acc rl => and3 acc (verdict rl r)) rs acc = Some true
  <-> acc = Some true /\ forall rl, rl ∈ rs -> verdict rl r = Some true.
Proof.
  revert acc; induction rs as [|rl rs IH]; intros acc; simpl.
  - split; [|tauto]. intros ->. split; [done|]. by intros rl ?%elem_of_nil.
  - rewrite IH, and3_true. split.
    + intros [[Ha Hv] Hrs]. split; [done|].
      by intros rl' [-> | Hin]%elem_of_cons; [|apply Hrs].
    + intros [Ha Hrs]. split; [split; [done|]|].
      * apply Hrs, list_elem_of_here.
      * intros rl' Hin. by apply Hrs, list_elem_of_further.
Qed.

Lemma passes_iff (rs : list Rule) (r : Row) :
  passes rs r = true <-> forall rl, rl ∈ rs -> verdict rl r = Some true.
Proof.
  unfold passes, all3.
  pose proof (fold_and3_true rs r (Some true)) as H.
  destruct (fold_left _ rs (Some true)) as [[]|]; split; try done.
  - intros _. by apply H.
  - intros Hall. discriminate (proj2 H (conj eq_refl Hall)).
  - intros Hall. discriminate (proj2 H (conj eq_refl Hall)).
Qed.

Lemma filter_keeps_all_iff {A} (p : A -> bool) (l : list A) :
  List.filter p l = l <-> forall x, x ∈ l -> p x = true.
Proof.
  induction l as [|x l IH]; simpl.
  - split; [|done]. by intros _ x ?%elem_of_nil.
  - destruct (p x) eqn:Hx.
    + split.
      * intros [= H]. intros y [-> | Hy]%elem_of_cons; [done|]. by apply IH.
      * intros H. f_equal. apply IH. intros y Hy. by apply H, list_elem_of_further.
    + split.
      * intros H. pose proof (List.filter_length_le p l) as Hle.
        rewrite H in Hle. simpl in Hle. lia.
      * intros H. specialize (H x (list_elem_of_here _ _)). congruence.
Qed.

Lemma records_of_nil (rs : list Rule) (l : list Row) :
  records_of rs l = [] <-> forall rl r, rl ∈ rs -> r ∈ l -> fails rl r = false.
Proof.
  unfold records_of. induction rs as [|rl rs IH]; simpl.
  - split; [|done]. by intros _ rl r ?%elem_of_nil.
  - split.
    + intros [H1 H2]%app_nil. intros rl' r [-> | Hin]%elem_of_cons Hr.
      * unfold record_of in H1. destruct (existsb (fails rl) l) eqn:He; [done|].
        destruct (fails rl r) eqn:Hf; [|done].
        assert (existsb (fails rl) l = true); [|congruence].
        apply existsb_exists. exists r. split; [by apply list_elem_of_In | done].
      * by apply (proj1 IH H2 rl' r).
    + intros H. apply app_nil. split.
      * unfold record_of. destruct (existsb (fails rl) l) eqn:He; [|done].
        apply existsb_exists in He as (r & Hr%list_elem_of_In & Hf).
        rewrite (H rl r (list_elem_of_here _ _) Hr) in Hf. done.
      * apply IH. intros rl' r Hin Hr. by apply H; [apply list_elem_of_further|].
Qed.

Section Outcome.

Variable today : Z.
Variable strptime : string -> option Z.

Local Abbreviation validated := (validate_all today strptime).
Local Abbreviation rules := (rules_for today strptime).

(** ** The three kinds of rule, one step each *)

Lemma not_null_never_blocked (df : DataFrame) (c : string) (rl : Rule) (l : list Row) :
  rl ∈ not_null_rules df c -> blocked rl l = false.
Proof.
  unfold not_null_rules. destruct (find_column c (schema df)) as [[i t]|];
    [|by intros ?%elem_of_nil].
  intros ->%list_elem_of_singleton. unfold blocked. simpl.
  apply andb_false_iff. right.
  induction l as [|r l IH]; simpl; [done|]. by rewrite IH.
Qed.

Lemma not_null_rule_outcome (df : DataFrame) (rs : list Rule) (c : string) :
  not_null_rule df (state_after rs (rows df)) c
  = Ok (state_after (rs ++ not_null_rules df c) (rows df)).
Proof.
  pose proof (not_null_never_blocked df c) as Hnb.
  unfold not_null_rule, not_null_rules in *. unfold series.
  destruct (find_column c (schema df)) as [[i t]|].
  - rewrite map_map.
    rewrite (apply_mask_outcome _ _ (fun r => not_null (cell i r))).
    by rewrite (Hnb _ (rows df) (list_elem_of_here _ _)).
  - by rewrite app_nil_r.
Qed.

Lemma not_null_loop (df : DataFrame) (cols : list string) (rs : list Rule) :
  foldM (not_null_rule df) cols (state_after rs (rows df))
  = Ok (state_after (rs ++ flat_map (not_null_rules df) cols) (rows df)).
Proof.
  revert rs; induction cols as [|c cols IH]; intros rs.
  - simpl. by rewrite app_nil_r.
  - cbn [foldM flat_map]. rewrite not_null_rule_outcome.
    cbn [mbind result_bind]. rewrite IH. by rewrite <- app_assoc.
Qed.

(** A column of the second rule that lets the validation go on. *)
Definition positive_ok (df : DataFrame) (c : string) : Prop :=
  forall i t, find_column c (schema df) = Some (i, t) ->
    is_numeric t = true
    /\ forall rl, rl ∈ positive_rules df c -> blocked rl (rows df) = false.

Definition stops (e : exn) : Prop := e = TypeError \/ e = ComputeError.

Lemma positive_rule_outcome (df : DataFrame) (rs : list Rule) (c : string) :
  (positive_ok df c
   /\ positive_rule df (state_after rs (rows df)) c
      = Ok (state_after (rs ++ positive_rules df c) (rows df)))
  \/ (~ positive_ok df c
      /\ exists e, positive_rule df (state_after rs (rows df)) c = Raise e /\ stops e).
Proof.
  unfold positive_ok, positive_rule, positive_rules, series.
  destruct (find_column c (schema df)) as [[i t]|].
  - destruct (is_numeric t) eqn:Hnum.
    + rewrite map_map.
      rewrite (apply_mask_outcome _ _ (fun r => gt_lit 0 (cell i r))).
      destruct (blocked _ (rows df)) eqn:Hb.
      * right. split; [|exists TypeError; split; [done | by left]].
        intros H. destruct (H i t eq_refl) as [_ Hrl].
        specialize (Hrl _ (list_elem_of_here _ _)). congruence.
      * left. split; [|done]. intros j u [= <- <-]. split; [done|].
        by intros rl ->%list_elem_of_singleton.
    + right. split; [|exists ComputeError; split; [done | by right]].
      intros H. destruct (H i t eq_refl) as [Hn _]. congruence.
  - left. split; [done|]. by rewrite app_nil_r.
Qed.

Lemma positive_loop (df : DataFrame) (cols : list string) (rs : list Rule) :
  ((forall c, c ∈ cols -> positive_ok df c)
   /\ foldM (positive_rule df) cols (state_after rs (rows df))
      = Ok (state_after (rs ++ flat_map (positive_rules df) cols) (rows df)))
  \/ (~ (forall c, c ∈ cols -> positive_ok df c)
      /\ exists e, foldM (positive_rule df) cols (state_after rs (rows df)) = Raise e
                   /\ stops e).
Proof.
  revert rs; induction cols as [|c cols IH]; intros rs.
  - left. split; [by intros c ?%elem_of_nil|]. simpl. by rewrite app_nil_r.
  - cbn [foldM flat_map].
    destruct (positive_rule_outcome df rs c) as [[Hok ->] | [Hbad (e & -> & He)]].
    + cbn [mbind result_bind].
      destruct (IH (rs ++ positive_rules df c)) as [[Hall ->] | [Hnot (e & -> & He)]].
      * left. split; [|by rewrite <- app_assoc].
        intros c' [-> | Hc']%elem_of_cons; auto.
      * right. split; [|by exists e].
        intros H. apply Hnot. intros c' Hc'. by apply H, list_elem_of_further.
    + right. split; [|by exists e].
      intros H. apply Hbad, H, list_elem_of_here.
Qed.

(** The third rule lets the validation go on. *)
Definition date_ok (df : DataFrame) : Prop :=
  forall i t, find_column "order_date" (schema df) = Some (i, t) ->
    (t = Utf8 \/ t = Date)
    /\ forall rl, rl ∈ date_rules today strptime df -> blocked rl (rows df) = false.

(** The frame after the third rule. *)
Definition dated (df : DataFrame) : DataFrame :=
  match find_column "order_date" (schema df) with
  | Some (i, Utf8) =>
      mkDF (Medallion.set_dtype i Date (schema df))
           (map (update_nth i (parse_date strptime)) (rows df))
  | _ => df
  end.

Lemma date_rule_outcome (df : DataFrame) (rs : list Rule) :
  (date_ok df
   /\ date_rule today strptime df (state_after rs (rows df))
      = Ok (dated df, state_after (rs ++ date_rules today strptime df) (rows df)))
  \/ (~ date_ok df
      /\ exists e, date_rule today strptime df (state_after rs (rows df)) = Raise e
                   /\ stops e).
Proof.
  unfold date_ok, date_rule, date_rules, dated.
  destruct (find_column "order_date" (schema df)) as [[i t]|].
  - destruct t; cbn [mbind result_bind].
    + right. split; [|exists ComputeError; split; [done | by right]].
      intros H. by destruct (H i Int64 eq_refl) as [[|] _].
    + right. split; [|exists ComputeError; split; [done | by right]].
      intros H. by destruct (H i Float64 eq_refl) as [[|] _].
    + unfold series. cbn [rows]. rewrite !map_map.
      rewrite (map_ext
                 (fun r => not_after_today today
                             (cell i (update_nth i (parse_date strptime) r)))
                 (fun r => not_after_today today (as_date strptime Utf8 (cell i r)))).
      2:{ intros r. rewrite cell_update_nth by done. by rewrite decide_True. }
      rewrite (apply_mask_outcome _ _
                 (fun r => not_after_today today (as_date strptime Utf8 (cell i r)))).
      destruct (blocked _ (rows df)) eqn:Hb; cbn [mbind result_bind].
      * right. split; [|exists TypeError; split; [done | by left]].
        intros H. destruct (H i Utf8 eq_refl) as [_ Hrl].
        specialize (Hrl _ (list_elem_of_here _ _)). congruence.
      * left. split; [|done]. intros j u [= <- <-]. split; [by left|].
        by intros rl ->%list_elem_of_singleton.
    + unfold series. rewrite map_map.
      rewrite (apply_mask_outcome _ _
                 (fun r => not_after_today today (as_date strptime Date (cell i r)))).
      destruct (blocked _ (rows df)) eqn:Hb; cbn [mbind result_bind].
      * right. split; [|exists TypeError; split; [done | by left]].
        intros H. destruct (H i Date eq_refl) as [_ Hrl].
        specialize (Hrl _ (list_elem_of_here _ _)). congruence.
      * left. split; [|done]. intros j u [= <- <-]. split; [by right|].
        by intros rl ->%list_elem_of_singleton.
  - left. split; [done|]. by rewrite app_nil_r.
Qed.

(** ** The frames on which [validate_all] returns *)

(** The dtypes that the comparisons of the rules take. *)
Definition typed (df : DataFrame) : Prop :=
  (forall c i t, c ∈ positive_cols -> find_column c (schema df) = Some (i, t) ->
                 is_numeric t = true)
  /\ (forall i t, find_column "order_date" (schema df) = Some (i, t) ->
                  t = Utf8 \/ t = Date).

(** No rule in force has a null beside a failure in its mask. *)
Definition unblocked (df : DataFrame) : Prop :=
  forall rl, rl ∈ rules df -> blocked rl (rows df) = false.

Lemma rule_in_force (df : DataFrame) (rl : Rule) :
  rl ∈ rules df
  <-> (exists c, c ∈ critical_cols /\ rl ∈ not_null_rules df c)
      \/ (exists c, c ∈ positive_cols /\ rl ∈ positive_rules df c)
      \/ rl ∈ date_rules today strptime df.
Proof.
  unfold rules_for. rewrite !elem_of_app.
  rewrite !list_elem_of_In, !in_flat_map.
  setoid_rewrite list_elem_of_In. tauto.
Qed.

Lemma positive_rules_column (df : DataFrame) (c : string) (rl : Rule) :
  rl ∈ positive_rules df c -> exists i t, find_column c (schema df) = Some (i, t).
Proof.
  unfold positive_rules. destruct (find_column c (schema df)) as [[i t]|]; [eauto|].
  by intros ?%elem_of_nil.
Qed.

Lemma date_rules_column (df : DataFrame) (rl : Rule) :
  rl ∈ date_rules today strptime df ->
  exists i t, find_column "order_date" (schema df) = Some (i, t).
Proof.
  unfold date_rules.
  destruct (find_column "order_date" (schema df)) as [[i t]|]; [eauto|].
  by intros ?%elem_of_nil.
Qed.

Lemma outcome_conditions (df : DataFrame) :
  typed df /\ unblocked df
  <-> (forall c, c ∈ positive_cols -> positive_ok df c) /\ date_ok df.
Proof.
  unfold typed, unblocked, positive_ok, date_ok. split.
  - intros [[Hnum Hdate] Hfree]. split.
    + intros c Hc i t Hf. split; [by apply (Hnum c i t)|].
      intros rl Hrl. apply Hfree, rule_in_force. right. left. by exists c.
    + intros i t Hf. split; [by apply (Hdate i t)|].
      intros rl Hrl. apply Hfree, rule_in_force. by right; right.
  - intros [Hpos Hdate]. split; [split|].
    + intros c i t Hc Hf. by destruct (Hpos c Hc i t Hf).
    + intros i t Hf. by destruct (Hdate i t Hf).
    + intros rl [(c & Hc & Hrl) | [(c & Hc & Hrl) | Hrl]]%rule_in_force.
      * by apply (not_null_never_blocked df c).
      * destruct (positive_rules_column _ _ _ Hrl) as (i & t & Hf).
        by destruct (Hpos c Hc i t Hf) as [_ H]; apply H.
      * destruct (date_rules_column _ _ Hrl) as (i & t & Hf).
        by destruct (Hdate i t Hf) as [_ H]; apply H.
Qed.

(** [validate_all] as a whole: the frame and the records it returns, or the
    exception it raises. *)
Lemma validate_all_outcome (df : DataFrame) :
  (typed df /\ unblocked df
   /\ validated df
      = Ok (mkDF (schema (dated df))
                 (select_rows (map (all3 (rules df)) (rows df)) (rows (dated df))),
            records_of (rules df) (rows df)))
  \/ (~ (typed df /\ unblocked df)
      /\ exists e, validated df = Raise e /\ stops e).
Proof.
  pose proof (outcome_conditions df) as Hcond.
  unfold validate_all, height. rewrite <- state_after_nil.
  rewrite not_null_loop. cbn [mbind result_bind app].
  destruct (positive_loop df positive_cols (flat_map (not_null_rules df) critical_cols))
    as [[Hpos ->] | [Hnot (e & -> & He)]].
  - cbn [mbind result_bind].
    destruct (date_rule_outcome df
                (flat_map (not_null_rules df) critical_cols
                 ++ flat_map (positive_rules df) positive_cols))
      as [[Hdate ->] | [Hnot (e & -> & He)]].
    + left. destruct (proj2 Hcond (conj Hpos Hdate)) as [Ht Hu].
      split_and!; [done..|]. cbn [mbind result_bind state_after fst snd].
      rewrite <- app_assoc. reflexivity.
    + right. split; [tauto | by exists e].
  - right. split; [tauto | by exists e].
Qed.


(** ** A frame that is valid already *)

Lemma rows_dated (df : DataFrame) :
  rows (dated df) = map (output_row strptime df) (rows df).
Proof.
  unfold dated, output_row.
  destruct (find_column "order_date" (schema df)) as [[i []]|]; simpl;
    by rewrite ?map_id.
Qed.

Lemma passing_unblocked (df : DataFrame) :
  (forall r, r ∈ rows df -> passes (rules df) r = true) -> unblocked df.
Proof.
  intros Hall rl Hrl. unfold blocked. apply andb_false_iff. left.
  apply not_true_is_false. intros (r & Hr%list_elem_of_In & Hf)%existsb_exists.
  unfold fails in Hf. by rewrite (proj1 (passes_iff _ _) (Hall r Hr) rl Hrl) in Hf.
Qed.

(** A frame of the right dtypes whose rows pass every rule in force comes
    back whole, with its dates parsed, and without a record. *)
Lemma passing_frame_returns (df : DataFrame) :
  typed df ->
  (forall r, r ∈ rows df -> passes (rules df) r = true) ->
  validated df = Ok (dated df, []).
Proof.
  intros Ht Hall. pose proof (passing_unblocked df Hall) as Hu.
  destruct (validate_all_outcome df) as [(_ & _ & ->) | [Hnot _]]; [|tauto].
  rewrite rows_dated, select_rows_map.
  rewrite (proj2 (filter_keeps_all_iff _ _)).
  - rewrite <- rows_dated. f_equal. f_equal; [by destruct (dated df)|].
    apply records_of_nil. intros rl r Hrl Hr. unfold fails.
    by rewrite (proj1 (passes_iff _ _) (Hall r Hr) rl Hrl).
  - intros r Hr. specialize (Hall r Hr). unfold passes in Hall.
    by destruct (all3 (rules df) r) as [[]|].
Qed.


End Outcome.

(** ** The valid frame, validated again *)

Lemma find_column_set_dtype_other (c c0 : string) (i : nat) (t0 t : dtype)
    (sch : list (string * dtype)) :
  find_column c0 sch = Some (i, t0) -> c <> c0 ->
  find_column c (Medallion.set_dtype i t sch) = find_column c sch.
Proof.
  revert i; induction sch as [|[c' u] sch IH]; intros i; simpl; [done|].
  case_decide as Hc.
  - intros [= <- _] Hne. simpl. subst c'. by rewrite !decide_False by done.
  - destruct (find_column c0 sch) as [[j v]|] eqn:Hf; simpl; [|done].
    intros [= <- ->] Hne. simpl. case_decide; [done|].
    by rewrite (IH j eq_refl Hne).
Qed.

Section Again.

Variable today : Z.
Variable strptime : string -> option Z.

Lemma find_column_dated_other (df : DataFrame) (c : string) :
  c <> "order_date" ->
  find_column c (schema (dated strptime df)) = find_column c (schema df).
Proof.
  intros Hc. unfold dated.
  destruct (find_column "order_date" (schema df)) as [[i []]|] eqn:Hf; try done.
  simpl. by apply (find_column_set_dtype_other _ "order_date" _ Utf8).
Qed.

Lemma find_column_dated_date (df : DataFrame) i t :
  find_column "order_date" (schema (dated strptime df)) = Some (i, t) ->
  exists t0, find_column "order_date" (schema df) = Some (i, t0)
             /\ t = (if decide (t0 = Utf8) then Date else t0).
Proof.
  unfold dated.
  destruct (find_column "order_date" (schema df)) as [[i0 t0]|] eqn:Hf.
  - destruct t0; simpl; rewrite ?Hf; try (intros [= <- <-]; by eexists).
    rewrite (Cleaning.find_column_set_dtype _ _ _ Date _ Hf).
    intros [= <- <-]. by eexists.
  - by rewrite Hf.
Qed.

Lemma cell_output_other (df : DataFrame) (c : string) j t (r : Row) :
  find_column c (schema df) = Some (j, t) -> c <> "order_date" ->
  cell j (output_row strptime df r) = cell j r.
Proof.
  intros Hf Hc. unfold output_row.
  destruct (find_column "order_date" (schema df)) as [[i []]|] eqn:Hd; try done.
  rewrite cell_update_nth by done. case_decide; [|done]. subst j.
  by destruct Hc; apply (find_column_index _ _ _ _ _ _ Hf Hd).
Qed.

Lemma cell_output_date (df : DataFrame) i t (r : Row) :
  find_column "order_date" (schema df) = Some (i, t) ->
  cell i (output_row strptime df r) = as_date strptime t (cell i r).
Proof.
  intros Hf. unfold output_row. rewrite Hf. destruct t; try done.
  rewrite cell_update_nth by done. by rewrite decide_True.
Qed.

(** What [validate_all] returned is valid: validated again on the same day
    or later, with any parser of dates, it comes back as it is, without a
    record, and without an exception. *)
Theorem valid_frame_validates_again (today' : Z) (strptime' : string -> option Z)
    (df valid : DataFrame) (records : list FailedRecord) :
  validate_all today strptime df = Ok (valid, records) ->
  today <= today' ->
  validate_all today' strptime' valid = Ok (valid, []).
Proof.
  intros Hrun Hday.
  destruct (validate_all_outcome today strptime df)
    as [([Hnum Hdt] & _ & Hrun') | [_ (e & He & _)]]; [|congruence].
  rewrite Hrun in Hrun'. injection Hrun' as Hvalid _.
  assert (Hsch : schema valid = schema (dated strptime df)) by (by subst valid).
  assert (Hrows : forall r', r' ∈ rows valid ->
            exists r, r' = output_row strptime df r /\ r ∈ rows df
                      /\ passes (rules_for today strptime df) r = true).
  { intros r' Hr'. subst valid. simpl in Hr'.
    rewrite rows_dated, select_rows_map in Hr'.
    apply list_elem_of_fmap in Hr' as (r & -> & Hr).
    apply list_elem_of_In, filter_In in Hr as [Hr Hp].
    exists r. split_and!; [done | by apply list_elem_of_In |].
    unfold passes. by destruct (all3 _ r) as [[]|]. }
  assert (Hdate : forall i t, find_column "order_date" (schema valid) = Some (i, t) ->
            t = Date /\ exists t0, find_column "order_date" (schema df) = Some (i, t0)
                                   /\ (t0 = Utf8 \/ t0 = Date)).
  { intros i t. rewrite Hsch.
    intros (t0 & Hf0 & ->)%find_column_dated_date.
    pose proof (Hdt i t0 Hf0) as Ht0. split; [|by exists t0].
    by destruct Ht0 as [-> | ->]. }
  assert (Hsame : dated strptime' valid = valid).
  { unfold dated.
    destruct (find_column "order_date" (schema valid)) as [[i t]|] eqn:Hf in |- *;
      [|done].
    by destruct (Hdate i t Hf) as [-> _]. }
  rewrite <- Hsame at 2. apply passing_frame_returns.
  - split.
    + intros c i t Hc. rewrite Hsch, find_column_dated_other.
      * by apply Hnum.
      * intros ->. unfold positive_cols in Hc.
        repeat (apply elem_of_cons in Hc as [Hc | Hc]; [discriminate|]).
        by apply elem_of_nil in Hc.
    + intros i t Hf. right. by destruct (Hdate i t Hf).
  - intros r' Hr'. destruct (Hrows r' Hr') as (r & -> & Hr & Hpass).
    pose proof (proj1 (passes_iff _ _) Hpass) as Hall.
    apply passes_iff. intros rl'.
    intros [(c & Hc & Hrl) | [(c & Hc & Hrl) | Hrl]]%rule_in_force.
    + (* a critical column is not null *)
      unfold not_null_rules in Hrl.
      destruct (find_column c (schema valid)) as [[j t]|] eqn:Hf in Hrl;
        [|by apply elem_of_nil in Hrl].
      apply list_elem_of_singleton in Hrl as ->. simpl. unfold not_null.
      destruct (decide (c = "order_date")) as [-> | Hne].
      * destruct (Hdate j t Hf) as (_ & t0 & Hf0 & _).
        rewrite (cell_output_date _ _ _ _ Hf0).
        assert (Hv : not_after_today today (as_date strptime t0 (cell j r))
                     = Some true).
        { apply (Hall (mkRule "VALID_DATE_RANGE" "order_date"
                         (fun r => not_after_today today
                                     (as_date strptime t0 (cell j r))))).
          apply rule_in_force. right; right. unfold date_rules. rewrite Hf0.
          apply list_elem_of_here. }
        by destruct (as_date strptime t0 (cell j r)).
      * rewrite Hsch, find_column_dated_other in Hf by done.
        rewrite (cell_output_other _ _ _ _ _ Hf Hne).
        apply (Hall (mkRule ("NOT_NULL_" +:+ c) c (fun r => not_null (cell j r)))).
        apply rule_in_force. left. exists c. split; [done|].
        unfold not_null_rules. rewrite Hf. apply list_elem_of_here.
    + (* a positive column is positive *)
      assert (Hne : c <> "order_date").
      { intros ->. unfold positive_cols in Hc.
        repeat (apply elem_of_cons in Hc as [Hc | Hc]; [discriminate|]).
        by apply elem_of_nil in Hc. }
      unfold positive_rules in Hrl.
      destruct (find_column c (schema valid)) as [[j t]|] eqn:Hf in Hrl;
        [|by apply elem_of_nil in Hrl].
      apply list_elem_of_singleton in Hrl as ->. simpl.
      rewrite Hsch, find_column_dated_other in Hf by done.
      rewrite (cell_output_other _ _ _ _ _ Hf Hne).
      apply (Hall (mkRule ("POSITIVE_" +:+ c) c (fun r => gt_lit 0 (cell j r)))).
      apply rule_in_force. right; left. exists c. split; [done|].
      unfold positive_rules. rewrite Hf. apply list_elem_of_here.
    + (* the date is a day that has come *)
      unfold date_rules in Hrl.
      destruct (find_column "order_date" (schema valid)) as [[j t]|] eqn:Hf in Hrl;
        [|by apply elem_of_nil in Hrl].
      apply list_elem_of_singleton in Hrl as ->. simpl.
      destruct (Hdate j t Hf) as (-> & t0 & Hf0 & _).
      rewrite (cell_output_date _ _ _ _ Hf0). simpl.
      assert (Hv : not_after_today today (as_date strptime t0 (cell j r))
                   = Some true).
      { apply (Hall (mkRule "VALID_DATE_RANGE" "order_date"
                       (fun r => not_after_today today
                                   (as_date strptime t0 (cell j r))))).
        apply rule_in_force. right; right. unfold date_rules. rewrite Hf0.
        apply list_elem_of_here. }
      destruct (as_date strptime t0 (cell j r)); try done.
      simpl in *. injection Hv as Hv. apply bool_decide_eq_true in Hv.
      f_equal. apply bool_decide_eq_true. lia.
Qed.

End Again.

(** ** Instances *)

(** The example frame of the module, validated on a day of 2024 and its
    valid row once more a day later, with a parser that knows no date. *)
Lemma validates_again_witness :
  exists valid records,
    validate_all 20000 example_dates example_orders = Ok (valid, records)
    /\ height valid = 1%nat
    /\ validate_all 20001 Medallion.no_dates valid = Ok (valid, []).
Proof.
  do 2 eexists. split; [vm_compute; reflexivity|]. split; [reflexivity|].
  apply (valid_frame_validates_again 20000 example_dates 20001 Medallion.no_dates
           example_orders _ _ eq_refl).
  lia.
Defined.

(** A null quantity beside a quantity that fails: the dtypes are right, the
    rule POSITIVE_quantity is blocked, and [validate_all] raises. *)
Example blocked_quantity :
  let df := mkDF [("quantity", Int64)] [[VInt 1]; [VNull]; [VInt 0]] in
  typed df
  /\ blocked (mkRule "POSITIVE_quantity" "quantity" (fun r => gt_lit 0 (cell 0 r)))
             (rows df) = true
  /\ validate_all 20000 example_dates df = Raise TypeError.
Proof.
  split; [|split; [reflexivity | vm_compute; reflexivity]].
  split.
  - intros c i t _. simpl. case_decide; [|done]. by intros [= <- <-].
  - intros i t. simpl. done.
Qed.

End Validating.

(** * The schema of the wallet data and the block that isolates failures

    [src/validation/schema_validation.py] and the "Validate schema" block
    of [src/main.py]. *)

Module Isolating.
Import Polars Wallet.

(** ** The identifiers that the pattern accepts *)

(** One line feed. *)
Definition line_feed : string := String (ascii_of_nat 10) EmptyString.

Lemma line_feed_not_id_char : id_char (ascii_of_nat 10) = false.
Proof. reflexivity. Qed.

Lemma id_tail_iff (s : string) :
  id_tail s = true
  <-> exists body,
        all_chars id_char body = true /\ (s = body \/ s = body +:+ line_feed).
Proof.
  induction s as [|a s IH]; simpl.
  - split; [|done]. intros _. exists EmptyString. auto.
  - destruct (id_char a) eqn:Ha.
    + rewrite IH. split.
      * intros (body & Hb & Hs). exists (String a body). simpl. rewrite Ha, Hb.
        split; [done|]. destruct Hs as [-> | ->]; auto.
      * intros (body & Hb & Hs). destruct body as [|b body]; simpl in *.
        -- destruct Hs as [Hs | Hs]; [done|]. injection Hs as -> _.
           by rewrite line_feed_not_id_char in Ha.
        -- apply andb_true_iff in Hb as [_ Hb]. exists body. split; [done|].
           destruct Hs as [Hs | Hs]; injection Hs as _ ->; auto.
    + split.
      * intros [Hn ->%bool_decide_eq_true]%andb_true_iff.
        apply Nat.eqb_eq in Hn. exists EmptyString. split; [done|]. right.
        unfold line_feed. simpl. by rewrite <- Hn, ascii_nat_embedding.
      * intros (body & Hb & Hs). destruct body as [|b body]; simpl in *.
        -- destruct Hs as [Hs | Hs]; [done|]. injection Hs as -> ->.
           by rewrite bool_decide_eq_true_2.
        -- apply andb_true_iff in Hb as [Hb _].
           destruct Hs as [Hs | Hs]; injection Hs as -> _; congruence.
Qed.

(** [Check.str_matches(r'^[a-zA-Z0-9_-]+$')] accepts the strings made of one
    character of the class or more, and the same strings followed by one
    line feed: [$] also matches before a line feed that ends the string. *)
Theorem matches_id_iff (s : string) :
  matches_id s = true
  <-> exists body,
        body <> EmptyString /\ all_chars id_char body = true
        /\ (s = body \/ s = body +:+ line_feed).
Proof.
  destruct s as [|a s]; simpl.
  - split; [done|]. intros (body & Hne & _ & [Hs | Hs]); [congruence|].
    by destruct body.
  - rewrite andb_true_iff, id_tail_iff. split.
    + intros (Ha & body & Hb & Hs). exists (String a body). simpl.
      rewrite Ha, Hb. split_and!; [done | done |].
      destruct Hs as [-> | ->]; auto.
    + intros (body & Hne & Hb & Hs). destruct body as [|b body]; [done|].
      simpl in Hb. apply andb_true_iff in Hb as [Hb1 Hb2].
      destruct Hs as [Hs | Hs]; injection Hs as -> ->; eauto.
Qed.

(** ** Frames without a failure case *)













(** ** What the block keeps *)


End Isolating.

(** * [src/transformations/silver_transformer.py]

    The cleaning steps of [SilverTransformer], each by itself. *)

Module Transformer.
Import Polars Agents Medallion Profiling Cleaning.

(** ** [clean_whitespace] *)

Definition clean_whitespace (df : DataFrame) : DataFrame :=
  fold_left strip_if_text (columns df) df.

(** ** [standardize_column_names] *)

(** [str.replace(old, new)] for an [old] and a [new] of one character. *)
Fixpoint replace (old new : ascii) (s : string) : string :=
  match s with
  | EmptyString => EmptyString
  | String a s' => String (if decide (a = old) then new else a) (replace old new s')
  end.

(** [col.lower().replace(' ', '_').replace('-', '_')] *)
Definition standard_name (col : string) : string :=
  replace "-" "_" (replace " " "_" (lower col)).

(** [df.rename({col: ... for col in df.columns})]: polars refuses a
    renaming that gives two columns one name. *)
Definition standardize_column_names (df : DataFrame) : result DataFrame :=
  let sch := map (fun ct => (standard_name ct.1, ct.2)) (schema df) in
  if bool_decide (NoDup (map fst sch)) then Ok (mkDF sch (rows df))
  else Raise DuplicateError.

(** ** [handle_missing_values] *)

(** [Series.forward_fill()]: a null takes the last value before it that is
    not null, and stays null when there is none. *)
Fixpoint forward_fill_from (last : value) (s : list value) : list value :=
  match s with
  | [] => []
  | v :: s' =>
      if is_null v then last :: forward_fill_from last s'
      else v :: forward_fill_from v s'
  end.

Definition forward_fill (s : list value) : list value := forward_fill_from VNull s.

(** [Series.backward_fill()]: a null takes the next value after it that is
    not null. *)
Fixpoint backward_fill (s : list value) : list value :=
  match s with
  | [] => []
  | v :: s' =>
      let filled := backward_fill s' in
      (if is_null v then hd VNull filled else v) :: filled
  end.

(** [df.with_columns(<series>.alias(c))] for the column at position [i]. *)
Definition with_column (i : nat) (s : list value) (df : DataFrame) : DataFrame :=
  mkDF (schema df) (zip_with (fun v r => update_nth i (fun _ => v) r) s (rows df)).

(** [if col in df.columns: df = df.with_columns(pl.col(col).<fill>().alias(col))] *)
Definition fill_column (fill : list value -> list value) (df : DataFrame)
    (col : string) : DataFrame :=
  match find_column col (schema df) with
  | Some (i, _) => with_column i (fill (series i df)) df
  | None => df
  end.

Definition handle_missing_values (df : DataFrame) (strategy : string)
    (columns : option (list string)) : DataFrame :=
  let columns := default (Polars.columns df) columns in
  if decide (strategy = "drop") then fold_left drop_nulls columns df
  else if decide (strategy = "forward_fill")
  then fold_left (fill_column forward_fill) columns df
  else if decide (strategy = "backward_fill")
  then fold_left (fill_column backward_fill) columns df
  else df.

(** ** [apply_business_rules] *)

Definition apply_business_rules (df : DataFrame) : result DataFrame :=
  df ← filter_if_present "quantity" (gt_lit 0) df;
  df ← filter_if_present "unit_price" (gt_lit 0) df;
  df ← filter_if_present "total_amount" (ge_lit 0) df;
  filter_if_present "customer_age" (between 18 120) df.

(** ** Facts: white space *)

(** No cell of column [i] has white space at an end. *)
Definition stripped (i : nat) (df : DataFrame) : Prop :=
  forall r, r ∈ rows df -> strip_differs (cell i r) = false.

Lemma strip_column_stripped (i j : nat) (df : DataFrame) :
  i = j \/ stripped i df -> stripped i (strip_column j df).
Proof.
  intros H r Hr. simpl in Hr. apply list_elem_of_fmap in Hr as (r0 & -> & Hr0).
  rewrite cell_update_nth by done. case_decide.
  - apply Remediating.strip_differs_strip_value.
  - destruct H as [? | H]; [done | by apply H].
Qed.

Lemma strip_if_text_keeps (i : nat) (df : DataFrame) (c : string) :
  stripped i df -> stripped i (strip_if_text df c).
Proof.
  intros H. unfold strip_if_text.
  destruct (find_column c (schema df)) as [[j []]|]; try done.
  apply strip_column_stripped. by right.
Qed.

Lemma strip_fold_keeps (i : nat) (cols : list string) (df : DataFrame) :
  stripped i df -> stripped i (fold_left strip_if_text cols df).
Proof.
  revert df; induction cols as [|c cols IH]; intros df H; simpl; [done|].
  by apply IH, strip_if_text_keeps.
Qed.

Lemma strip_fold_strips (i : nat) (c : string) (cols : list string) (df : DataFrame) :
  c ∈ cols -> find_column c (schema df) = Some (i, Utf8) ->
  stripped i (fold_left strip_if_text cols df).
Proof.
  revert df; induction cols as [|c' cols IH]; intros df Hc Hf;
    [by apply elem_of_nil in Hc|].
  simpl. destruct (decide (c' = c)) as [-> | Hne].
  - apply strip_fold_keeps. unfold strip_if_text. rewrite Hf.
    apply strip_column_stripped. by left.
  - apply IH.
    + by apply elem_of_cons in Hc as [-> | Hc].
    + by rewrite (proj1 (strip_if_text_shape _ _)).
Qed.

Lemma update_nth_fixed (f : value -> value) (i : nat) (r : Row) :
  f (cell i r) = cell i r -> update_nth i f r = r.
Proof.
  unfold cell. revert i; induction r as [|x r IH]; intros [|i]; simpl; try done.
  - by intros ->.
  - intros H. by rewrite IH.
Qed.

Lemma strip_differs_false (v : value) :
  strip_differs v = false -> strip_value v = v.
Proof.
  destruct v; simpl; try done. intros H. apply negb_false_iff in H.
  apply bool_decide_eq_true in H. by rewrite H.
Qed.

Lemma strip_if_text_fixed (df : DataFrame) (c : string) :
  (forall i, find_column c (schema df) = Some (i, Utf8) -> stripped i df) ->
  strip_if_text df c = df.
Proof.
  intros H. unfold strip_if_text.
  destruct (find_column c (schema df)) as [[i []]|]; try done.
  specialize (H i eq_refl). unfold strip_column. destruct df as [sch rws].
  simpl in *. f_equal. apply Agents.map_fixed. intros r Hr.
  apply update_nth_fixed, strip_differs_false. by apply H.
Qed.

Lemma strip_fold_fixed (cols : list string) (df : DataFrame) :
  (forall c i, c ∈ cols -> find_column c (schema df) = Some (i, Utf8) ->
               stripped i df) ->
  fold_left strip_if_text cols df = df.
Proof.
  induction cols as [|c cols IH]; intros H; simpl; [done|].
  rewrite strip_if_text_fixed.
  - apply IH. intros c' i Hc'. by apply H, list_elem_of_further.
  - intros i. apply H, list_elem_of_here.
Qed.

(** [clean_whitespace] keeps the columns and the number of rows, leaves no
    text cell with white space at an end, and changes nothing when it is
    applied again. *)
Theorem clean_whitespace_strips (df : DataFrame) :
  schema (clean_whitespace df) = schema df
  /\ height (clean_whitespace df) = height df
  /\ (forall c i, find_column c (schema df) = Some (i, Utf8) ->
        forall r, r ∈ rows (clean_whitespace df) ->
          strip_differs (cell i r) = false)
  /\ clean_whitespace (clean_whitespace df) = clean_whitespace df.
Proof.
  unfold clean_whitespace.
  destruct (strip_fold_shape (columns df) df) as [Hs Hh].
  assert (Hstrip : forall c i, find_column c (schema df) = Some (i, Utf8) ->
            stripped i (fold_left strip_if_text (columns df) df)).
  { intros c i Hf. apply (strip_fold_strips i c); [|done].
    by apply find_column_elem in Hf. }
  split_and!; [done | done | exact Hstrip |].
  unfold columns at 1. rewrite Hs. fold (columns df).
  apply strip_fold_fixed. intros c i _. rewrite Hs. apply Hstrip.
Qed.

(** ** Facts: column names *)









(** ** Facts: business rules *)

Lemma filter_if_present_again (c : string) (p : value -> option bool)
    (d d' out : DataFrame) :
  filter_if_present c p d = Ok d' ->
  schema out = schema d ->
  (forall r, r ∈ rows out -> checked (schema d) c (fun v => p v = Some true) r) ->
  filter_if_present c p out = Ok out.
Proof.
  unfold filter_if_present, filter_num, checked. intros Hrun Hs Hrows.
  rewrite Hs. destruct (find_column c (schema d)) as [[i t]|]; [|done].
  destruct (is_numeric t); [|done]. f_equal.
  unfold filter_rows. destruct out as [sch rws]. simpl in *. f_equal.
  apply Agents.filter_all. intros r Hr. unfold keeps.
  by rewrite (Hrows r Hr i t eq_refl).
Qed.

(** The rows that the business rules let through. *)
Definition within_rules (sch : list (string * dtype)) (r : Row) : Prop :=
  checked sch "quantity" (fun v => gt_lit 0 v = Some true) r
  /\ checked sch "unit_price" (fun v => gt_lit 0 v = Some true) r
  /\ checked sch "total_amount" (fun v => ge_lit 0 v = Some true) r
  /\ checked sch "customer_age" (fun v => between 18 120 v = Some true) r.

(** [apply_business_rules] keeps the columns and exactly the rows within
    the rules (a positive quantity and unit price, a total that is not
    negative, an age from 18 to 120, for the columns that are there), and
    changes nothing when it is applied to its result. *)
Theorem apply_business_rules_outcome (df out : DataFrame) :
  apply_business_rules df = Ok out ->
  schema out = schema df
  /\ (forall r, r ∈ rows out <-> r ∈ rows df /\ within_rules (schema df) r)
  /\ apply_business_rules out = Ok out.
Proof.
  unfold apply_business_rules.
  destruct (filter_if_present "quantity" (gt_lit 0) df) as [d1|e] eqn:H1; [|done].
  cbn [mbind result_bind].
  destruct (filter_if_present "unit_price" (gt_lit 0) d1) as [d2|e] eqn:H2; [|done].
  cbn [mbind result_bind].
  destruct (filter_if_present "total_amount" (ge_lit 0) d2) as [d3|e] eqn:H3; [|done].
  cbn [mbind result_bind]. intros H4.
  pose proof (filter_if_present_narrows _ _ _ _ H1) as (S1 & _ & R1).
  pose proof (filter_if_present_narrows _ _ _ _ H2) as (S2 & _ & R2).
  pose proof (filter_if_present_narrows _ _ _ _ H3) as (S3 & _ & R3).
  pose proof (filter_if_present_narrows _ _ _ _ H4) as (S4 & _ & R4).
  rewrite S1 in S2, R2. rewrite S2 in S3, R3. rewrite S3 in S4, R4.
  assert (Hrows : forall r, r ∈ rows out <-> r ∈ rows df /\ within_rules (schema df) r).
  { intros r. rewrite R4, R3, R2, R1. unfold within_rules. tauto. }
  split_and!; [done | done |].
  assert (Hin : forall r, r ∈ rows out -> within_rules (schema df) r)
    by (intros r Hr; by apply Hrows).
  rewrite (filter_if_present_again _ _ _ _ out H1 S4); cbn [mbind result_bind].
  2:{ intros r Hr. by destruct (Hin r Hr) as (? & ? & ? & ?). }
  rewrite (filter_if_present_again _ _ _ _ out H2); cbn [mbind result_bind].
  2:{ congruence. }
  2:{ rewrite S1. intros r Hr. by destruct (Hin r Hr) as (? & ? & ? & ?). }
  rewrite (filter_if_present_again _ _ _ _ out H3); cbn [mbind result_bind].
  2:{ congruence. }
  2:{ rewrite S2. intros r Hr. by destruct (Hin r Hr) as (? & ? & ? & ?). }
  apply (filter_if_present_again _ _ _ _ out H4); [congruence|].
  rewrite S3. intros r Hr. by destruct (Hin r Hr) as (? & ? & ? & ?).
Qed.

(** ** Facts: missing values, dropped *)

Lemma drop_nulls_fold (cols : list string) (d : DataFrame) :
  schema (fold_left drop_nulls cols d) = schema d
  /\ forall r, r ∈ rows (fold_left drop_nulls cols d)
       <-> r ∈ rows d
           /\ forall c, c ∈ cols -> checked (schema d) c (fun v => v <> VNull) r.
Proof.
  revert d; induction cols as [|c cols IH]; intros d; simpl.
  - split; [done|]. intros r. split; [|tauto].
    intros Hr. split; [done|]. by intros c ?%elem_of_nil.
  - destruct (IH (drop_nulls d c)) as [Hs Hr].
    destruct (drop_nulls_narrows d c) as (Hs1 & _ & Hr1).
    split; [congruence|]. intros r. rewrite Hr, Hr1, Hs1. split.
    + intros [[Hin Hc] Hrest]. split; [done|].
      by intros c' [-> | Hc']%elem_of_cons; [|apply Hrest].
    + intros [Hin Hall]. split; [split; [done|]|].
      * apply Hall, list_elem_of_here.
      * intros c' Hc'. by apply Hall, list_elem_of_further.
Qed.

(** With the strategy drop, [handle_missing_values] keeps the columns and
    exactly the rows that have no null in any of the listed columns (all
    the columns when none is listed); a strategy that it does not know
    leaves the frame as it is. *)
Theorem handle_missing_values_drop (df : DataFrame) (columns : option (list string)) :
  let out := handle_missing_values df "drop" columns in
  schema out = schema df
  /\ (forall r, r ∈ rows out
        <-> r ∈ rows df
            /\ forall c, c ∈ default (Polars.columns df) columns ->
                  checked (schema df) c (fun v => v <> VNull) r)
  /\ forall strategy,
       strategy <> "drop" -> strategy <> "forward_fill" ->
       strategy <> "backward_fill" ->
       handle_missing_values df strategy columns = df.
Proof.
  cbn zeta. unfold handle_missing_values. rewrite decide_True by done.
  destruct (drop_nulls_fold (default (Polars.columns df) columns) df) as [Hs Hr].
  split_and!; [done | done |].
  intros strategy H1 H2 H3. by rewrite !decide_False by done.
Qed.

(** ** Facts: missing values, filled *)

(** The last value of a series that is not null, and the first one; null
    when every value is null. *)
Definition last_value_from (last : value) (s : list value) : value :=
  fold_left (fun acc v => if is_null v then acc else v) s last.

Definition last_value (s : list value) : value := last_value_from VNull s.

Fixpoint first_value (s : list value) : value :=
  match s with
  | [] => VNull
  | v :: s' => if is_null v then first_value s' else v
  end.

Lemma length_forward_fill_from (last : value) (s : list value) :
  length (forward_fill_from last s) = length s.
Proof.
  revert last; induction s as [|v s IH]; intros last; simpl; [done|].
  destruct (is_null v); simpl; by rewrite IH.
Qed.

Lemma length_backward_fill (s : list value) : length (backward_fill s) = length s.
Proof. induction s as [|v s IH]; simpl; [done|]. by rewrite IH. Qed.

Lemma forward_fill_from_lookup (last : value) (s : list value) (k : nat) :
  (k < length s)%nat ->
  forward_fill_from last s !! k = Some (last_value_from last (take (S k) s)).
Proof.
  unfold last_value_from. revert last k; induction s as [|v s IH]; intros last k Hk;
    simpl in *; [lia|].
  destruct k as [|k].
  - rewrite take_0. simpl. by destruct (is_null v).
  - destruct (is_null v); simpl; apply IH; lia.
Qed.

Lemma hd_backward_fill (s : list value) : hd VNull (backward_fill s) = first_value s.
Proof.
  induction s as [|v s IH]; simpl; [done|]. by destruct (is_null v).
Qed.

Lemma backward_fill_lookup (s : list value) (k : nat) :
  (k < length s)%nat ->
  backward_fill s !! k = Some (first_value (drop k s)).
Proof.
  revert k; induction s as [|v s IH]; intros k Hk; simpl in *; [lia|].
  destruct k as [|k]; simpl.
  - by rewrite hd_backward_fill.
  - apply IH. lia.
Qed.

Lemma forward_fill_from_idempotent (last : value) (s : list value) :
  forward_fill_from last (forward_fill_from last s) = forward_fill_from last s.
Proof.
  revert last; induction s as [|v s IH]; intros last; simpl; [done|].
  destruct (is_null v) eqn:Hv; simpl.
  - destruct (is_null last); by rewrite IH.
  - by rewrite Hv, IH.
Qed.

Lemma backward_fill_idempotent (s : list value) :
  backward_fill (backward_fill s) = backward_fill s.
Proof.
  induction s as [|v s IH]; simpl; [done|]. rewrite IH. f_equal.
  destruct (is_null v) eqn:Hv; [|by rewrite Hv].
  by destruct (is_null (hd VNull (backward_fill s))).
Qed.

(** What the two fills put into a series, position by position. *)
Lemma fills_by_position (s : list value) (k : nat) :
  (k < length s)%nat ->
  forward_fill s !! k = Some (last_value (take (S k) s))
  /\ backward_fill s !! k = Some (first_value (drop k s)).
Proof.
  intros Hk. split; [by apply forward_fill_from_lookup | by apply backward_fill_lookup].
Qed.

(** *** Frames whose rows have a cell for every column *)

Definition rectangular (df : DataFrame) : Prop :=
  forall r, r ∈ rows df -> length r = length (schema df).

Lemma length_update_nth {A} (f : A -> A) (i : nat) (l : list A) :
  length (update_nth i f l) = length l.
Proof.
  revert i; induction l as [|x l IH]; intros [|i]; simpl; try done. by rewrite IH.
Qed.

Lemma cell_set (i : nat) (v : value) (r : Row) :
  (i < length r)%nat -> cell i (update_nth i (fun _ => v) r) = v.
Proof.
  unfold cell. revert i; induction r as [|x r IH]; intros [|i] Hi; simpl in *;
    try lia; [done|]. apply IH. lia.
Qed.

Lemma cell_set_other (i j : nat) (f : value -> value) (r : Row) :
  i <> j -> cell j (update_nth i f r) = cell j r.
Proof.
  unfold cell. revert i j; induction r as [|x r IH]; intros [|i] [|j] Hij; simpl;
    try done. apply IH. lia.
Qed.

Lemma with_column_series (i : nat) (s : list value) (df : DataFrame) :
  rectangular df -> (i < length (schema df))%nat -> length s = height df ->
  rectangular (with_column i s df)
  /\ height (with_column i s df) = height df
  /\ series i (with_column i s df) = s
  /\ forall j, j <> i -> series j (with_column i s df) = series j df.
Proof.
  unfold rectangular, with_column, series, height. destruct df as [sch rws].
  simpl. intros Hrect Hi. revert s; induction rws as [|r rws IH]; intros s Hlen.
  - destruct s; [|done]. simpl. split_and!; [|done..]. by intros r ?%elem_of_nil.
  - destruct s as [|v s]; [done|]. simpl in *.
    destruct (IH (fun r Hr => Hrect r (list_elem_of_further _ _ _ Hr)) s)
      as (H1 & H0 & H2 & H3); [lia|].
    pose proof (Hrect r (list_elem_of_here _ _)) as Hr.
    split_and!.
    + intros r' [-> | Hr']%elem_of_cons; [by rewrite length_update_nth | by apply H1].
    + by rewrite H0.
    + rewrite H2, cell_set; [done | lia].
    + intros j Hj. rewrite (H3 j Hj), cell_set_other; [done | lia].
Qed.

Section Fill.

Variable fill : list value -> list value.
Hypothesis length_fill : forall s, length (fill s) = length s.
Hypothesis fill_idempotent : forall s, fill (fill s) = fill s.

(** The loop [for col in columns] of a fill strategy: the listed columns
    that the frame has are filled, each by itself. *)
Lemma fill_fold (df : DataFrame) (cols : list string) :
  rectangular df ->
  let out := fold_left (fill_column fill) cols df in
  schema out = schema df
  /\ height out = height df
  /\ forall c i t, find_column c (schema df) = Some (i, t) ->
       series i out = if bool_decide (c ∈ cols) then fill (series i df)
                      else series i df.
Proof.
  cbn zeta.
  assert (Hgen : forall cols (d : DataFrame) (filled : list string),
            schema d = schema df -> height d = height df -> rectangular d ->
            (forall c i t, find_column c (schema df) = Some (i, t) ->
               series i d = if bool_decide (c ∈ filled) then fill (series i df)
                            else series i df) ->
            let out := fold_left (fill_column fill) cols d in
            schema out = schema df /\ height out = height df
            /\ forall c i t, find_column c (schema df) = Some (i, t) ->
                 series i out
                 = if bool_decide (c ∈ filled ++ cols) then fill (series i df)
                   else series i df).
  { clear cols.
    induction cols as [|c0 cols IH]; intros d filled Hs Hh Hrect Hser; simpl.
    - rewrite app_nil_r. by split_and!.
    - specialize (IH (fill_column fill d c0) (filled ++ [c0])).
      rewrite <- app_assoc in IH. simpl in IH.
      assert (Hlen : forall j, length (fill (series j d)) = height d).
      { intros j. rewrite length_fill. unfold series, height. by rewrite length_map. }
      unfold fill_column in *.
      destruct (find_column c0 (schema d)) as [[i0 t0]|] eqn:Hf.
      + pose proof (find_column_lt _ _ _ _ Hf) as Hlt.
        destruct (with_column_series i0 (fill (series i0 d)) d Hrect Hlt (Hlen i0))
          as (R1 & H0 & H2 & H3).
        rewrite Hs in Hf.
        apply IH; clear IH; [done | congruence | done |].
        intros c i t Hc. destruct (decide (i = i0)) as [-> | Hne].
        * assert (c = c0) as -> by apply (find_column_index _ _ _ _ _ _ Hc Hf).
          rewrite H2, (Hser c0 i0 t Hc).
          rewrite (bool_decide_eq_true_2 (c0 ∈ filled ++ [c0]))
            by (apply elem_of_app; right; apply list_elem_of_here).
          case_bool_decide; [apply fill_idempotent | done].
        * rewrite (H3 i Hne), (Hser c i t Hc).
          assert (c <> c0) by (intros ->; congruence).
          assert (Hiff : c ∈ filled ++ [c0] <-> c ∈ filled)
            by (rewrite elem_of_app, list_elem_of_singleton; tauto).
          by rewrite (bool_decide_ext _ _ Hiff).
      + apply IH; clear IH; [done..|].
        intros c i t Hc. rewrite (Hser c i t Hc).
        assert (c <> c0) by (intros ->; rewrite Hs in Hf; congruence).
        assert (Hiff : c ∈ filled ++ [c0] <-> c ∈ filled)
          by (rewrite elem_of_app, list_elem_of_singleton; tauto).
        by rewrite (bool_decide_ext _ _ Hiff). }
  intros Hrect. apply (Hgen cols df []); [done | done | done |].
  intros c i t _. rewrite bool_decide_eq_false_2; [done|]. by intros ?%elem_of_nil.
Qed.

End Fill.

(** With a fill strategy [handle_missing_values] keeps the columns and the
    number of rows.  In a listed column that the frame has (any column when
    none is listed) the cell at a position becomes the last value up to that
    position that is not null (forward), or the first one from that position
    on (backward), and stays null when there is none; the other columns stay
    as they are. *)
Theorem handle_missing_values_fills (df : DataFrame) (columns : option (list string))
    (c : string) (i : nat) (t : dtype) (k : nat) :
  rectangular df ->
  find_column c (schema df) = Some (i, t) ->
  (k < height df)%nat ->
  let listed := bool_decide (c ∈ default (Polars.columns df) columns) in
  let forward := handle_missing_values df "forward_fill" columns in
  let backward := handle_missing_values df "backward_fill" columns in
  schema forward = schema df /\ schema backward = schema df
  /\ height forward = height df /\ height backward = height df
  /\ series i forward !! k
     = (if listed then Some (last_value (take (S k) (series i df)))
        else series i df !! k)
  /\ series i backward !! k
     = (if listed then Some (first_value (drop k (series i df)))
        else series i df !! k).
Proof.
  intros Hrect Hf Hk. cbn zeta. unfold handle_missing_values.
  rewrite decide_False by done. rewrite decide_True by done.
  rewrite decide_False by done. rewrite decide_False by done.
  rewrite decide_True by done.
  destruct (fill_fold forward_fill (length_forward_fill_from VNull)
              (forward_fill_from_idempotent VNull) df
              (default (Polars.columns df) columns) Hrect) as (S1 & L1 & F1).
  destruct (fill_fold backward_fill length_backward_fill backward_fill_idempotent df
              (default (Polars.columns df) columns) Hrect) as (S2 & L2 & F2).
  assert (Hlen : (k < length (series i df))%nat)
    by (unfold series; by rewrite length_map).
  destruct (fills_by_position (series i df) k Hlen) as [Hfw Hbw].
  rewrite (F1 c i t Hf), (F2 c i t Hf).
  split_and!; [done..| |]; by case_bool_decide.
Qed.

(** ** Instances *)

(** Readings with gaps. *)
Definition readings : DataFrame :=
  mkDF [("sensor", Utf8); ("value", Int64)]
       [[VStr "a"; VNull]; [VStr "b"; VInt 7]; [VStr "c"; VNull]].

Lemma fills_witness :
  series 1 (handle_missing_values readings "forward_fill" (Some ["value"]))
  = [VNull; VInt 7; VInt 7]
  /\ series 1 (handle_missing_values readings "forward_fill" (Some ["value"])) !! 2%nat
     = Some (last_value (take 3 (series 1 readings))).
Proof.
  split; [reflexivity|].
  assert (Hrect : rectangular readings).
  { intros r Hr. simpl in Hr.
    repeat (apply elem_of_cons in Hr as [-> | Hr]; [reflexivity|]).
    by apply elem_of_nil in Hr. }
  destruct (handle_missing_values_fills readings (Some ["value"]) "value" 1 Int64 2
              Hrect eq_refl) as (_ & _ & _ & _ & Hfw & _);
    [unfold height; simpl; lia|].
  exact Hfw.
Defined.

(** Orders of which one has no quantity and one no customer of age. *)
Definition orders_to_check : DataFrame :=
  mkDF [("quantity", Int64); ("customer_age", Int64)]
       [[VInt 2; VInt 30]; [VInt 0; VInt 30]; [VInt 1; VInt 17]; [VInt 1; VInt 120]].

Lemma apply_business_rules_witness :
  apply_business_rules orders_to_check
  = Ok (mkDF [("quantity", Int64); ("customer_age", Int64)]
             [[VInt 2; VInt 30]; [VInt 1; VInt 120]])
  /\ apply_business_rules
       (mkDF [("quantity", Int64); ("customer_age", Int64)]
             [[VInt 2; VInt 30]; [VInt 1; VInt 120]])
     = Ok (mkDF [("quantity", Int64); ("customer_age", Int64)]
                [[VInt 2; VInt 30]; [VInt 1; VInt 120]]).
Proof.
  split; [reflexivity|].
  exact (proj2 (proj2 (apply_business_rules_outcome orders_to_check _ eq_refl))).
Defined.

(** The frame of the module's own test: one name padded, one salary
    missing. *)
Example transformer_test :
  let df := mkDF [("Name", Utf8); ("Age", Int64); ("Salary", Int64)]
                 [[VStr "  Alice  "; VInt 25; VInt 50000];
                  [VStr "Bob"; VInt 30; VNull];
                  [VStr "Charlie"; VInt 35; VInt 70000]] in
  standardize_column_names (clean_whitespace df)
  = Ok (mkDF [("name", Utf8); ("age", Int64); ("salary", Int64)]
             [[VStr "Alice"; VInt 25; VInt 50000];
              [VStr "Bob"; VInt 30; VNull];
              [VStr "Charlie"; VInt 35; VInt 70000]]).
Proof. vm_compute. reflexivity. Qed.

End Transformer.
